(** * Bloom Budget: categorization, budgets, fraud heuristics, sync retries

    A shallow embedding of the backend services of the budget application
    (categorizationService, transactionService, budgetService,
    fraudDetectionService, syncScheduler, the Budget / FraudAlert /
    CategorizationRule models) and of the two review badges of the
    frontend, followed by the properties they satisfy.

    Conventions of the embedding:
    - a Prisma table is the list of its rows, in storage order; [findFirst]
      without [orderBy] returns the first row that satisfies the [where]
      clause, [findMany] all of them, [create] appends a row;
    - a JavaScript [Date] is its epoch time in milliseconds, a [Z];
    - a money amount ([Decimal(12,2)] column, [number] in the services) is
      an exact rational, a [Q]; where a property depends on how the
      service computes on numbers, the rounding is modelled: IEEE doubles
      for the progress of a budget ([BudgetNumbers]), an explicit rounding
      of every operation for the trends, the scale of the column for
      stored budgets ([BudgetTable]);
    - the paginated listing leaves to the database the order of rows of
      the same date and the answer to a negative [skip] or [take];
    - strings are [string]s of 8-bit characters; case folding and white
      space are those of the ASCII range;
    - an optional field ([string | undefined], nullable column) is an
      [option]; JavaScript truthiness of such a field is [truthy];
    - calendar arithmetic on a [Date] ([setDate], [setMinutes]) is that of
      a time zone without daylight-saving shifts: 30 days and 5 minutes
      are fixed numbers of milliseconds;
    - every service call runs to its end before the next one starts.

    Beyond these services the development covers the import from Plaid
    and the paginated listing of transactionService, the review of fraud
    alerts, reportingService with the in-memory cache of its routes, the
    script that runs the fraud detection again, and the statuses the
    budget and fraud routes answer with. *)

From Stdlib Require Import ZArith QArith Qabs String Ascii List Bool Lia.
From Stdlib Require Import Sorting.Permutation Sorting.Sorted.
From Stdlib Require Import Qround.
From Stdlib Require Import Lqa.
From Stdlib Require PrimFloat Uint63.
From stdpp Require Import gmap strings pretty.
Import ListNotations.

Local Open Scope string_scope.
Local Open Scope Z_scope.

(** ** JavaScript string primitives used by the services *)

Module Js.

Definition isWhiteSpace (c : ascii) : bool :=
  let n := nat_of_ascii c in
  (Nat.eqb n 32 || (Nat.leb 9 n && Nat.leb n 13))%bool.

Definition isUpper (c : ascii) : bool :=
  let n := nat_of_ascii c in (Nat.leb 65 n && Nat.leb n 90)%bool.

Definition isLower (c : ascii) : bool :=
  let n := nat_of_ascii c in (Nat.leb 97 n && Nat.leb n 122)%bool.

Definition isDigit (c : ascii) : bool :=
  let n := nat_of_ascii c in (Nat.leb 48 n && Nat.leb n 57)%bool.

(** [\w] of a regular expression: letters, digits and the underscore. *)
Definition isWordChar (c : ascii) : bool :=
  (isUpper c || isLower c || isDigit c || Nat.eqb (nat_of_ascii c) 95)%bool.

Definition lowerChar (c : ascii) : ascii :=
  if isUpper c then ascii_of_nat (nat_of_ascii c + 32) else c.

Fixpoint toLowerCase (s : string) : string :=
  match s with
  | EmptyString => EmptyString
  | String c r => String (lowerChar c) (toLowerCase r)
  end.

Fixpoint trimStart (s : string) : string :=
  match s with
  | EmptyString => EmptyString
  | String c r => if isWhiteSpace c then trimStart r else s
  end.

Fixpoint reverse (s acc : string) : string :=
  match s with
  | EmptyString => acc
  | String c r => reverse r (String c acc)
  end.

Definition trimEnd (s : string) : string :=
  reverse (trimStart (reverse s EmptyString)) EmptyString.

Definition trim (s : string) : string := trimEnd (trimStart s).

(** [hay.includes(needle)]: [needle] occurs somewhere in [hay]. *)
Fixpoint includes (needle hay : string) : bool :=
  String.prefix needle hay
  || match hay with
     | EmptyString => false
     | String _ r => includes needle r
     end.

(** Truthiness of an optional string: [undefined], [null] and the empty
    string are falsy. *)
Definition truthy (o : option string) : bool :=
  match o with
  | Some s => negb (String.eqb s "")
  | None => false
  end.

(** [a || b] on an optional string with a string default. *)
Definition orElse (a : option string) (b : string) : string :=
  match a with
  | Some s => if String.eqb s "" then b else s
  | None => b
  end.

(** [!s || s.trim().length === 0] *)
Definition isBlank (s : string) : bool := String.eqb (trim s) "".

(** Every character of the string is white space. *)
Fixpoint allWhiteSpace (s : string) : bool :=
  match s with
  | EmptyString => true
  | String c r => isWhiteSpace c && allWhiteSpace r
  end.

End Js.

(** ** Rows of the tables *)

Record Category := mkCategory {
  cat_id : string;
  cat_userId : option string;
  cat_name : string;
  cat_isSystem : bool
}.

Record CategorizationRule := mkRule {
  rule_id : string;
  rule_userId : string;
  rule_merchantPattern : string;
  rule_categoryId : string;
  rule_priority : Z;
  rule_learnedFromUser : bool
}.

Record Transaction := mkTransaction {
  tx_id : string;
  tx_userId : string;
  tx_amount : Q;
  tx_date : Z;
  tx_merchantName : option string;
  tx_description : string;
  tx_categoryId : option string;
  tx_categoryConfidence : Z;
  tx_isPending : bool;
  tx_locationCity : option string;
  tx_locationRegion : option string
}.

Record Budget := mkBudget {
  budget_id : string;
  budget_userId : string;
  budget_categoryId : string;
  budget_amount : Q;
  budget_period : string;
  budget_startDate : Z;
  budget_endDate : Z;
  budget_alertThreshold : Z;
  budget_isActive : bool
}.

Inductive FraudAlertType := unusual_amount | unusual_location | rapid_transactions.

Inductive FraudAlertSeverity := low | medium | high.

Record FraudAlert := mkFraudAlert {
  alert_id : string;
  alert_userId : string;
  alert_transactionId : string;
  alert_alertType : FraudAlertType;
  alert_severity : FraudAlertSeverity;
  alert_reason : string;
  alert_isReviewed : bool;
  alert_isFalsePositive : bool
}.

(** The database: one list of rows per table. *)
Record Db := mkDb {
  categories : list Category;
  categorizationRules : list CategorizationRule;
  transactions : list Transaction;
  budgets : list Budget;
  fraudAlerts : list FraudAlert
}.

Definition setCategories (cs : list Category) (db : Db) : Db :=
  mkDb cs (categorizationRules db) (transactions db) (budgets db) (fraudAlerts db).

Definition setRules (rs : list CategorizationRule) (db : Db) : Db :=
  mkDb (categories db) rs (transactions db) (budgets db) (fraudAlerts db).

Definition setTransactions (ts : list Transaction) (db : Db) : Db :=
  mkDb (categories db) (categorizationRules db) ts (budgets db) (fraudAlerts db).

Definition setBudgets (bs : list Budget) (db : Db) : Db :=
  mkDb (categories db) (categorizationRules db) (transactions db) bs (fraudAlerts db).

Definition setFraudAlerts (fs : list FraudAlert) (db : Db) : Db :=
  mkDb (categories db) (categorizationRules db) (transactions db) (budgets db) fs.

(** What lies outside the repository: the regular-expression engine behind
    [new RegExp(pattern, 'i').test(s)] ([None] when the constructor
    throws), the OpenAI client when [OPENAI_API_KEY] is set (from the
    prompt to the content of the first choice, [None] when the call throws
    or the reply has no content), and the identifiers the database
    generates (by number of rows already in the table). *)
Record Env := mkEnv {
  regexTest : string -> string -> option bool;
  openai : option (string -> option string);
  genId : nat -> string
}.

(** [where: { id, OR: [{ userId }, { isSystem: true }] }] *)
Definition categoryVisible (userId : string) (c : Category) : bool :=
  match cat_userId c with
  | Some u => String.eqb u userId
  | None => false
  end || cat_isSystem c.

(** ** categorizationService *)

Module Categorization.

Record CategorizationResult := mkResult {
  categoryId : string;
  confidence : Z
}.

Record TransactionForCategorization := mkTxCat {
  merchantName : option string;
  description : string;
  plaidCategory : option (list string)
}.

(** [CategorizationRuleModel.matchesMerchant] *)
Definition matchesMerchant (env : Env) (pattern name : string) : bool :=
  match regexTest env pattern name with
  | Some b => b
  | None => false
  end.

(** [orderBy: { priority: 'desc' }]; rows of equal priority keep their
    storage order. *)
Fixpoint insertByPriority (r : CategorizationRule) (l : list CategorizationRule)
  : list CategorizationRule :=
  match l with
  | [] => [r]
  | x :: xs =>
      if rule_priority r <? rule_priority x
      then x :: insertByPriority r xs
      else r :: l
  end.

Definition orderByPriorityDesc (l : list CategorizationRule)
  : list CategorizationRule :=
  fold_right insertByPriority [] l.

(** The order of the scan: no rule comes before one of higher priority. *)
Definition byPriorityDesc (a b : CategorizationRule) : Prop :=
  rule_priority b <= rule_priority a.

Definition rulesOf (userId : string) (rules : list CategorizationRule)
  : list CategorizationRule :=
  List.filter (fun r => String.eqb (rule_userId r) userId) rules.

Fixpoint firstMatchingRule (env : Env) (name : string)
  (rules : list CategorizationRule) : option CategorizationResult :=
  match rules with
  | [] => None
  | rule :: rest =>
      if matchesMerchant env (rule_merchantPattern rule) name
      then Some (mkResult (rule_categoryId rule) 95)
      else firstMatchingRule env name rest
  end.

Definition matchUserRules (env : Env) (db : Db) (userId : string)
  (transaction : TransactionForCategorization) : option CategorizationResult :=
  let name := Js.orElse (merchantName transaction) (description transaction) in
  firstMatchingRule env name
    (orderByPriorityDesc (rulesOf userId (categorizationRules db))).

(** The built-in table: each regular expression is an alternation of
    literals, kept as the list of its alternatives. *)
Definition patterns : list (list string * string * Z) :=
  [ (["walmart"; "target"; "costco"; "kroger"; "safeway"; "whole foods";
      "publix"; "trader joe"], "Groceries", 85);
    (["shell"; "chevron"; "exxon"; "bp"; "gas"; "fuel"; "marathon";
      "speedway"; "circle k"], "Gas & Fuel", 85);
    (["chick-fil-a"; "chick fil a"; "sonic"; "mcdonald"; "burger king";
      "wendy"; "taco bell"; "subway"; "chipotle"; "panera"], "Dining", 90);
    (["starbucks"; "coffee"; "cafe"; "dunkin"; "dutch bros"], "Dining", 85);
    (["restaurant"; "pizza"; "burger"; "food"; "dining"; "grill"; "kitchen";
      "bistro"], "Dining", 75);
    (["amazon"; "ebay"; "etsy"; "apple"; "one apple"], "Shopping", 80);
    (["netflix"; "spotify"; "hulu"; "disney"; "apple music"; "youtube";
      "hbo"], "Entertainment", 90);
    (["uber"; "lyft"; "taxi"; "transit"; "auto shop"; "service";
      "mechanic"], "Transportation", 85);
    (["duke energy"; "piedmont"; "natural gas"; "electric"; "water";
      "utility"; "power"; "energy"], "Utilities", 90);
    (["at&t"; "verizon"; "t-mobile"; "sprint"; "comcast"; "xfinity";
      "internet"; "phone"; "cable"], "Bills & Payments", 90);
    (["pharmacy"; "cvs"; "walgreens"; "doctor"; "hospital"; "medical";
      "health"; "clinic"], "Healthcare", 85);
    (["gym"; "fitness"; "yoga"; "sports"; "planet fitness"; "la fitness"],
     "Health & Fitness", 85);
    (["charity"; "donation"; "young life"; "church"; "nonprofit"],
     "Personal Care", 80);
    (["betterment"; "vanguard"; "fidelity"; "schwab"; "investment"; "bank"],
     "Bills & Payments", 80) ].

(** [/a|b|c/i.test(s)] on a lower-cased [s]. *)
Definition testAlternation (alternatives : list string) (s : string) : bool :=
  existsb (fun a => Js.includes a s) alternatives.

(** [prisma.category.findFirst({ where: { name, isSystem: true } })] *)
Definition findSystemCategory (cats : list Category) (name : string)
  : option Category :=
  find (fun c => String.eqb (cat_name c) name && cat_isSystem c) cats.

Fixpoint scanPatterns (cats : list Category) (name : string)
  (ps : list (list string * string * Z)) : option CategorizationResult :=
  match ps with
  | [] => None
  | (alternatives, categoryName, conf) :: rest =>
      if testAlternation alternatives name
      then match findSystemCategory cats categoryName with
           | Some category => Some (mkResult (cat_id category) conf)
           | None => scanPatterns cats name rest
           end
      else scanPatterns cats name rest
  end.

Definition matchMerchantPattern (db : Db)
  (transaction : TransactionForCategorization) : option CategorizationResult :=
  let merchantInfo :=
    Js.orElse (merchantName transaction) (description transaction) in
  if String.eqb merchantInfo "" then None
  else scanPatterns (categories db) (Js.toLowerCase merchantInfo) patterns.

(** The own entries of the [categoryMapping] object; a Plaid category
    name is taken not to be the name of a property that every object
    inherits. *)
Definition categoryMapping : list (string * string) :=
  [ ("Food and Drink", "Dining"); ("Restaurants", "Dining");
    ("Groceries", "Groceries"); ("Gas Stations", "Gas & Fuel");
    ("Transportation", "Transportation"); ("Travel", "Travel");
    ("Entertainment", "Entertainment"); ("Shopping", "Shopping");
    ("Healthcare", "Healthcare"); ("Utilities", "Utilities");
    ("Rent", "Housing"); ("Mortgage", "Housing") ].

Definition lookupMapping (key : string) : option string :=
  option_map snd (find (fun kv => String.eqb (fst kv) key) categoryMapping).

Definition matchPlaidCategory (db : Db)
  (transaction : TransactionForCategorization) : option CategorizationResult :=
  match plaidCategory transaction with
  | None => None
  | Some names =>
      match last names with
      | None => None
      | Some plaidCategoryName =>
          match lookupMapping plaidCategoryName with
          | Some mappedCategoryName =>
              if String.eqb mappedCategoryName "" then None
              else match findSystemCategory (categories db) mappedCategoryName with
                   | Some category => Some (mkResult (cat_id category) 70)
                   | None => None
                   end
          | None => None
          end
      end
  end.

Definition newline : string := String (ascii_of_nat 10) EmptyString.

Fixpoint join (sep : string) (l : list string) : string :=
  match l with
  | [] => ""
  | [x] => x
  | x :: rest => x +:+ sep +:+ join sep rest
  end.

Definition prompt (categoryList merchantInfo : string) : string :=
  "Categorize this transaction into one of these categories: " +:+ categoryList
  +:+ newline +:+ newline +:+ "Transaction: " +:+ merchantInfo
  +:+ newline +:+ newline
  +:+ "Respond with ONLY the category name, nothing else.".

Definition categorizeWithAI (env : Env) (db : Db) (userId : string)
  (transaction : TransactionForCategorization) : option CategorizationResult :=
  match openai env with
  | None => None
  | Some create =>
      let cats :=
        List.filter (fun c => cat_isSystem c
                              || match cat_userId c with
                                 | Some u => String.eqb u userId
                                 | None => false
                                 end) (categories db) in
      let categoryList := join ", " (map cat_name cats) in
      let merchantInfo :=
        Js.orElse (merchantName transaction) (description transaction) in
      match create (prompt categoryList merchantInfo) with
      | None => None
      | Some content =>
          let suggestedCategory := Js.trim content in
          if String.eqb suggestedCategory "" then None
          else match find (fun c => String.eqb (Js.toLowerCase (cat_name c))
                                      (Js.toLowerCase suggestedCategory)) cats with
               | Some category => Some (mkResult (cat_id category) 80)
               | None => None
               end
      end
  end.

(** Finds the system category named Uncategorized, creating it when it is
    missing. *)
Definition getDefaultCategory (env : Env) (db : Db) : Category * Db :=
  match findSystemCategory (categories db) "Uncategorized" with
  | Some category => (category, db)
  | None =>
      let category :=
        mkCategory (genId env (length (categories db))) None "Uncategorized" true in
      (category, setCategories (categories db ++ [category]) db)
  end.

Definition categorizeTransaction (env : Env) (db : Db) (userId : string)
  (transaction : TransactionForCategorization) : CategorizationResult * Db :=
  match matchUserRules env db userId transaction with
  | Some userRuleResult => (userRuleResult, db)
  | None =>
  match matchMerchantPattern db transaction with
  | Some merchantResult => (merchantResult, db)
  | None =>
  match matchPlaidCategory db transaction with
  | Some plaidResult => (plaidResult, db)
  | None =>
  match (match openai env with
         | Some _ => categorizeWithAI env db userId transaction
         | None => None
         end) with
  | Some aiResult => (aiResult, db)
  | None =>
      let (defaultCategory, db') := getDefaultCategory env db in
      (mkResult (cat_id defaultCategory) 0, db')
  end end end end.

(** The stages of the cascade, in the order they are tried. *)
Inductive Stage := UserRule | MerchantPattern | PlaidCategory | OpenAI | Default.

Definition stageResult (env : Env) (db : Db) (userId : string)
  (transaction : TransactionForCategorization) (s : Stage)
  : option CategorizationResult :=
  match s with
  | UserRule => matchUserRules env db userId transaction
  | MerchantPattern => matchMerchantPattern db transaction
  | PlaidCategory => matchPlaidCategory db transaction
  | OpenAI => categorizeWithAI env db userId transaction
  | Default => Some (mkResult (cat_id (fst (getDefaultCategory env db))) 0)
  end.

Definition stageRank (s : Stage) : nat :=
  match s with
  | UserRule => 0 | MerchantPattern => 1 | PlaidCategory => 2
  | OpenAI => 3 | Default => 4
  end.

End Categorization.

(** A call either returns or throws an [Error] with a message. *)
Inductive Outcome (A : Type) :=
| Ok (a : A)
| Throw (message : string).

Arguments Ok {A} a.
Arguments Throw {A} message.

(** ** Learning from a manual correction *)

Module Correction.

Definition suffixWords : list string :=
  ["inc"; "llc"; "ltd"; "corp"; "co"; "store"].

Fixpoint allDigits (s : string) : bool :=
  match s with
  | EmptyString => true
  | String c r => Js.isDigit c && allDigits r
  end.

(** [(inc|llc|ltd|corp|co|store|#\d+)] against a whole string, ignoring
    case. *)
Definition isSuffixWord (t : string) : bool :=
  existsb (String.eqb (Js.toLowerCase t)) suffixWords
  || match t with
     | String c (String d r) =>
         Ascii.eqb c "#"%char && Js.isDigit d && allDigits r
     | _ => false
     end.

Definition dropLastDot (t : string) : option string :=
  match Js.reverse t EmptyString with
  | String c r =>
      if Ascii.eqb c "."%char then Some (Js.reverse r EmptyString) else None
  | EmptyString => None
  end.

(** [(inc|llc|ltd|corp|co|store|#\d+)\.?$] *)
Definition isSuffixToken (t : string) : bool :=
  isSuffixWord t
  || match dropLastDot t with
     | Some t0 => isSuffixWord t0
     | None => false
     end.

(** [s.replace(/\s+(inc|llc|ltd|corp|co|store|#\d+)\.?$/i, '')]: the
    leftmost position where white space followed by one suffix token runs
    to the end of the string; everything from there on is removed. *)
Fixpoint removeSuffix (s : string) : string :=
  match s with
  | EmptyString => EmptyString
  | String c r =>
      if Js.isWhiteSpace c && isSuffixToken (Js.trimStart r)
      then EmptyString
      else String c (removeSuffix r)
  end.

(** The class [[.*+?^${}()|[\]\\]]. *)
Definition isRegexSpecial (c : ascii) : bool :=
  existsb (Ascii.eqb c)
    [ "."; "*"; "+"; "?"; "^"; "$"; "{"; "}"; "("; ")"; "|"; "["; "]"; "\" ]%char.

(** [s.replace(/[.*+?^${}()|[\]\\]/g, '\\$&')] *)
Fixpoint escapeRegex (s : string) : string :=
  match s with
  | EmptyString => EmptyString
  | String c r =>
      if isRegexSpecial c
      then String "\"%char (String c (escapeRegex r))
      else String c (escapeRegex r)
  end.

Definition createMerchantPattern (merchantName : string) : string :=
  "^" +:+ escapeRegex (Js.trim (removeSuffix merchantName)).

(** [where: { id: transactionId, userId }] *)
Definition isTransactionOf (transactionId userId : string) (t : Transaction) : bool :=
  String.eqb (tx_id t) transactionId && String.eqb (tx_userId t) userId.

(** [where: { id: categoryId, OR: [{ userId }, { isSystem: true }] }] *)
Definition isCategoryFor (categoryId userId : string) (c : Category) : bool :=
  String.eqb (cat_id c) categoryId && categoryVisible userId c.

Definition hasPattern (userId merchantPattern : string) (r : CategorizationRule) : bool :=
  String.eqb (rule_userId r) userId
  && String.eqb (rule_merchantPattern r) merchantPattern.

(** [prisma.categorizationRule.update({ where: { id }, data: { categoryId,
    priority, learnedFromUser: true } })] *)
Definition updateRule (id newCategoryId : string) (newPriority : Z)
  (rules : list CategorizationRule) : list CategorizationRule :=
  map (fun r =>
         if String.eqb (rule_id r) id
         then mkRule (rule_id r) (rule_userId r) (rule_merchantPattern r)
                     newCategoryId newPriority true
         else r) rules.

Definition learnFromCorrection (env : Env) (db : Db)
  (userId transactionId newCategoryId : string) : Outcome Db :=
  match find (isTransactionOf transactionId userId) (transactions db) with
  | None => Throw "Transaction not found"
  | Some transaction =>
  match find (isCategoryFor newCategoryId userId) (categories db) with
  | None => Throw "Category not found"
  | Some _ =>
      let merchantName :=
        Js.orElse (tx_merchantName transaction) (tx_description transaction) in
      let merchantPattern := createMerchantPattern merchantName in
      let rules := categorizationRules db in
      match find (hasPattern userId merchantPattern) rules with
      | Some existingRule =>
          Ok (setRules (updateRule (rule_id existingRule) newCategoryId
                          (rule_priority existingRule + 1) rules) db)
      | None =>
          let highestPriorityRule :=
            head (Categorization.orderByPriorityDesc
                    (Categorization.rulesOf userId rules)) in
          let newPriority :=
            match highestPriorityRule with
            | Some h => rule_priority h + 1
            | None => 100
            end in
          Ok (setRules
                (rules ++ [mkRule (genId env (length rules)) userId merchantPattern
                                  newCategoryId newPriority true]) db)
      end
  end end.

(** [data: { categoryId, categoryConfidence: 100 }] *)
Definition assignCategory (categoryId : string) (t : Transaction) : Transaction :=
  mkTransaction (tx_id t) (tx_userId t) (tx_amount t) (tx_date t)
    (tx_merchantName t) (tx_description t) (Some categoryId) 100
    (tx_isPending t) (tx_locationCity t) (tx_locationRegion t).

(** [TransactionService.updateCategory]; the error of a failed learning
    step is logged and dropped. *)
Definition updateCategory (env : Env) (db : Db)
  (transactionId userId categoryId : string) : Outcome (Transaction * Db) :=
  match find (isTransactionOf transactionId userId) (transactions db) with
  | None => Throw "Transaction not found"
  | Some transaction =>
  match find (isCategoryFor categoryId userId) (categories db) with
  | None => Throw "Category not found"
  | Some _ =>
      let db1 :=
        setTransactions
          (map (fun t => if String.eqb (tx_id t) transactionId
                         then assignCategory categoryId t else t)
               (transactions db)) db in
      let updated := assignCategory categoryId transaction in
      match learnFromCorrection env db1 userId transactionId categoryId with
      | Ok db2 => Ok (updated, db2)
      | Throw _ => Ok (updated, db1)
      end
  end end.

End Correction.

(** ** budgetService and the Budget model *)

Module BudgetService.

(** [CreateBudgetInput]: the fields with the types the interface gives
    them; [alertThreshold] is the only optional one. *)
Record CreateBudgetInput := mkCreateBudgetInput {
  in_userId : string;
  in_categoryId : string;
  in_amount : Q;
  in_period : string;
  in_startDate : Z;
  in_endDate : Z;
  in_alertThreshold : option Z
}.

Definition validatePeriod (period : string) : bool :=
  existsb (String.eqb period) ["monthly"; "quarterly"; "annual"].

Definition validateAlertThreshold (threshold : Z) : bool :=
  (0 <? threshold) && (threshold <=? 100).

Definition validateDateRange (startDate endDate : Z) : bool :=
  startDate <? endDate.

(** [BudgetModel.validateCreateInput]: the list of error messages. *)
Definition validateCreateInput (input : CreateBudgetInput) : list string :=
  ((if Js.isBlank (in_userId input) then ["User ID is required"] else [])
   ++ (if Js.isBlank (in_categoryId input) then ["Category ID is required"] else [])
   ++ (if Qle_bool (in_amount input) 0
       then ["Amount must be greater than 0"] else [])
   ++ (if validatePeriod (in_period input) then []
       else ["Period must be monthly, quarterly, or annual"])
   ++ (if validateDateRange (in_startDate input) (in_endDate input) then []
       else ["End date must be after start date"])
   ++ (match in_alertThreshold input with
       | Some t => if validateAlertThreshold t then []
                   else ["Alert threshold must be between 1 and 100"]
       | None => []
       end))%list.

(** The [where] clause of the overlap query of [createBudget]. *)
Definition overlapsQuery (input : CreateBudgetInput) (b : Budget) : bool :=
  String.eqb (budget_userId b) (in_userId input)
  && String.eqb (budget_categoryId b) (in_categoryId input)
  && budget_isActive b
  && (((budget_startDate b <=? in_startDate input)
       && (in_startDate input <=? budget_endDate b))
      || ((budget_startDate b <=? in_endDate input)
          && (in_endDate input <=? budget_endDate b))
      || ((in_startDate input <=? budget_startDate b)
          && (budget_endDate b <=? in_endDate input))).

(** [input.alertThreshold || 80] *)
Definition thresholdOrDefault (t : option Z) : Z :=
  match t with
  | Some v => if v =? 0 then 80 else v
  | None => 80
  end.

(** [createBudget]: the outcome and the database after the call. *)
Definition createBudget (env : Env) (db : Db) (input : CreateBudgetInput)
  : Outcome Budget * Db :=
  match validateCreateInput input with
  | (_ :: _) as errors =>
      (Throw ("Validation failed: " +:+ Categorization.join ", " errors), db)
  | [] =>
  match find (Correction.isCategoryFor (in_categoryId input) (in_userId input))
             (categories db) with
  | None => (Throw "Category not found", db)
  | Some _ =>
  match find (overlapsQuery input) (budgets db) with
  | Some _ =>
      (Throw "A budget already exists for this category in the specified time period",
       db)
  | None =>
      let budget :=
        mkBudget (genId env (length (budgets db))) (in_userId input)
                 (in_categoryId input) (in_amount input) (in_period input)
                 (in_startDate input) (in_endDate input)
                 (thresholdOrDefault (in_alertThreshold input)) true in
      (Ok budget, setBudgets (budgets db ++ [budget]) db)
  end end end.

(** [where: { id: budgetId, userId }] *)
Definition getBudgetById (db : Db) (budgetId userId : string) : option Budget :=
  find (fun b => String.eqb (budget_id b) budgetId
                 && String.eqb (budget_userId b) userId) (budgets db).

(** The [where] clause of the aggregate of [calculateSpending]. *)
Definition countsTowards (userId : string) (budget : Budget) (t : Transaction)
  : bool :=
  String.eqb (tx_userId t) userId
  && match tx_categoryId t with
     | Some c => String.eqb c (budget_categoryId budget)
     | None => false
     end
  && (budget_startDate budget <=? tx_date t)
  && (tx_date t <=? budget_endDate budget)
  && negb (tx_isPending t).

(** [_sum: { amount: true }], with [|| 0] for the empty selection. *)
Definition sumAmount (rows : list Transaction) : Q :=
  fold_left (fun acc t => (acc + tx_amount t)%Q) rows 0%Q.

Definition calculateSpending (db : Db) (budgetId userId : string) : Outcome Q :=
  match getBudgetById db budgetId userId with
  | None => Throw "Budget not found"
  | Some budget =>
      Ok (sumAmount (List.filter (countsTowards userId budget) (transactions db)))
  end.

Record BudgetProgress := mkBudgetProgress {
  budget : Budget;
  currentSpending : Q;
  percentageUsed : Q;
  remainingAmount : Q;
  daysRemaining : Z;
  isOverBudget : bool;
  shouldAlert : bool
}.

Definition msPerDay : Z := 1000 * 60 * 60 * 24.

(** [Math.ceil(a / b)] for a positive [b]. *)
Definition ceilDiv (a b : Z) : Z := - ((- a) / b).

Definition Qlt_bool (a b : Q) : bool := negb (Qle_bool b a).

Definition getBudgetProgress (db : Db) (now : Z) (budgetId userId : string)
  : Outcome BudgetProgress :=
  match getBudgetById db budgetId userId with
  | None => Throw "Budget not found"
  | Some budget =>
      match calculateSpending db budgetId userId with
      | Throw m => Throw m
      | Ok currentSpending =>
          let budgetAmount := budget_amount budget in
          let percentageUsed :=
            if Qlt_bool 0 budgetAmount
            then ((currentSpending / budgetAmount) * 100)%Q
            else 0%Q in
          let remainingAmount := (budgetAmount - currentSpending)%Q in
          let daysRemaining :=
            Z.max 0 (ceilDiv (budget_endDate budget - now) msPerDay) in
          let isOverBudget := Qlt_bool budgetAmount currentSpending in
          let shouldAlert :=
            Qle_bool (inject_Z (budget_alertThreshold budget)) percentageUsed in
          Ok (mkBudgetProgress budget currentSpending percentageUsed
                remainingAmount daysRemaining isOverBudget shouldAlert)
      end
  end.

(** The spending of a budget, said directly: the amounts of the
    transactions that count towards it, added up. *)
Fixpoint spendingOf (userId : string) (budget : Budget) (txs : list Transaction)
  : Q :=
  match txs with
  | [] => 0%Q
  | t :: rest =>
      ((if countsTowards userId budget t then tx_amount t else 0)
       + spendingOf userId budget rest)%Q
  end.

(** Two closed date ranges share at least one instant. *)
Definition rangesOverlap (s1 e1 s2 e2 : Z) : Prop := s1 <= e2 /\ s2 <= e1.

End BudgetService.

(** ** fraudDetectionService and the FraudAlert model *)

Module FraudDetection.

Record UserSpendingBaseline := mkBaseline {
  typicalLocations : list string;
  transactionCount : nat
}.

Definition msPerDay : Z := 24 * 60 * 60 * 1000.
Definition msPerMinute : Z := 60 * 1000.

(** [`${city},${region}`] *)
Definition locationKey (city region : string) : string :=
  city +:+ "," +:+ region.

Definition hasLocation (t : Transaction) : bool :=
  Js.truthy (tx_locationCity t) && Js.truthy (tx_locationRegion t).

Definition keyOfTransaction (t : Transaction) : string :=
  locationKey (Js.orElse (tx_locationCity t) "") (Js.orElse (tx_locationRegion t) "").

(** [where: { userId, date: { gte: thirtyDaysAgo }, isPending: false }] *)
Definition inBaseline (now : Z) (userId : string) (t : Transaction) : bool :=
  String.eqb (tx_userId t) userId
  && (now - 30 * msPerDay <=? tx_date t)
  && negb (tx_isPending t).

(** One step of the [forEach] that fills [locationMap]. *)
Definition countLocation (m : gmap string nat) (t : Transaction) : gmap string nat :=
  if hasLocation t
  then let k := keyOfTransaction t in <[k := (default 0 (m !! k) + 1)%nat]> m
  else m.

(** [calculateUserBaseline].  [count >= transactions.length * 0.1] is
    decided on integers as [length <= 10 * count]: the product of an
    integer with the double nearest to 0.1 rounds to [length / 10] exactly
    when that is an integer and lies strictly between two integers
    otherwise, so both comparisons agree. *)
Definition calculateUserBaseline (now : Z) (db : Db) (userId : string)
  : UserSpendingBaseline :=
  let txs := List.filter (inBaseline now userId) (transactions db) in
  match txs with
  | [] => mkBaseline [] 0
  | _ =>
      let locationMap := fold_left countLocation txs (∅ : gmap string nat) in
      let typical :=
        map fst (List.filter (fun kv => Nat.leb (length txs) (10 * snd kv))
                             (map_to_list locationMap)) in
      mkBaseline typical (length txs)
  end.

Record SketchyResult := mkSketchy {
  isSketchy : bool;
  sk_reason : string;
  sk_severity : FraudAlertSeverity
}.

Record UnusualResult := mkUnusual {
  isUnusual : bool;
  un_reason : string;
  un_severity : FraudAlertSeverity
}.

(** [\bw\b] somewhere in [s], for a [w] that starts and ends with a
    letter: an occurrence of [w] with no word character right before it
    and none right after it. *)
Fixpoint includesWordFrom (prevIsWord : bool) (w s : string) : bool :=
  (negb prevIsWord && String.prefix w s
   && match String.get (String.length w) s with
      | Some c => negb (Js.isWordChar c)
      | None => true
      end)
  || match s with
     | EmptyString => false
     | String c r => includesWordFrom (Js.isWordChar c) w r
     end.

Definition includesWord (w s : string) : bool := includesWordFrom false w s.

(** The entries of [sketchyPatterns]: an alternation of whole words, an
    alternation of literals, or the amount check. *)
Inductive SketchyTest :=
| Words (ws : list string)
| Literals (ls : list string)
| RoundAmount.

Definition sketchyPatterns (amount : Q)
  : list (SketchyTest * string * FraudAlertSeverity) :=
  [ (Words ["casino"; "gambling"; "poker"; "slots"; "bet"; "bets"; "betting";
            "lottery"; "draftkings"; "fanduel"],
     "Gambling transaction detected", medium);
    (Literals ["coinbase"; "binance"; "kraken"; "crypto"; "bitcoin"; "btc"; "eth"],
     "Cryptocurrency transaction detected", low);
    (Literals ["payday"; "cash advance"; "quick loan"; "instant loan"],
     "Payday loan transaction detected", high);
    (Literals ["wire transfer"; "western union"; "moneygram"; "money order"],
     "Wire transfer detected", medium);
    (Literals ["adult"; "xxx"; "escort"; "onlyfans"],
     "Adult content transaction detected", low);
    (Literals ["temp charge"; "pending"; "authorization"; "test transaction"],
     "Suspicious transaction description", medium);
    (RoundAmount,
     "Large round number transaction (" +:+ pretty (Qfloor amount) +:+ ")",
     medium) ].

Definition runSketchyTest (merchantName description : string) (amount : Q)
  (t : SketchyTest) : bool :=
  match t with
  | Words ws =>
      existsb (fun w => includesWord w merchantName) ws
      || existsb (fun w => includesWord w description) ws
  | Literals ls =>
      existsb (fun l => Js.includes l merchantName) ls
      || existsb (fun l => Js.includes l description) ls
  | RoundAmount =>
      existsb (Qeq_bool amount) [1000#1; 2000#1; 5000#1; 10000#1]%Q
  end.

Fixpoint firstSketchy (merchantName description : string) (amount : Q)
  (ps : list (SketchyTest * string * FraudAlertSeverity)) : SketchyResult :=
  match ps with
  | [] => mkSketchy false "" low
  | (t, reason, severity) :: rest =>
      if runSketchyTest merchantName description amount t
      then mkSketchy true reason severity
      else firstSketchy merchantName description amount rest
  end.

Definition checkSketchyMerchant (transaction : Transaction) : SketchyResult :=
  let merchantName := Js.toLowerCase (Js.orElse (tx_merchantName transaction) "") in
  let description := Js.toLowerCase (tx_description transaction) in
  let amount := Qabs (tx_amount transaction) in
  firstSketchy merchantName description amount (sketchyPatterns amount).

Definition checkUnusualLocation (now : Z) (db : Db) (userId : string)
  (transaction : Transaction) : UnusualResult :=
  if negb (hasLocation transaction) then mkUnusual false "" low
  else
    let baseline := calculateUserBaseline now db userId in
    if Nat.ltb (transactionCount baseline) 10 then mkUnusual false "" low
    else
      let transactionLocation := keyOfTransaction transaction in
      if negb (existsb (String.eqb transactionLocation) (typicalLocations baseline))
      then mkUnusual true
             ("Transaction in unusual location: "
              +:+ Js.orElse (tx_locationCity transaction) "" +:+ ", "
              +:+ Js.orElse (tx_locationRegion transaction) "")
             medium
      else mkUnusual false "" low.

(** [where: { userId, id: { not: transaction.id }, date: { gte:
    fiveMinutesAgo, lt: transaction.date } }] *)
Definition isRecent (userId : string) (transaction t : Transaction) : bool :=
  String.eqb (tx_userId t) userId
  && negb (String.eqb (tx_id t) (tx_id transaction))
  && (tx_date transaction - 5 * msPerMinute <=? tx_date t)
  && (tx_date t <? tx_date transaction).

Definition checkRapidTransactions (db : Db) (userId : string)
  (transaction : Transaction) : UnusualResult :=
  let recentTransactions :=
    List.filter (isRecent userId transaction) (transactions db) in
  if Nat.leb 4 (length recentTransactions)
  then
    let count := (length recentTransactions + 1)%nat in
    mkUnusual true
      (pretty count +:+ " transactions detected within a 5-minute window")
      (if Nat.leb 6 count then high else medium)
  else mkUnusual false "" low.

Record CreateFraudAlertInput := mkAlertInput {
  fa_userId : string;
  fa_transactionId : string;
  fa_alertType : FraudAlertType;
  fa_severity : FraudAlertSeverity;
  fa_reason : string
}.

(** [FraudAlertModel.validateCreateInput]; the alert type and the severity
    are valid by their types. *)
Definition validateCreateInput (input : CreateFraudAlertInput) : list string :=
  ((if Js.isBlank (fa_userId input) then ["User ID is required"] else [])
   ++ (if Js.isBlank (fa_transactionId input)
       then ["Transaction ID is required"] else [])
   ++ (if Js.isBlank (fa_reason input) then ["Reason is required"] else []))%list.

Definition alertTypeEqb (a b : FraudAlertType) : bool :=
  match a, b with
  | unusual_amount, unusual_amount
  | unusual_location, unusual_location
  | rapid_transactions, rapid_transactions => true
  | _, _ => false
  end.

(** [where: { transactionId, alertType }] *)
Definition sameAlert (transactionId : string) (alertType : FraudAlertType)
  (a : FraudAlert) : bool :=
  String.eqb (alert_transactionId a) transactionId
  && alertTypeEqb (alert_alertType a) alertType.

(** The part of the service that writes: the local array [alerts] of
    [analyzeTransaction] and the [fraud_alerts] table. *)
Record Run := mkRun {
  alerts : list FraudAlert;
  table : list FraudAlert
}.

(** A computation over [Run] that returns or throws. *)
Definition M (A : Type) : Type := Run -> Outcome A * Run.

Definition ret {A} (a : A) : M A := fun s => (Ok a, s).

Definition bind {A B} (m : M A) (k : A -> M B) : M B :=
  fun s =>
    match m s with
    | (Ok a, s') => k a s'
    | (Throw e, s') => (Throw e, s')
    end.

Notation "'let!' x ':=' m 'in' k" := (bind m (fun x => k))
  (at level 10, x name, m at level 100, k at level 200).
Notation "m1 ';;;' m2" := (bind m1 (fun _ => m2))
  (at level 100, m2 at level 200, right associativity).

Definition createFraudAlert (env : Env) (input : CreateFraudAlertInput)
  : M FraudAlert :=
  fun s =>
    match validateCreateInput input with
    | (_ :: _) as errors =>
        (Throw ("Validation failed: " +:+ Categorization.join ", " errors), s)
    | [] =>
        match find (sameAlert (fa_transactionId input) (fa_alertType input))
                   (table s) with
        | Some existing => (Ok existing, s)
        | None =>
            let alert :=
              mkFraudAlert (genId env (length (table s))) (fa_userId input)
                (fa_transactionId input) (fa_alertType input)
                (fa_severity input) (fa_reason input) false false in
            (Ok alert, mkRun (alerts s) (table s ++ [alert]))
        end
    end.

(** [alerts.push(alert)] *)
Definition push (alert : FraudAlert) : M unit :=
  fun s => (Ok tt, mkRun (alerts s ++ [alert]) (table s)).

Definition when (c : bool) (m : M unit) : M unit :=
  if c then m else ret tt.

(** [analyzeTransaction]: the alerts returned and the table afterwards.
    The [catch] returns the alerts collected before the throw;
    [sendNotifications] only logs. *)
Definition analyzeTransaction (env : Env) (now : Z) (db : Db)
  (transaction : Transaction) : list FraudAlert * list FraudAlert :=
  let body : M unit :=
    let sketchyCheck := checkSketchyMerchant transaction in
    when (isSketchy sketchyCheck)
      (let! alert :=
         createFraudAlert env
           (mkAlertInput (tx_userId transaction) (tx_id transaction)
              unusual_amount (sk_severity sketchyCheck) (sk_reason sketchyCheck)) in
       push alert) ;;;
    let locationCheck :=
      checkUnusualLocation now db (tx_userId transaction) transaction in
    when (isUnusual locationCheck)
      (let! alert :=
         createFraudAlert env
           (mkAlertInput (tx_userId transaction) (tx_id transaction)
              unusual_location (un_severity locationCheck) (un_reason locationCheck)) in
       push alert) ;;;
    let rapidCheck :=
      checkRapidTransactions db (tx_userId transaction) transaction in
    when (isUnusual rapidCheck)
      (let! alert :=
         createFraudAlert env
           (mkAlertInput (tx_userId transaction) (tx_id transaction)
              rapid_transactions (un_severity rapidCheck) (un_reason rapidCheck)) in
       push alert) in
  let (_, s) := body (mkRun [] (fraudAlerts db)) in
  (alerts s, table s).

(** The three blocks of [analyzeTransaction], each a check with the alert
    it asks for, and the way each block runs. *)
Definition findings (now : Z) (db : Db) (transaction : Transaction)
  : list (bool * CreateFraudAlertInput) :=
  let sketchyCheck := checkSketchyMerchant transaction in
  let locationCheck :=
    checkUnusualLocation now db (tx_userId transaction) transaction in
  let rapidCheck :=
    checkRapidTransactions db (tx_userId transaction) transaction in
  [ (isSketchy sketchyCheck,
     mkAlertInput (tx_userId transaction) (tx_id transaction)
       unusual_amount (sk_severity sketchyCheck) (sk_reason sketchyCheck));
    (isUnusual locationCheck,
     mkAlertInput (tx_userId transaction) (tx_id transaction)
       unusual_location (un_severity locationCheck) (un_reason locationCheck));
    (isUnusual rapidCheck,
     mkAlertInput (tx_userId transaction) (tx_id transaction)
       rapid_transactions (un_severity rapidCheck) (un_reason rapidCheck)) ].

Definition raise (env : Env) (x : bool * CreateFraudAlertInput) : M unit :=
  when (fst x) (let! alert := createFraudAlert env (snd x) in push alert).

Fixpoint raiseAll (env : Env) (xs : list (bool * CreateFraudAlertInput)) : M unit :=
  match xs with
  | [] => ret tt
  | x :: rest => raise env x ;;; raiseAll env rest
  end.

Definition inputKey (input : CreateFraudAlertInput) : string * FraudAlertType :=
  (fa_transactionId input, fa_alertType input).

(** The row [createFraudAlert] inserts when there is none yet. *)
Definition newAlert (env : Env) (tbl : list FraudAlert)
  (input : CreateFraudAlertInput) : FraudAlert :=
  mkFraudAlert (genId env (length tbl)) (fa_userId input)
    (fa_transactionId input) (fa_alertType input)
    (fa_severity input) (fa_reason input) false false.

(** The alert a block hands to [alerts.push]: the existing one, or the
    new row. *)
Definition raisedAlert (env : Env) (x : bool * CreateFraudAlertInput)
  (tbl : list FraudAlert) : FraudAlert :=
  match find (sameAlert (fa_transactionId (snd x)) (fa_alertType (snd x))) tbl with
  | Some existing => existing
  | None => newAlert env tbl (snd x)
  end.

(** A block finds its alert already stored whenever it gets as far as
    looking for it. *)
Definition covered (x : bool * CreateFraudAlertInput) (tbl : list FraudAlert)
  : Prop :=
  fst x = true -> validateCreateInput (snd x) = [] ->
  exists e,
    find (sameAlert (fa_transactionId (snd x)) (fa_alertType (snd x))) tbl = Some e.

(** One call of [analyzeTransaction] as the rest of the application sees
    it: the clock, the transactions stored at that time, and the
    transaction analyzed. *)
Record Call := mkCall {
  call_now : Z;
  call_transactions : list Transaction;
  call_transaction : Transaction
}.

Definition afterCall (env : Env) (db : Db) (c : Call) : Db :=
  let db0 := setTransactions (call_transactions c) db in
  setFraudAlerts (snd (analyzeTransaction env (call_now c) db0 (call_transaction c)))
                 db0.

Definition afterCalls (env : Env) (db : Db) (cs : list Call) : Db :=
  fold_left (afterCall env) cs db.

Definition alertKey (a : FraudAlert) : string * FraudAlertType :=
  (alert_transactionId a, alert_alertType a).

(** At most one alert per (transactionId, alertType). *)
Definition uniqueAlerts (tbl : list FraudAlert) : Prop :=
  NoDup (map alertKey tbl).

(** How often a location key occurs among the rows that carry a
    location. *)
Definition occurrences (key : string) (txs : list Transaction) : nat :=
  length (List.filter (fun t => hasLocation t && String.eqb (keyOfTransaction t) key)
                      txs).

(** The reading of "unusual relative to the baseline" of the project's
    requirements: more than [factor] times the mean amount of the user's
    transactions of the last 30 days. *)
Definition exceedsBaseline (factor : Q) (now : Z) (db : Db)
  (transaction : Transaction) : bool :=
  let past := List.filter (inBaseline now (tx_userId transaction)) (transactions db) in
  let total := fold_right (fun t acc => (Qabs (tx_amount t) + acc)%Q) 0%Q past in
  negb (Qle_bool (Qabs (tx_amount transaction) * inject_Z (Z.of_nat (length past)))
                 (factor * total)).

End FraudDetection.

(** ** syncScheduler *)

Module SyncScheduler.

Definition SYNC_INTERVAL_MS : Z := 24 * 60 * 60 * 1000.
Definition MAX_RETRIES : Z := 3.
Definition BASE_RETRY_DELAY_MS : Z := 60 * 60 * 1000.

Record RetryInfo := mkRetryInfo {
  retryCount : Z;
  nextRetry : Z
}.

(** What the scheduler hands to [setTimeout] and [setInterval]. *)
Inductive Task :=
| RunDailySync
| RetrySync (accountId : string).

Inductive Timer :=
| Timeout (delayMs : Z) (task : Task)
| Interval (periodMs : Z) (task : Task).

(** The fields of the scheduler object: the interval handle (its period,
    when the scheduler runs) and the retry queue. *)
Record Scheduler := mkScheduler {
  syncInterval : option Z;
  retryQueue : gmap string RetryInfo
}.

(** [start]: the scheduler afterwards and the timers it registers. *)
Definition start (s : Scheduler) : Scheduler * list Timer :=
  match syncInterval s with
  | Some _ => (s, [])
  | None =>
      (mkScheduler (Some SYNC_INTERVAL_MS) (retryQueue s),
       [Timeout (60 * 1000) RunDailySync; Interval SYNC_INTERVAL_MS RunDailySync])
  end.

Definition stop (s : Scheduler) : Scheduler :=
  match syncInterval s with
  | Some _ => mkScheduler None (retryQueue s)
  | None => s
  end.

(** [handleSyncFailure] at time [now]: the queue afterwards and the retry
    it schedules. *)
Definition handleSyncFailure (now : Z) (accountId : string)
  (q : gmap string RetryInfo) : gmap string RetryInfo * list Timer :=
  let retryInfo := default (mkRetryInfo 0 now) (q !! accountId) in
  let count := retryCount retryInfo + 1 in
  if count <=? MAX_RETRIES
  then
    let delayMs := BASE_RETRY_DELAY_MS * 2 ^ (count - 1) in
    (<[accountId := mkRetryInfo count (now + delayMs)]> q,
     [Timeout delayMs (RetrySync accountId)])
  else (delete accountId q, []).

(** What follows a [syncAccount] in [runDailySync] and in [retrySync]. *)
Definition afterSync (now : Z) (accountId : string) (success : bool)
  (q : gmap string RetryInfo) : gmap string RetryInfo * list Timer :=
  if success then (delete accountId q, [])
  else handleSyncFailure now accountId q.

(** [retrySync]: the account may have been removed or deactivated. *)
Definition retrySync (now : Z) (accountId : string) (active success : bool)
  (q : gmap string RetryInfo) : gmap string RetryInfo * list Timer :=
  if active then afterSync now accountId success q
  else (delete accountId q, []).

(** One active account as a run of [runDailySync] meets it: the time of
    the visit and whether its sync succeeds. *)
Record Visit := mkVisit {
  visit_accountId : string;
  visit_now : Z;
  visit_success : bool
}.

Definition visit (st : gmap string RetryInfo * list Timer) (v : Visit)
  : gmap string RetryInfo * list Timer :=
  let skip :=
    match fst st !! visit_accountId v with
    | Some retryInfo => visit_now v <? nextRetry retryInfo
    | None => false
    end in
  if skip then st
  else
    let (q, timers) :=
      afterSync (visit_now v) (visit_accountId v) (visit_success v) (fst st) in
    (q, (snd st ++ timers)%list).

Definition runDailySync (accounts : list Visit) (q : gmap string RetryInfo)
  : gmap string RetryInfo * list Timer :=
  fold_left visit accounts (q, []).

End SyncScheduler.

(** ** Review badges of the frontend *)

Module Review.

(** The row of the transaction list (interface [Transaction] of
    TransactionList): what the badge reads. *)
Record ListRow := mkListRow {
  row_categoryName : option string;
  row_categoryConfidence : Z
}.

(** [{transaction.categoryConfidence < 70 && transaction.categoryName &&
    (<span>Review</span>)}] *)
Definition listReviewBadge (t : ListRow) : bool :=
  (row_categoryConfidence t <? 70) && Js.truthy (row_categoryName t).

(** [{transaction.categoryConfidence < 70 && (<span>(Low confidence:
    ...)</span>)}] of the detail dialog. *)
Definition detailLowConfidence (categoryConfidence : Z) : bool :=
  categoryConfidence <? 70.

(** A transaction imported while categorization failed: no category, the
    column default 0 as confidence. *)
Definition uncategorizedRow : ListRow :=
  {| row_categoryName := None; row_categoryConfidence := 0 |}.

End Review.

(** ** Sample data *)

Module Samples.

Definition env : Env :=
  mkEnv (fun _ _ => None) None (fun n => "row-" +:+ pretty n).

Definition now : Z := 1700000000000.

Definition day : Z := 24 * 60 * 60 * 1000.

Definition purchase (id : string) (date : Z) (amount : Q) : Transaction :=
  mkTransaction id "u1" amount date (Some "Corner Shop") "Card purchase"
    (Some "c1") 85 false None None.

(** A user who spent 10 on each of the last five days, then 4321. *)
Definition bigPurchase : Transaction := purchase "t9" now (4321 # 1).

Definition quietDb : Db :=
  mkDb [mkCategory "c1" None "Groceries" true;
        mkCategory "c2" None "Dining" true]
       []
       [purchase "t1" (now - 5 * day) (10 # 1);
        purchase "t2" (now - 4 * day) (10 # 1);
        purchase "t3" (now - 3 * day) (10 # 1);
        purchase "t4" (now - 2 * day) (10 # 1);
        purchase "t5" (now - 1 * day) (10 # 1);
        bigPurchase]
       [mkBudget "b1" "u1" "c1" (200 # 1) "monthly" (now - 10 * day)
                 (now + 20 * day) 80 true]
       [].

Definition casinoVisit : Transaction :=
  mkTransaction "t10" "u1" (10 # 1) now (Some "Lucky Casino") "Card purchase"
    None 0 false None None.

Definition groceriesBudget : Budget :=
  mkBudget "b1" "u1" "c1" (200 # 1) "monthly" (now - 10 * day)
           (now + 20 * day) 80 true.

(** A second groceries budget that starts while the first one runs. *)
Definition overlappingInput : BudgetService.CreateBudgetInput :=
  BudgetService.mkCreateBudgetInput "u1" "c1" (300 # 1) "monthly"
    (now + 10 * day) (now + 40 * day) None.

(** The database after the user moves the big purchase to Dining. *)
Definition correctedDb : Db :=
  match Correction.updateCategory env quietDb "t9" "u1" "c2" with
  | Ok (_, db') => db'
  | Throw _ => quietDb
  end.

Definition casinoCall : FraudDetection.Call :=
  FraudDetection.mkCall now (transactions quietDb) casinoVisit.

End Samples.

(** ** Invariants of the tables *)

Module Invariants.

(** The system category the cascade falls back to. *)
Definition isUncategorized (c : Category) : bool :=
  String.eqb (cat_name c) "Uncategorized" && cat_isSystem c.

(** What identifies a learned rule: its user and its pattern. *)
Definition ruleKey (r : CategorizationRule) : string * string :=
  (rule_userId r, rule_merchantPattern r).

Definition oneRulePerPattern (rules : list CategorizationRule) : Prop :=
  NoDup (map ruleKey rules).

(** Two active budgets of one user for one category whose date ranges
    share an instant. *)
Definition budgetsConflict (a b : Budget) : Prop :=
  budget_userId a = budget_userId b /\
  budget_categoryId a = budget_categoryId b /\
  budget_isActive a = true /\ budget_isActive b = true /\
  BudgetService.rangesOverlap (budget_startDate a) (budget_endDate a)
                              (budget_startDate b) (budget_endDate b).

Definition noConflicts (bs : list Budget) : Prop :=
  ForallOrdPairs (fun a b => ~ budgetsConflict a b) bs.

(** Every queued account has failed between once and [MAX_RETRIES] times. *)
Definition retryBounded (q : gmap string SyncScheduler.RetryInfo) : Prop :=
  map_Forall (fun _ info =>
                1 <= SyncScheduler.retryCount info <= SyncScheduler.MAX_RETRIES) q.

(** The delays the scheduler ever asks of [setTimeout] for a retry. *)
Definition isBackoffTimer (t : SyncScheduler.Timer) : Prop :=
  exists accountId n,
    1 <= n <= 3 /\
    t = SyncScheduler.Timeout (SyncScheduler.BASE_RETRY_DELAY_MS * 2 ^ (n - 1))
          (SyncScheduler.RetrySync accountId).

End Invariants.

(** ** budgetService: listing, updating, deleting, alerting *)

Module BudgetMaintenance.

(** [UpdateBudgetInput]: every field may be left out. *)
Record UpdateBudgetInput := mkUpdateBudgetInput {
  up_amount : option Q;
  up_period : option string;
  up_startDate : option Z;
  up_endDate : option Z;
  up_alertThreshold : option Z;
  up_isActive : option bool
}.

(** [getBudgets]: [orderBy: { createdAt: 'desc' }] lists the rows from the
    last created to the first. *)
Definition getBudgets (db : Db) (userId : string) (includeInactive : bool)
  : list Budget :=
  rev (List.filter (fun b => String.eqb (budget_userId b) userId
                             && (includeInactive || budget_isActive b))
                   (budgets db)).

(** The [data] of the update: a field is written when its guard
    ([!== undefined] for amount, threshold and flag, truthiness for the
    period and the dates) lets it through. *)
Definition applyUpdate (input : UpdateBudgetInput) (b : Budget) : Budget :=
  mkBudget (budget_id b) (budget_userId b) (budget_categoryId b)
    (match up_amount input with Some a => a | None => budget_amount b end)
    (match up_period input with
     | Some p => if String.eqb p "" then budget_period b else p
     | None => budget_period b
     end)
    (match up_startDate input with Some d => d | None => budget_startDate b end)
    (match up_endDate input with Some d => d | None => budget_endDate b end)
    (match up_alertThreshold input with
     | Some t => t
     | None => budget_alertThreshold b
     end)
    (match up_isActive input with Some a => a | None => budget_isActive b end).

Definition updateWhereId (budgetId : string) (f : Budget -> Budget)
  (bs : list Budget) : list Budget :=
  map (fun b => if String.eqb (budget_id b) budgetId then f b else b) bs.

Definition updateBudget (db : Db) (budgetId userId : string)
  (input : UpdateBudgetInput) : Outcome Budget * Db :=
  match BudgetService.getBudgetById db budgetId userId with
  | None => (Throw "Budget not found", db)
  | Some existing =>
      if match up_amount input with
         | Some a => Qle_bool a 0
         | None => false
         end
      then (Throw "Amount must be greater than 0", db)
      else if match up_period input with
              | Some p => negb (String.eqb p "")
                          && negb (BudgetService.validatePeriod p)
              | None => false
              end
      then (Throw "Period must be monthly, quarterly, or annual", db)
      else if match up_alertThreshold input with
              | Some t => negb (BudgetService.validateAlertThreshold t)
              | None => false
              end
      then (Throw "Alert threshold must be between 1 and 100", db)
      else
        let startDate :=
          match up_startDate input with
          | Some d => d
          | None => budget_startDate existing
          end in
        let endDate :=
          match up_endDate input with
          | Some d => d
          | None => budget_endDate existing
          end in
        if negb (BudgetService.validateDateRange startDate endDate)
        then (Throw "End date must be after start date", db)
        else
          (Ok (applyUpdate input existing),
           setBudgets (updateWhereId budgetId (applyUpdate input) (budgets db)) db)
  end.

(** [data: { isActive: false }] *)
Definition deactivate (b : Budget) : Budget :=
  mkBudget (budget_id b) (budget_userId b) (budget_categoryId b)
    (budget_amount b) (budget_period b) (budget_startDate b)
    (budget_endDate b) (budget_alertThreshold b) false.

Definition deleteBudget (db : Db) (budgetId userId : string)
  : Outcome unit * Db :=
  match BudgetService.getBudgetById db budgetId userId with
  | None => (Throw "Budget not found", db)
  | Some _ =>
      (Ok tt, setBudgets (updateWhereId budgetId deactivate (budgets db)) db)
  end.

(** The loop of [checkBudgetAlerts]; a throw of [getBudgetProgress] ends
    it. *)
Fixpoint collectAlerts (db : Db) (now : Z) (userId : string)
  (bs : list Budget) : Outcome (list BudgetService.BudgetProgress) :=
  match bs with
  | [] => Ok []
  | b :: rest =>
      match BudgetService.getBudgetProgress db now (budget_id b) userId with
      | Throw m => Throw m
      | Ok progress =>
          match collectAlerts db now userId rest with
          | Throw m => Throw m
          | Ok alerts =>
              Ok (if BudgetService.shouldAlert progress
                  then progress :: alerts else alerts)
          end
      end
  end.

Definition checkBudgetAlerts (db : Db) (now : Z) (userId : string)
  : Outcome (list BudgetService.BudgetProgress) :=
  collectAlerts db now userId (getBudgets db userId false).

End BudgetMaintenance.

(** ** The table [budgets]: what a write keeps of an amount *)

Module BudgetTable.

(** The column [amount DECIMAL(12,2) NOT NULL] of the migration: the
    database rounds the decimal it receives for an amount to two
    decimals, a half away from zero.  An amount is a finite number here;
    a write of [NaN], which passes [amount <= 0], is not modelled. *)
Definition roundCents (q : Q) : Z :=
  if Qle_bool 0 q then Qfloor (q * 100 + (1 # 2))
  else - Qfloor (- q * 100 + (1 # 2)).

Definition toDecimal2 (q : Q) : Q := roundCents q # 100.

(** Twelve digits, two of them decimals: the rounded amount has to stay
    below 10^10, or the database refuses the write. *)
Definition fitsColumn (q : Q) : bool := Z.abs (roundCents q) <? 10 ^ 12.

(** The error of a refused write; the text is the database's. *)
Definition columnOverflow : string := "numeric field overflow".

Definition atColumn (b : Budget) : Budget :=
  mkBudget (budget_id b) (budget_userId b) (budget_categoryId b)
    (toDecimal2 (budget_amount b)) (budget_period b) (budget_startDate b)
    (budget_endDate b) (budget_alertThreshold b) (budget_isActive b).

(** [createBudget] with [prisma.budget.create] writing to the table: the
    checks are those of the service, the row that is kept and returned
    has its amount at the scale of the column. *)
Definition createBudget (env : Env) (db : Db)
  (input : BudgetService.CreateBudgetInput) : Outcome Budget * Db :=
  match BudgetService.createBudget env db input with
  | (Ok budget, _) =>
      if fitsColumn (budget_amount budget)
      then (Ok (atColumn budget),
            setBudgets (budgets db ++ [atColumn budget]) db)
      else (Throw columnOverflow, db)
  | rejected => rejected
  end.

(** The [data] of the update as the table takes it: a new amount is
    rounded, an amount that is left out stays as it is stored. *)
Definition columnInput (input : BudgetMaintenance.UpdateBudgetInput)
  : BudgetMaintenance.UpdateBudgetInput :=
  BudgetMaintenance.mkUpdateBudgetInput
    (option_map toDecimal2 (BudgetMaintenance.up_amount input))
    (BudgetMaintenance.up_period input)
    (BudgetMaintenance.up_startDate input)
    (BudgetMaintenance.up_endDate input)
    (BudgetMaintenance.up_alertThreshold input)
    (BudgetMaintenance.up_isActive input).

(** [updateBudget] with [prisma.budget.update] writing to the table. *)
Definition updateBudget (db : Db) (budgetId userId : string)
  (input : BudgetMaintenance.UpdateBudgetInput) : Outcome Budget * Db :=
  match BudgetMaintenance.updateBudget db budgetId userId input,
        BudgetService.getBudgetById db budgetId userId with
  | (Ok _, _), Some existing =>
      if match BudgetMaintenance.up_amount input with
         | Some a => fitsColumn a
         | None => true
         end
      then
        (Ok (BudgetMaintenance.applyUpdate (columnInput input) existing),
         setBudgets
           (BudgetMaintenance.updateWhereId budgetId
              (BudgetMaintenance.applyUpdate (columnInput input)) (budgets db))
           db)
      else (Throw columnOverflow, db)
  | rejected, _ => rejected
  end.

(** What every row of [budgets] satisfies: an amount of whole cents, not
    negative and within the column, a period of the three, an end date
    after the start date and a threshold in (0, 100]. *)
Definition wellFormed (b : Budget) : Prop :=
  (exists cents : Z,
     0 <= cents < 10 ^ 12 /\ (budget_amount b == cents # 100)%Q) /\
  In (budget_period b) ["monthly"; "quarterly"; "annual"] /\
  budget_startDate b < budget_endDate b /\
  0 < budget_alertThreshold b <= 100.

(** A budget of a tenth of a cent passes the validation and is stored
    with the amount 0. *)
Definition tenthOfACent : BudgetService.CreateBudgetInput :=
  BudgetService.mkCreateBudgetInput "u1" "c2" (1 # 1000) "monthly"
    Samples.now (Samples.now + Samples.day) None.

End BudgetTable.

(** ** fraudDetectionService: listing and reviewing alerts *)

Module FraudReview.

(** A row of [fraud_alerts] with the review time, which the analysis
    never reads. *)
Record AlertRow := mkAlertRow {
  ar_alert : FraudAlert;
  ar_reviewedAt : option Z
}.

Record AlertOptions := mkAlertOptions {
  opt_includeReviewed : option bool;
  opt_severity : option FraudAlertSeverity;
  opt_alertType : option FraudAlertType
}.

Definition severityEqb (a b : FraudAlertSeverity) : bool :=
  match a, b with
  | low, low | medium, medium | high, high => true
  | _, _ => false
  end.

(** The [where] clause [getFraudAlerts] builds from its options. *)
Definition alertMatches (userId : string) (options : option AlertOptions)
  (r : AlertRow) : bool :=
  String.eqb (alert_userId (ar_alert r)) userId
  && match options with
     | None => true
     | Some o =>
         match opt_includeReviewed o with
         | Some false => negb (alert_isReviewed (ar_alert r))
         | _ => true
         end
         && match opt_severity o with
            | Some s => severityEqb (alert_severity (ar_alert r)) s
            | None => true
            end
         && match opt_alertType o with
            | Some t => FraudDetection.alertTypeEqb (alert_alertType (ar_alert r)) t
            | None => true
            end
     end.

(** What the listing adds to each alert from its transaction. *)
Record TransactionSummary := mkSummary {
  sum_amount : Q;
  sum_merchantName : option string;
  sum_date : Z
}.

(** [getFraudAlerts]: newest first ([orderBy: { createdAt: 'desc' }]),
    each alert with the summary of its transaction. *)
Definition getFraudAlerts (db : Db) (rows : list AlertRow) (userId : string)
  (options : option AlertOptions) : list (AlertRow * option TransactionSummary) :=
  map (fun r =>
         (r, option_map
               (fun t => mkSummary (tx_amount t) (tx_merchantName t) (tx_date t))
               (find (fun t => String.eqb (tx_id t) (alert_transactionId (ar_alert r)))
                     (transactions db))))
      (rev (List.filter (alertMatches userId options) rows)).

(** [data: { isReviewed: true, isFalsePositive, reviewedAt: new Date() }] *)
Definition markReviewed (isFalsePositive : bool) (now : Z) (r : AlertRow)
  : AlertRow :=
  let a := ar_alert r in
  mkAlertRow
    (mkFraudAlert (alert_id a) (alert_userId a) (alert_transactionId a)
       (alert_alertType a) (alert_severity a) (alert_reason a) true
       isFalsePositive)
    (Some now).

(** [reviewAlert]; [learnFromFalsePositive] only logs. *)
Definition reviewAlert (rows : list AlertRow) (now : Z)
  (alertId userId : string) (isFalsePositive : bool)
  : Outcome AlertRow * list AlertRow :=
  match find (fun r => String.eqb (alert_id (ar_alert r)) alertId
                       && String.eqb (alert_userId (ar_alert r)) userId) rows with
  | None => (Throw "Fraud alert not found", rows)
  | Some alert =>
      (Ok (markReviewed isFalsePositive now alert),
       map (fun r => if String.eqb (alert_id (ar_alert r)) alertId
                     then markReviewed isFalsePositive now r else r) rows)
  end.

End FraudReview.

(** ** Counting *)

Module Counting.

(** The sum of the counts a location map holds. *)
Definition countTotal (m : gmap string nat) : nat :=
  sum_list (map snd (map_to_list m)).

End Counting.

(** ** transactionService: the import from Plaid and the Transaction model *)

Module TransactionService.

(** A row of [transactions] with the columns that only the import and the
    listing read. *)
Record TransactionRow := mkRow {
  row_tx : Transaction;
  row_accountId : string;
  row_plaidTransactionId : string;
  row_locationCountry : option string;
  row_isFraudulent : bool
}.

(** The fields of a Plaid transaction the import reads. *)
Record PlaidTransaction := mkPlaid {
  ptx_transaction_id : string;
  ptx_amount : Q;
  ptx_date : string;
  ptx_merchant_name : option string;
  ptx_name : string;
  ptx_pending : bool;
  ptx_location_city : option string;
  ptx_location_region : option string;
  ptx_location_country : option string;
  ptx_personal_finance_category_primary : option string;
  ptx_category : option (list string)
}.

(** What the import takes from the JavaScript runtime: [new Date(s)]
    ([None] for an invalid date), [d.toISOString()] of a valid date, the
    text of a number in a template literal, and [parseFloat] ([None] for
    [NaN]). *)
Record Runtime := mkRuntime {
  newDate : string -> option Z;
  toISOString : Z -> string;
  numberToString : Q -> string;
  parseFloat : string -> option Q
}.

(** [s.split(sep)] for a separator of one character. *)
Fixpoint split (sep : ascii) (s : string) : list string :=
  match s with
  | EmptyString => [EmptyString]
  | String c r =>
      if Ascii.eqb c sep then EmptyString :: split sep r
      else match split sep r with
           | p :: ps => String c p :: ps
           | [] => [String c EmptyString]
           end
  end.

(** [o || undefined] *)
Definition orUndefined (o : option string) : option string :=
  if Js.truthy o then o else None.

(** [TransactionModel.generateTransactionHash], for a valid date; on an
    invalid one [toISOString] throws. *)
Definition generateTransactionHash (rt : Runtime) (accountId : string)
  (amount : Q) (date : Z) (merchantName : option string) : string :=
  let dateStr := nth 0 (split "T"%char (toISOString rt date)) "" in
  let merchant := Js.orElse merchantName "unknown" in
  accountId +:+ "-" +:+ numberToString rt amount +:+ "-" +:+ dateStr
  +:+ "-" +:+ merchant.

(** [/^\d{4}-\d{2}-\d{2}$/.test(s)] *)
Definition isDateString (s : string) : bool :=
  match list_ascii_of_string s with
  | [y1; y2; y3; y4; h1; m1; m2; h2; d1; d2] =>
      Js.isDigit y1 && Js.isDigit y2 && Js.isDigit y3 && Js.isDigit y4
      && Ascii.eqb h1 "-"%char
      && Js.isDigit m1 && Js.isDigit m2
      && Ascii.eqb h2 "-"%char
      && Js.isDigit d1 && Js.isDigit d2
  | _ => false
  end.

(** The [where] clause of [findByHash]; a [NaN] amount equals no stored
    amount. *)
Definition hashMatches (userId accountId : string) (amount : option Q)
  (startDate endDate : Z) (merchantName : string) (r : TransactionRow) : bool :=
  String.eqb (tx_userId (row_tx r)) userId
  && String.eqb (row_accountId r) accountId
  && match amount with
     | Some a => Qeq_bool (tx_amount (row_tx r)) a
     | None => false
     end
  && (startDate <=? tx_date (row_tx r))
  && (tx_date (row_tx r) <=? endDate)
  && match tx_merchantName (row_tx r) with
     | None => String.eqb merchantName "unknown"
     | Some m => negb (String.eqb merchantName "unknown") && String.eqb m merchantName
     end.

(** [findByHash] *)
Definition findByHash (rt : Runtime) (rows : list TransactionRow)
  (userId hash : string) : bool :=
  let parts := split "-"%char hash in
  if (length parts <? 4)%nat then false
  else
    let accountId := nth 0 parts "" in
    let amount := parseFloat rt (nth 1 parts "") in
    let dateStr := nth 2 parts "" in
    let merchantName := Categorization.join "-" (skipn 3 parts) in
    if negb (isDateString dateStr) then false
    else
      match newDate rt (dateStr +:+ "T00:00:00.000Z"),
            newDate rt (dateStr +:+ "T23:59:59.999Z") with
      | Some startDate, Some endDate =>
          existsb (hashMatches userId accountId amount startDate endDate merchantName)
                  rows
      | _, _ => false
      end.

Record CreateTransactionInput := mkCreateInput {
  in_userId : string;
  in_accountId : string;
  in_plaidTransactionId : string;
  in_amount : Q;
  in_date : Z;
  in_merchantName : option string;
  in_description : string;
  in_categoryId : option string;
  in_categoryConfidence : option Z;
  in_isPending : option bool;
  in_locationCity : option string;
  in_locationRegion : option string;
  in_locationCountry : option string;
  in_isFraudulent : option bool
}.

(** [TransactionModel.validateCategoryConfidence] *)
Definition validateCategoryConfidence (confidence : Z) : bool :=
  (0 <=? confidence) && (confidence <=? 100).

(** [TransactionModel.validateCreateInput]: the list of errors.  The
    amount and the date of a [CreateTransactionInput] are always there. *)
Definition validateCreateInput (input : CreateTransactionInput) : list string :=
  ((if Js.isBlank (in_userId input) then ["User ID is required"] else [])
   ++ (if Js.isBlank (in_accountId input) then ["Account ID is required"] else [])
   ++ (if Js.isBlank (in_plaidTransactionId input)
       then ["Plaid transaction ID is required"] else [])
   ++ (if Js.isBlank (in_description input) then ["Description is required"] else [])
   ++ (match in_categoryConfidence input with
       | Some c => if validateCategoryConfidence c then []
                   else ["Category confidence must be between 0 and 100"]
       | None => []
       end))%list.

(** The state of the loop of [importTransactions]: the database, the
    table of transactions, the two counters, and the fraud analyses
    handed to [setImmediate], which run after the import. *)
Record ImportState := mkImport {
  im_db : Db;
  im_rows : list TransactionRow;
  im_imported : nat;
  im_duplicates : nat;
  im_analyses : list TransactionRow
}.

Definition countDuplicate (st : ImportState) : ImportState :=
  mkImport (im_db st) (im_rows st) (im_imported st) (S (im_duplicates st))
           (im_analyses st).

(** [personal_finance_category?.primary ? [primary] : category || undefined] *)
Definition plaidCategoryOf (plaidTx : PlaidTransaction) : option (list string) :=
  if Js.truthy (ptx_personal_finance_category_primary plaidTx)
  then option_map (fun p => [p]) (ptx_personal_finance_category_primary plaidTx)
  else ptx_category plaidTx.

(** The [transactionData] of one Plaid transaction. *)
Definition transactionData (accountId userId : string) (date : Z)
  (plaidTx : PlaidTransaction) : CreateTransactionInput :=
  mkCreateInput userId accountId (ptx_transaction_id plaidTx) (ptx_amount plaidTx)
    date (orUndefined (ptx_merchant_name plaidTx)) (ptx_name plaidTx) None None
    (Some (ptx_pending plaidTx))
    (orUndefined (ptx_location_city plaidTx))
    (orUndefined (ptx_location_region plaidTx))
    (orUndefined (ptx_location_country plaidTx)) None.

(** The row [prisma.transaction.create] stores for [transactionData] once
    it is categorized. *)
Definition createdRow (id : string) (data : CreateTransactionInput)
  (categorization : Categorization.CategorizationResult) : TransactionRow :=
  mkRow
    (mkTransaction id (in_userId data) (in_amount data) (in_date data)
       (in_merchantName data) (in_description data)
       (Some (Categorization.categoryId categorization))
       (Categorization.confidence categorization)
       (match in_isPending data with Some b => b | None => false end)
       (in_locationCity data) (in_locationRegion data))
    (in_accountId data) (in_plaidTransactionId data) (in_locationCountry data)
    (match in_isFraudulent data with Some b => b | None => false end).

(** One turn of the loop.  An invalid date makes [toISOString] throw in
    [generateTransactionHash]; the [catch] of the loop goes on with the
    next transaction. *)
Definition importOne (env : Env) (rt : Runtime) (accountId userId : string)
  (st : ImportState) (plaidTx : PlaidTransaction) : ImportState :=
  match find (fun r => String.eqb (row_plaidTransactionId r)
                                  (ptx_transaction_id plaidTx)) (im_rows st) with
  | Some _ => countDuplicate st
  | None =>
      match newDate rt (ptx_date plaidTx) with
      | None => st
      | Some date =>
          let txHash :=
            generateTransactionHash rt accountId (ptx_amount plaidTx) date
              (orUndefined (ptx_merchant_name plaidTx)) in
          if findByHash rt (im_rows st) userId txHash then countDuplicate st
          else
            let data := transactionData accountId userId date plaidTx in
            match validateCreateInput data with
            | _ :: _ => st
            | [] =>
                let (categorization, db') :=
                  Categorization.categorizeTransaction env (im_db st) userId
                    (Categorization.mkTxCat (in_merchantName data)
                       (in_description data) (plaidCategoryOf plaidTx)) in
                let created :=
                  createdRow (genId env (length (im_rows st))) data categorization in
                mkImport db' (im_rows st ++ [created]) (S (im_imported st))
                         (im_duplicates st) (im_analyses st ++ [created])
            end
      end
  end.

(** [importTransactions] *)
Definition importTransactions (env : Env) (rt : Runtime) (db : Db)
  (rows : list TransactionRow) (plaidTransactions : list PlaidTransaction)
  (accountId userId : string) : ImportState :=
  fold_left (importOne env rt accountId userId) plaidTransactions
            (mkImport db rows 0 0 []).

(** The Plaid identifiers a table holds. *)
Definition plaidIds (rows : list TransactionRow) : list string :=
  map row_plaidTransactionId rows.

(** A Plaid transaction whose identifier the table holds already. *)
Definition stored (rows : list TransactionRow) (plaidTx : PlaidTransaction) : bool :=
  existsb (fun r => String.eqb (row_plaidTransactionId r)
                               (ptx_transaction_id plaidTx)) rows.

(** A Plaid transaction the import passes over whatever the table holds:
    its date is invalid or its [transactionData] fails the validation. *)
Definition unimportable (rt : Runtime) (accountId userId : string)
  (plaidTx : PlaidTransaction) : bool :=
  match newDate rt (ptx_date plaidTx) with
  | None => true
  | Some date =>
      match validateCreateInput (transactionData accountId userId date plaidTx) with
      | [] => false
      | _ :: _ => true
      end
  end.

End TransactionService.

Module ImportSamples.

Import TransactionService.

(** A runtime that knows one day. *)
Definition runtime : Runtime :=
  mkRuntime
    (fun s => if String.eqb s "2024-01-15" then Some 1705276800000 else None)
    (fun _ => "2024-01-15T00:00:00.000Z")
    (fun _ => "4.5")
    (fun _ => Some (9 # 2)).

Definition coffee (id date : string) : PlaidTransaction :=
  mkPlaid id (9 # 2) date (Some "Corner Cafe") "Card purchase" false
    None None None None None.

(** A batch with a repeated identifier and an invalid date. *)
Definition batch : list PlaidTransaction :=
  [coffee "p1" "2024-01-15"; coffee "p1" "2024-01-15"; coffee "p2" "yesterday"].

(** The hash of the first transaction of the batch. *)
Definition coffeeHash : string :=
  generateTransactionHash runtime "acc1" (9 # 2) 1705276800000 (Some "Corner Cafe").

End ImportSamples.

(** ** transactionService: the paginated listing *)

Module TransactionListing.

Import TransactionService.

(** [TransactionFilters].  [page] and [limit] are integers of either
    sign, as [parseInt] gives them in the route; [None] stands for
    [undefined] and for [NaN].  The dates are valid dates and the amounts
    finite numbers; queries built from others are not modelled. *)
Record TransactionFilters := mkFilters {
  f_startDate : option Z;
  f_endDate : option Z;
  f_categoryId : option string;
  f_accountId : option string;
  f_minAmount : option Q;
  f_maxAmount : option Q;
  f_merchantName : option string;
  f_page : option Z;
  f_limit : option Z
}.

(** [n || d] on an optional number: 0 gives way to the default like
    [undefined] and [NaN], a negative number is kept. *)
Definition numberOr (n : option Z) (d : Z) : Z :=
  match n with
  | Some v => if v =? 0 then d else v
  | None => d
  end.

(** [contains] with [mode: 'insensitive']. *)
Definition containsInsensitive (needle hay : string) : bool :=
  Js.includes (Js.toLowerCase needle) (Js.toLowerCase hay).

(** An optional condition on a nullable string column. *)
Definition equalsWhenGiven (wanted : option string) (column : option string) : bool :=
  if Js.truthy wanted
  then match wanted, column with
       | Some w, Some c => String.eqb c w
       | _, _ => false
       end
  else true.

(** The [where] clause of [getTransactions]. *)
Definition matchesFilters (userId : string) (filters : TransactionFilters)
  (r : TransactionRow) : bool :=
  String.eqb (tx_userId (row_tx r)) userId
  && match f_startDate filters with
     | Some d => d <=? tx_date (row_tx r)
     | None => true
     end
  && match f_endDate filters with
     | Some d => tx_date (row_tx r) <=? d
     | None => true
     end
  && equalsWhenGiven (f_categoryId filters) (tx_categoryId (row_tx r))
  && equalsWhenGiven (f_accountId filters) (Some (row_accountId r))
  && match f_minAmount filters with
     | Some a => Qle_bool a (tx_amount (row_tx r))
     | None => true
     end
  && match f_maxAmount filters with
     | Some a => Qle_bool (tx_amount (row_tx r)) a
     | None => true
     end
  && (if Js.truthy (f_merchantName filters)
      then match f_merchantName filters, tx_merchantName (row_tx r) with
           | Some needle, Some m => containsInsensitive needle m
           | _, _ => false
           end
      else true).

(** No row comes before a later one. *)
Definition byDateDesc (a b : TransactionRow) : Prop :=
  tx_date (row_tx b) <= tx_date (row_tx a).

(** [prisma.transaction.findMany] with [skip], [take] and
    [orderBy: { date: 'desc' }], applied to the rows that satisfy [where].
    The order of rows of the same date and the answer to a negative
    [skip] or [take] are the database's: the service fixes neither. *)
Definition FindMany : Type :=
  list TransactionRow -> Z -> Z -> Outcome (list TransactionRow).

Definition window (skip take : Z) (ordered : list TransactionRow)
  : list TransactionRow :=
  firstn (Z.to_nat take) (skipn (Z.to_nat skip) ordered).

(** What the service relies on: an answer to a query whose [skip] and
    [take] are not negative is the window of the rows in an order with
    no row before a later one. *)
Definition windowed (findMany : FindMany) : Prop :=
  forall matching skip take transactions,
    0 <= skip -> 0 <= take ->
    findMany matching skip take = Ok transactions ->
    exists ordered,
      Permutation ordered matching /\
      StronglySorted byDateDesc ordered /\
      transactions = window skip take ordered.

(** [Number.MAX_SAFE_INTEGER]: up to it the numbers of the service are
    the integers they stand for. *)
Definition MAX_SAFE_INTEGER : Z := 2 ^ 53 - 1.

(** A listed transaction: the row and the name of its category. *)
Record ListedTransaction := mkListed {
  listed_row : TransactionRow;
  listed_categoryName : option string
}.

Record PaginatedTransactions := mkPaginated {
  pg_transactions : list ListedTransaction;
  pg_total : Z;
  pg_page : Z;
  pg_limit : Z;
  pg_totalPages : Z
}.

(** [include: { category: { select: { name: true, ... } } }] *)
Definition categoryNameOf (db : Db) (r : TransactionRow) : option string :=
  match tx_categoryId (row_tx r) with
  | Some id =>
      option_map cat_name (find (fun c => String.eqb (cat_id c) id) (categories db))
  | None => None
  end.

(** [Math.ceil(total / limit)]; [limit] is never 0. *)
Definition ceilQuotient (total limit : Z) : Z := - ((- total) / limit).

(** [getTransactions]; an error of the query is the error of the call. *)
Definition getTransactions (findMany : FindMany) (db : Db)
  (rows : list TransactionRow) (userId : string) (filters : TransactionFilters)
  : Outcome PaginatedTransactions :=
  let page := numberOr (f_page filters) 1 in
  let limit := numberOr (f_limit filters) 50 in
  let skip := (page - 1) * limit in
  let matching := List.filter (matchesFilters userId filters) rows in
  let total := Z.of_nat (length matching) in
  match findMany matching skip limit with
  | Throw message => Throw message
  | Ok transactions =>
      Ok (mkPaginated
            (map (fun r => mkListed r (categoryNameOf db r)) transactions)
            total page limit (ceilQuotient total limit))
  end.

(** The same filters, asking for another page. *)
Definition withPage (page : Z) (filters : TransactionFilters) : TransactionFilters :=
  mkFilters (f_startDate filters) (f_endDate filters) (f_categoryId filters)
    (f_accountId filters) (f_minAmount filters) (f_maxAmount filters)
    (f_merchantName filters) (Some page) (f_limit filters).

(** A database that keeps rows of the same date in the order they are
    stored in and refuses a negative [skip] or [take]. *)
Fixpoint insertByDate (r : TransactionRow) (l : list TransactionRow)
  : list TransactionRow :=
  match l with
  | [] => [r]
  | x :: xs =>
      if tx_date (row_tx r) <? tx_date (row_tx x)
      then x :: insertByDate r xs
      else r :: l
  end.

Definition orderByDateDesc (l : list TransactionRow) : list TransactionRow :=
  fold_right insertByDate [] l.

Definition inStorageOrder : FindMany :=
  fun matching skip take =>
    if (skip <? 0) || (take <? 0)
    then Throw "Invalid pagination"
    else Ok (window skip take (orderByDateDesc matching)).

(** Three purchases on three days, listed two to a page. *)
Definition threeRows : list TransactionRow :=
  [mkRow (Samples.purchase "t1" (Samples.now - 2 * Samples.day) (10 # 1))
         "acc1" "p1" None false;
   mkRow (Samples.purchase "t2" Samples.now (20 # 1)) "acc1" "p2" None false;
   mkRow (Samples.purchase "t3" (Samples.now - Samples.day) (30 # 1))
         "acc1" "p3" None false].

Definition twoToAPage : TransactionFilters :=
  mkFilters None None None None None None None None (Some 2).

(** The answers to the pages 1, 2, ... of [threeRows]. *)
Definition threeRowsPage (page : Z) : PaginatedTransactions :=
  match getTransactions inStorageOrder Samples.quietDb threeRows "u1"
          (withPage page twoToAPage) with
  | Ok r => r
  | Throw _ => mkPaginated [] 0 0 0 0
  end.

(** [getTransactionById] *)
Definition getTransactionById (rows : list TransactionRow)
  (transactionId userId : string) : option TransactionRow :=
  find (fun r => String.eqb (tx_id (row_tx r)) transactionId
                 && String.eqb (tx_userId (row_tx r)) userId) rows.

End TransactionListing.

(** ** reportRoutes: the in-memory cache of the reports *)

Module ReportRoutes.

Definition CACHE_TTL : Z := 5 * 60 * 1000.

Section Cache.

(** [T] is the type of the cached reports, [St] the state the function
    that computes a report runs in. *)
Variables St T : Type.

Record CacheEntry := mkEntry {
  entry_data : T;
  entry_timestamp : Z
}.

(** [getCachedOrExecute], with [now] the value of [Date.now()].  A cached
    entry is an object, so [cached && ...] only tests that there is one. *)
Definition getCachedOrExecute (cache : gmap string CacheEntry) (now : Z)
  (cacheKey : string) (executeFn : St -> T * St) (s : St)
  : T * gmap string CacheEntry * St :=
  match cache !! cacheKey with
  | Some cached =>
      if now - entry_timestamp cached <? CACHE_TTL
      then (entry_data cached, cache, s)
      else let (data, s') := executeFn s in
           (data, <[cacheKey := mkEntry data now]> cache, s')
  | None =>
      let (data, s') := executeFn s in
      (data, <[cacheKey := mkEntry data now]> cache, s')
  end.

(** A request to a report route: the time it is served at, its cache key
    and the computation of its report. *)
Record Request := mkRequest {
  req_now : Z;
  req_key : string;
  req_execute : St -> T * St
}.

(** The reports sent for a sequence of requests. *)
Fixpoint serve (cache : gmap string CacheEntry) (s : St) (requests : list Request)
  : list T :=
  match requests with
  | [] => []
  | r :: rest =>
      let '(data, cache', s') :=
        getCachedOrExecute cache (req_now r) (req_key r) (req_execute r) s in
      data :: serve cache' s' rest
  end.

(** The clock does not run backwards from one request to the next. *)
Definition inOrder (a b : Request) : Prop := req_now a <= req_now b.

(** [data] is a report computed for [r] or for a request with its key that
    was served at most [CACHE_TTL] before it. *)
Definition fresh (requests : list Request) (r : Request) (data : T) : Prop :=
  exists r' s0,
    In r' requests /\ req_key r' = req_key r /\
    req_now r - CACHE_TTL < req_now r' <= req_now r /\
    data = fst (req_execute r' s0).

(** Every cached entry was computed for a request that has been served. *)
Definition cacheFrom (seen : list Request) (cache : gmap string CacheEntry) : Prop :=
  forall k e, cache !! k = Some e ->
    exists r' s0, In r' seen /\ req_key r' = k /\
                  req_now r' = entry_timestamp e /\
                  entry_data e = fst (req_execute r' s0).

End Cache.

Arguments cacheFrom {St T}.
Arguments mkEntry {T}.
Arguments entry_data {T}.
Arguments entry_timestamp {T}.
Arguments getCachedOrExecute {St T}.
Arguments mkRequest {St T}.
Arguments req_now {St T}.
Arguments req_key {St T}.
Arguments req_execute {St T}.
Arguments serve {St T}.
Arguments inOrder {St T}.
Arguments fresh {St T}.

End ReportRoutes.

Module CacheSamples.

Import ReportRoutes.

(** A report that counts how often it was computed. *)
Definition countingReport (n : nat) : nat * nat := (n, S n).

(** Three requests for one report: two within five minutes, one later. *)
Definition requests : list (Request nat nat) :=
  [mkRequest 0 "spending:u1" countingReport;
   mkRequest 1000 "spending:u1" countingReport;
   mkRequest 400000 "spending:u1" countingReport].

End CacheSamples.

(** ** reportingService *)

Module ReportingService.

Import TransactionService.

Record SpendingAnalysisOptions := mkOptions {
  opt_startDate : Z;
  opt_endDate : Z;
  opt_accountId : option string
}.

Record SpendingByCategory := mkSpending {
  sp_categoryId : string;
  sp_categoryName : string;
  sp_totalAmount : Q;
  sp_transactionCount : nat;
  sp_percentageOfTotal : Q
}.

(** An entry of [categoryMap]. *)
Record CategoryTotal := mkTotal {
  ct_categoryId : string;
  ct_categoryName : string;
  ct_totalAmount : Q;
  ct_transactionCount : nat
}.

(** The [where] clause of the spending report and of [getPeriodData]. *)
Definition inPeriod (userId : string) (startDate endDate : Z)
  (accountId : option string) (r : TransactionRow) : bool :=
  String.eqb (tx_userId (row_tx r)) userId
  && (startDate <=? tx_date (row_tx r))
  && (tx_date (row_tx r) <=? endDate)
  && negb (tx_isPending (row_tx r))
  && (if Js.truthy accountId
      then match accountId with
           | Some a => String.eqb (row_accountId r) a
           | None => false
           end
      else true).

(** [Math.abs(Number(tx.amount))] *)
Definition spent (r : TransactionRow) : Q := Qabs (tx_amount (row_tx r)).

(** [transactions.reduce((sum, tx) => sum + Math.abs(Number(tx.amount)), 0)] *)
Definition totalOf (txs : list TransactionRow) : Q :=
  fold_left (fun sum tx => (sum + spent tx)%Q) txs 0%Q.

(** [tx.categoryId || 'uncategorized'] *)
Definition categoryKey (r : TransactionRow) : string :=
  Js.orElse (tx_categoryId (row_tx r)) "uncategorized".

(** [tx.category?.name || 'Uncategorized'] *)
Definition categoryLabel (db : Db) (r : TransactionRow) : string :=
  Js.orElse
    (match tx_categoryId (row_tx r) with
     | Some id =>
         option_map cat_name
           (find (fun c => String.eqb (cat_id c) id) (categories db))
     | None => None
     end)
    "Uncategorized".

(** One step of the [forEach] that fills [categoryMap]: a [Map] keeps its
    keys in the order they were first set. *)
Fixpoint addToCategory (id name : string) (amount : Q) (m : list CategoryTotal)
  : list CategoryTotal :=
  match m with
  | [] => [mkTotal id name (0 + amount) 1]
  | c :: rest =>
      if String.eqb (ct_categoryId c) id
      then mkTotal (ct_categoryId c) (ct_categoryName c)
                   (ct_totalAmount c + amount) (S (ct_transactionCount c)) :: rest
      else c :: addToCategory id name amount rest
  end.

Definition categoryMap (db : Db) (txs : list TransactionRow) : list CategoryTotal :=
  fold_left (fun m tx => addToCategory (categoryKey tx) (categoryLabel db tx)
                                       (spent tx) m)
            txs [].

(** [result.sort((a, b) => b.totalAmount - a.totalAmount)]; the sort is
    stable. *)
Fixpoint insertByTotal (x : SpendingByCategory) (l : list SpendingByCategory)
  : list SpendingByCategory :=
  match l with
  | [] => [x]
  | y :: ys =>
      if BudgetService.Qlt_bool (sp_totalAmount x) (sp_totalAmount y)
      then y :: insertByTotal x ys
      else x :: l
  end.

Definition sortByTotalDesc (l : list SpendingByCategory) : list SpendingByCategory :=
  fold_right insertByTotal [] l.

(** No category comes before one with a larger total. *)
Definition byTotalDesc (a b : SpendingByCategory) : Prop :=
  (sp_totalAmount b <= sp_totalAmount a)%Q.

(** The report [getSpendingByCategory] computes when the cache has none. *)
Definition spendingReport (db : Db) (rows : list TransactionRow) (userId : string)
  (options : SpendingAnalysisOptions) : list SpendingByCategory :=
  let transactions :=
    List.filter (inPeriod userId (opt_startDate options) (opt_endDate options)
                          (opt_accountId options)) rows in
  let totalSpending := totalOf transactions in
  let result :=
    map (fun cat =>
           mkSpending (ct_categoryId cat) (ct_categoryName cat) (ct_totalAmount cat)
             (ct_transactionCount cat)
             (if BudgetService.Qlt_bool 0 totalSpending
              then (ct_totalAmount cat / totalSpending * 100)%Q
              else 0%Q))
        (categoryMap db transactions) in
  sortByTotalDesc result.

(** [getSpendingByCategory]; [cached] is the report the Redis cache holds
    for the key of the call, when it holds one that parses. *)
Definition getSpendingByCategory (cached : option (list SpendingByCategory))
  (db : Db) (rows : list TransactionRow) (userId : string)
  (options : SpendingAnalysisOptions) : list SpendingByCategory :=
  match cached with
  | Some report => report
  | None => spendingReport db rows userId options
  end.

(** Sums over a report. *)
Definition sumQ (l : list Q) : Q := fold_right Qplus 0%Q l.

(** The numbers of the trends are doubles.  [round] stands for the
    rounding of a real result to the nearest double; each operation of
    the service on numbers is the real operation followed by it. *)
Definition unitRoundoff : Q := 1 # (2 ^ 53).

(** Rounding to the nearest double changes a number by at most the
    fraction 2^-53 of it, as long as the number is neither too large nor
    too small for a normal double; the amounts of the table, of at most
    twelve digits, and their sums and quotients are not. *)
Definition roundsToNearest (round : Q -> Q) : Prop :=
  forall x, (Qabs (round x - x) <= unitRoundoff * Qabs x)%Q.

(** What three roundings in a row can add to or take from a percentage,
    as a fraction of it. *)
Definition tolerance : Q := 1 # (2 ^ 51).

Record TrendData := mkTrendData {
  td_period : string;
  td_totalSpending : Q;
  td_transactionCount : nat;
  td_averageTransaction : Q
}.

Inductive Trend := up | down | stable.

Record TrendComparison := mkComparison {
  currentPeriod : TrendData;
  previousPeriod : TrendData;
  percentageChange : Q;
  trend : Trend
}.

(** [d.toISOString().split('T')[0]] *)
Definition isoDay (rt : Runtime) (d : Z) : string :=
  nth 0 (split "T"%char (toISOString rt d)) "".

(** [transactions.reduce((sum, tx) => sum + Math.abs(Number(tx.amount)), 0)]
    on doubles: [Number] rounds the decimal, [Math.abs] is exact, every
    addition rounds. *)
Definition totalSpendingOf (round : Q -> Q) (txs : list TransactionRow) : Q :=
  fold_left (fun sum tx => round (sum + Qabs (round (tx_amount (row_tx tx))))%Q)
            txs 0%Q.

(** [getPeriodData] *)
Definition getPeriodData (round : Q -> Q) (rt : Runtime)
  (rows : list TransactionRow) (userId : string) (startDate endDate : Z)
  (accountId : option string) : TrendData :=
  let transactions := List.filter (inPeriod userId startDate endDate accountId) rows in
  let totalSpending := totalSpendingOf round transactions in
  let transactionCount := length transactions in
  let averageTransaction :=
    match transactionCount with
    | O => 0%Q
    | S _ => round (totalSpending / inject_Z (Z.of_nat transactionCount))%Q
    end in
  mkTrendData (isoDay rt startDate +:+ " to " +:+ isoDay rt endDate)
    totalSpending transactionCount averageTransaction.

(** The period [getTrends] compares the current one with. *)
Definition previousStartDate (currentStartDate currentEndDate : Z) : Z :=
  currentStartDate - (currentEndDate - currentStartDate).

Definition previousEndDate (currentStartDate : Z) : Z := currentStartDate - 1.

(** The trends [getTrends] computes when the cache has none: the
    difference, the quotient and the product of [percentageChange] are
    rounded one after the other. *)
Definition trendsReport (round : Q -> Q) (rt : Runtime)
  (rows : list TransactionRow) (userId : string)
  (currentStartDate currentEndDate : Z) (accountId : option string)
  : TrendComparison :=
  let currentPeriodData :=
    getPeriodData round rt rows userId currentStartDate currentEndDate accountId in
  let previousPeriodData :=
    getPeriodData round rt rows userId
      (previousStartDate currentStartDate currentEndDate)
      (previousEndDate currentStartDate) accountId in
  let percentageChange :=
    if BudgetService.Qlt_bool 0 (td_totalSpending previousPeriodData)
    then round
           (round
              (round (td_totalSpending currentPeriodData
                      - td_totalSpending previousPeriodData)
               / td_totalSpending previousPeriodData)
            * 100)%Q
    else if BudgetService.Qlt_bool 0 (td_totalSpending currentPeriodData)
         then 100%Q
         else 0%Q in
  let trend :=
    if BudgetService.Qlt_bool (Qabs percentageChange) 5 then stable
    else if BudgetService.Qlt_bool 0 percentageChange then up
    else down in
  mkComparison currentPeriodData previousPeriodData percentageChange trend.

(** [getTrends], with [cached] as in [getSpendingByCategory]. *)
Definition getTrends (cached : option TrendComparison) (round : Q -> Q)
  (rt : Runtime) (rows : list TransactionRow) (userId : string)
  (currentStartDate currentEndDate : Z) (accountId : option string)
  : TrendComparison :=
  match cached with
  | Some report => report
  | None =>
      trendsReport round rt rows userId currentStartDate currentEndDate accountId
  end.

(** The double quote. *)
Definition quote : ascii := ascii_of_nat 34.

(** The [field.replace] of [escapeCsvField]: every double quote is
    written twice. *)
Fixpoint doubleQuotes (field : string) : string :=
  match field with
  | EmptyString => EmptyString
  | String c rest =>
      if Ascii.eqb c quote
      then String quote (String quote (doubleQuotes rest))
      else String c (doubleQuotes rest)
  end.

(** The field holds a comma, a double quote or a line feed. *)
Definition needsQuotes (field : string) : bool :=
  Js.includes "," field
  || Js.includes (String quote EmptyString) field
  || Js.includes Categorization.newline field.

(** [escapeCsvField] *)
Definition escapeCsvField (field : string) : string :=
  if String.eqb field "" then ""
  else if needsQuotes field
       then String quote (doubleQuotes field +:+ String quote EmptyString)
       else field.

(** How many double quotes a text holds. *)
Fixpoint quoteCount (s : string) : nat :=
  match s with
  | EmptyString => 0
  | String c rest => ((if Ascii.eqb c quote then 1 else 0) + quoteCount rest)%nat
  end.

End ReportingService.

Module ReportSamples.

Import TransactionService ReportingService.

Definition spend (id : string) (categoryId : option string) (amount : Q)
  : TransactionRow :=
  mkRow (mkTransaction id "u1" amount 1000 (Some "Corner Shop") "Card purchase"
           categoryId 85 false None None)
        "acc1" id None false.

(** Two purchases of groceries, a refund of a dinner and a purchase
    without category. *)
Definition rows : list TransactionRow :=
  [spend "t1" (Some "c1") (10 # 1); spend "t2" (Some "c2") (- 30 # 1);
   spend "t3" (Some "c1") (5 # 1); spend "t4" None (5 # 1)].

Definition options : SpendingAnalysisOptions := mkOptions 0 2000 None.

(** Numbers without rounding. *)
Definition exact (x : Q) : Q := x.

End ReportSamples.

(** ** The script that runs the fraud detection again *)

Module FraudRerun.

Import TransactionService.

(** [TransactionModel.toResponse], on the fields the analysis reads. *)
Definition toResponse (t : Transaction) : Transaction :=
  mkTransaction (tx_id t) (tx_userId t) (tx_amount t) (tx_date t)
    (orUndefined (tx_merchantName t)) (tx_description t)
    (orUndefined (tx_categoryId t)) (tx_categoryConfidence t) (tx_isPending t)
    (orUndefined (tx_locationCity t)) (orUndefined (tx_locationRegion t)).

Definition setFraudulent (b : bool) (r : TransactionRow) : TransactionRow :=
  mkRow (row_tx r) (row_accountId r) (row_plaidTransactionId r)
        (row_locationCountry r) b.

(** [prisma.transaction.update({ where: { id }, data: { isFraudulent: true } })] *)
Definition markFraudulent (id : string) (rows : list TransactionRow)
  : list TransactionRow :=
  map (fun r => if String.eqb (tx_id (row_tx r)) id then setFraudulent true r else r)
      rows.

(** [orderBy: { date: 'asc' }]; rows of the same date keep their storage
    order. *)
Fixpoint insertByDateAsc (r : TransactionRow) (l : list TransactionRow)
  : list TransactionRow :=
  match l with
  | [] => [r]
  | x :: xs =>
      if tx_date (row_tx x) <? tx_date (row_tx r)
      then x :: insertByDateAsc r xs
      else r :: l
  end.

Definition orderByDateAsc (l : list TransactionRow) : list TransactionRow :=
  fold_right insertByDateAsc [] l.

(** The tables the script writes and its two counters. *)
Record RerunState := mkRerun {
  rr_rows : list TransactionRow;
  rr_alerts : list FraudAlert;
  rr_alertsCreated : nat;
  rr_transactionsFlagged : nat
}.

(** The database the analysis of a transaction sees. *)
Definition view (st : RerunState) : Db :=
  mkDb [] [] (map row_tx (rr_rows st)) [] (rr_alerts st).

(** One turn of the loop of step 4, at time [now]. *)
Definition analyzeAndFlag (env : Env) (now : Z) (st : RerunState)
  (tx : TransactionRow) : RerunState :=
  let (alerts, table) :=
    FraudDetection.analyzeTransaction env now (view st) (toResponse (row_tx tx)) in
  match alerts with
  | [] => mkRerun (rr_rows st) table (rr_alertsCreated st) (rr_transactionsFlagged st)
  | _ :: _ =>
      mkRerun (markFraudulent (tx_id (row_tx tx)) (rr_rows st)) table
              (rr_alertsCreated st + length alerts) (S (rr_transactionsFlagged st))
  end.

(** The loop; [clock i] is the time of the analysis of [transactions[i]]. *)
Fixpoint analyzeAll (env : Env) (clock : nat -> Z) (i : nat) (st : RerunState)
  (txs : list TransactionRow) : RerunState :=
  match txs with
  | [] => st
  | tx :: rest =>
      analyzeAll env clock (S i) (analyzeAndFlag env (clock i) st tx) rest
  end.

(** [rerunFraudDetection]: every alert is deleted and every flag reset,
    then the transactions are analyzed from the earliest on. *)
Definition rerunFraudDetection (env : Env) (clock : nat -> Z)
  (rows : list TransactionRow) : RerunState :=
  let reset := map (setFraudulent false) rows in
  analyzeAll env clock 0 (mkRerun reset [] 0 0) (orderByDateAsc reset).

(** A transaction is flagged exactly when an alert names it. *)
Definition flagsMatchAlerts (rows : list TransactionRow) (tbl : list FraudAlert)
  : Prop :=
  forall r, In r rows ->
    (row_isFraudulent r = true <->
     exists a, In a tbl /\ alert_transactionId a = tx_id (row_tx r)).

(** What a turn of the loop keeps. *)
Definition rerunInvariant (rows : list TransactionRow) (txsLeft : nat)
  (bound : nat) (st : RerunState) : Prop :=
  map (setFraudulent false) (rr_rows st) = map (setFraudulent false) rows /\
  FraudDetection.uniqueAlerts (rr_alerts st) /\
  flagsMatchAlerts (rr_rows st) (rr_alerts st) /\
  (forall a, In a (rr_alerts st) ->
     alert_isReviewed a = false /\ alert_isFalsePositive a = false /\
     exists r, In r rows /\ alert_transactionId a = tx_id (row_tx r) /\
               alert_userId a = tx_userId (row_tx r)) /\
  (rr_transactionsFlagged st + txsLeft <= bound)%nat /\
  (length (rr_alerts st) <= rr_alertsCreated st)%nat /\
  (rr_alertsCreated st + 3 * txsLeft <= 3 * bound)%nat.

End FraudRerun.

(** ** budgetRoutes and fraudRoutes: what the routes answer *)

Module BudgetRoutes.

(** The status the [catch] of POST /api/budgets answers with. *)
Definition createErrorStatus (message : string) : nat :=
  if Js.includes "Validation failed" message
     || Js.includes "Category not found" message
     || Js.includes "already exists" message
  then 400%nat else 500%nat.

(** The status the [catch] of PUT /api/budgets/:id answers with. *)
Definition updateErrorStatus (message : string) : nat :=
  if String.eqb message "Budget not found" then 404%nat
  else if Js.includes "must be" message || Js.includes "Validation" message
       then 400%nat else 500%nat.

(** The status the [catch] of DELETE /api/budgets/:id and of
    GET /api/budgets/:id/progress answers with. *)
Definition notFoundStatus (message : string) : nat :=
  if String.eqb message "Budget not found" then 404%nat else 500%nat.

End BudgetRoutes.

Module FraudRoutes.

(** GET /api/fraud/alerts.  [includeReviewed] is the query parameter as
    sent; [severity] and [alertType] are left out or values of their
    enumerations. *)
Definition getAlerts (db : Db) (rows : list FraudReview.AlertRow) (userId : string)
  (includeReviewed : option string) (severity : option FraudAlertSeverity)
  (alertType : option FraudAlertType)
  : list (FraudReview.AlertRow * option FraudReview.TransactionSummary) :=
  let includeReviewed :=
    match includeReviewed with
    | Some s => String.eqb s "true"
    | None => false
    end in
  FraudReview.getFraudAlerts db rows userId
    (Some (FraudReview.mkAlertOptions (Some includeReviewed) severity alertType)).

End FraudRoutes.

(** ** The claims in the words of the specification *)

Module FraudSpec.

(** A non-pending transaction of the user in the trailing 30 days: dated
    within the 30 days that end at the call. *)
Definition inTrailing30Days (now : Z) (userId : string) (t : Transaction) : bool :=
  String.eqb (tx_userId t) userId
  && (now - 30 * FraudDetection.msPerDay <=? tx_date t)
  && (tx_date t <=? now)
  && negb (tx_isPending t).

(** A posted purchase in Paris dated the day after [Samples.now]. *)
Definition postDated (id : string) : Transaction :=
  mkTransaction id "u1" (10 # 1) (Samples.now + Samples.day) (Some "Corner Shop")
    "Card purchase" (Some "c1") 85 false (Some "Paris") (Some "FR").

Definition postDatedDb : Db :=
  mkDb [] []
       (map postDated ["t1"; "t2"; "t3"; "t4"; "t5"; "t6"; "t7"; "t8"; "t9"; "t10"])
       [] [].

Definition osloVisit : Transaction :=
  mkTransaction "t11" "u1" (10 # 1) Samples.now (Some "Corner Shop")
    "Card purchase" (Some "c1") 85 false (Some "Oslo") (Some "NO").

End FraudSpec.

Module LearningSamples.

(** A regular-expression engine for the patterns [createMerchantPattern]
    writes for names without special characters: [^] and literal text,
    tested at the start of the string, ignoring case. *)
Definition anchoredTest (pattern s : string) : option bool :=
  match pattern with
  | String c literal =>
      if Ascii.eqb c "^"%char
      then Some (String.prefix (Js.toLowerCase literal) (Js.toLowerCase s))
      else None
  | EmptyString => None
  end.

Definition env : Env :=
  mkEnv anchoredTest None (fun n => "row-" +:+ pretty n).

Definition purchaseAt (id merchant : string) : Transaction :=
  mkTransaction id "u1" (10 # 1) Samples.now (Some merchant) "Card purchase"
    None 0 false None None.

Definition startDb : Db :=
  mkDb [mkCategory "c1" None "Groceries" true;
        mkCategory "c2" None "Shopping" true;
        mkCategory "c3" None "Healthcare" true]
       []
       [purchaseAt "t1" "Target Optical"; purchaseAt "t2" "Target"]
       [] [].

(** The database after a correction by user u1. *)
Definition corrected (db : Db) (transactionId categoryId : string) : Db :=
  match Correction.updateCategory env db transactionId "u1" categoryId with
  | Ok (_, db') => db'
  | Throw _ => db
  end.

(** The user files Target Optical under Groceries, then Target under
    Shopping, twice. *)
Definition learnedDb : Db :=
  corrected (corrected (corrected startDb "t1" "c1") "t2" "c2") "t2" "c2".

End LearningSamples.

(** ** budgetService with the numbers of JavaScript

    [BudgetService] above reads amounts as exact decimals.  Here the
    progress of a budget is computed as the service computes it, on IEEE
    754 doubles: the aggregate of the database is an exact decimal,
    [Number] turns it and the amount of the budget into the nearest
    double, and every operation rounds. *)

Module BudgetNumbers.

(** A JavaScript number. *)
Definition number : Set := PrimFloat.float.

(** The number of an integer below 2^53 in absolute value. *)
Definition ofInteger (z : Z) : number :=
  match z with
  | Z0 => PrimFloat.zero
  | Zpos _ => PrimFloat.of_uint63 (Uint63.of_Z z)
  | Zneg p => PrimFloat.opp (PrimFloat.of_uint63 (Uint63.of_Z (Zpos p)))
  end.

(** [Number(decimal)]: the double nearest to the decimal, as the rounded
    quotient of its numerator and denominator in lowest terms (both below
    2^53 for a [Decimal(12,2)]). *)
Definition toNumber (q : Q) : number :=
  let r := Qred q in
  PrimFloat.div (ofInteger (Qnum r)) (ofInteger (Zpos (Qden r))).

(** The decimals [toNumber] converts as [Number] does: numerator and
    denominator are safe integers, so that the quotient is the only
    rounding. *)
Definition isSafe (q : Q) : Prop :=
  Z.abs (Qnum (Qred q)) < 2 ^ 53 /\ Z.pos (Qden (Qred q)) < 2 ^ 53.

(** [calculateSpending]: the database adds the amounts up as decimals,
    [Number] converts the sum. *)
Definition calculateSpending (db : Db) (budgetId userId : string) : Outcome number :=
  match BudgetService.getBudgetById db budgetId userId with
  | None => Throw "Budget not found"
  | Some budget =>
      Ok (toNumber
            (BudgetService.sumAmount
               (List.filter (BudgetService.countsTowards userId budget)
                            (transactions db))))
  end.

Record BudgetProgress := mkBudgetProgress {
  budget : Budget;
  currentSpending : number;
  percentageUsed : number;
  remainingAmount : number;
  daysRemaining : Z;
  isOverBudget : bool;
  shouldAlert : bool
}.

(** [getBudgetProgress]; [budget.amount] is [Number(budget.amount)] of the
    stored row. *)
Definition getBudgetProgress (db : Db) (now : Z) (budgetId userId : string)
  : Outcome BudgetProgress :=
  match BudgetService.getBudgetById db budgetId userId with
  | None => Throw "Budget not found"
  | Some budget =>
      match calculateSpending db budgetId userId with
      | Throw m => Throw m
      | Ok currentSpending =>
          let budgetAmount := toNumber (budget_amount budget) in
          let percentageUsed :=
            if PrimFloat.ltb PrimFloat.zero budgetAmount
            then PrimFloat.mul (PrimFloat.div currentSpending budgetAmount)
                               (ofInteger 100)
            else PrimFloat.zero in
          let remainingAmount := PrimFloat.sub budgetAmount currentSpending in
          let daysRemaining :=
            Z.max 0 (BudgetService.ceilDiv (budget_endDate budget - now)
                                           BudgetService.msPerDay) in
          let isOverBudget := PrimFloat.ltb budgetAmount currentSpending in
          let shouldAlert :=
            PrimFloat.leb (ofInteger (budget_alertThreshold budget)) percentageUsed in
          Ok (mkBudgetProgress budget currentSpending percentageUsed
                remainingAmount daysRemaining isOverBudget shouldAlert)
      end
  end.

(** A budget of 100 with an alert at 58 percent, and 58 spent. *)
Definition budgetOf100 : Budget :=
  mkBudget "b1" "u1" "c1" (100 # 1) "monthly" (Samples.now - 10 * Samples.day)
           (Samples.now + 20 * Samples.day) 58 true.

Definition spent58 : Db :=
  mkDb [mkCategory "c1" None "Groceries" true] []
       [Samples.purchase "t1" Samples.now (58 # 1)]
       [budgetOf100] [].

(** The amount of the budget, the spending that counts towards it and
    its threshold are numbers [Number] yields without more ado. *)
Definition inRange (db : Db) (userId : string) (b : Budget) : Prop :=
  isSafe (budget_amount b) /\
  isSafe (BudgetService.spendingOf userId b (transactions db)) /\
  Z.abs (budget_alertThreshold b) < 2 ^ 53.

End BudgetNumbers.

(** ** Properties *)

(** *** The embedding on concrete inputs *)

Example createMerchantPattern_store :
  Correction.createMerchantPattern "Target Store" = "^Target".
Proof. reflexivity. Qed.

Example createMerchantPattern_number :
  Correction.createMerchantPattern "Walmart #1234" = "^Walmart".
Proof. reflexivity. Qed.

Example createMerchantPattern_escape :
  Correction.createMerchantPattern "A.B (C) co" = "^A\.B \(C\)".
Proof. reflexivity. Qed.

Example categorize_keyword :
  Categorization.categorizeTransaction Samples.env Samples.quietDb "u1"
    (Categorization.mkTxCat (Some "STARBUCKS 0042") "Card purchase" None)
  = (Categorization.mkResult "c2" 85, Samples.quietDb).
Proof. reflexivity. Qed.

Example categorize_plaid :
  fst (Categorization.categorizeTransaction Samples.env Samples.quietDb "u1"
         (Categorization.mkTxCat None "Corner Shop"
            (Some ["Shops"; "Groceries"])))
  = Categorization.mkResult "c1" 70.
Proof. reflexivity. Qed.

Example categorize_default :
  fst (Categorization.categorizeTransaction Samples.env Samples.quietDb "u1"
         (Categorization.mkTxCat None "Corner Shop" None))
  = Categorization.mkResult "row-2" 0.
Proof. reflexivity. Qed.

Example sketchy_word_boundary :
  FraudDetection.isSketchy
    (FraudDetection.checkSketchyMerchant
       (mkTransaction "t" "u1" (12 # 1) 0 (Some "Betterment") "Deposit"
          None 0 false None None)) = false /\
  FraudDetection.checkSketchyMerchant Samples.casinoVisit
  = FraudDetection.mkSketchy true "Gambling transaction detected" medium.
Proof. split; reflexivity. Qed.

Example sketchy_round_amount :
  FraudDetection.checkSketchyMerchant
    (Samples.purchase "t" 0 (Qopp (2000 # 1)))
  = FraudDetection.mkSketchy true "Large round number transaction (2000)" medium.
Proof. reflexivity. Qed.

Example quiet_big_purchase :
  FraudDetection.analyzeTransaction Samples.env Samples.now Samples.quietDb
    Samples.bigPurchase = ([], []).
Proof. reflexivity. Qed.

Example budget_progress_sample :
  match BudgetService.getBudgetProgress Samples.quietDb Samples.now "b1" "u1" with
  | Ok p => Qred (BudgetService.currentSpending p) = (4371 # 1)%Q /\
            Qred (BudgetService.percentageUsed p) = (4371 # 2)%Q /\
            BudgetService.shouldAlert p = true
  | Throw _ => False
  end.
Proof. vm_compute. repeat split. Qed.

(** *** The rule scan of the categorization cascade *)

Section RuleScan.

Import Categorization.

Variable env : Env.

Lemma insertByPriority_perm r l :
  Permutation (r :: l) (insertByPriority r l).
Proof.
  induction l as [| x xs IH]; simpl.
  - reflexivity.
  - destruct (rule_priority r <? rule_priority x).
    + rewrite perm_swap. now apply perm_skip.
    + reflexivity.
Qed.

Lemma orderByPriorityDesc_perm l :
  Permutation l (orderByPriorityDesc l).
Proof.
  induction l as [| x xs IH]; simpl.
  - reflexivity.
  - rewrite <- insertByPriority_perm. now apply perm_skip.
Qed.

Lemma insertByPriority_sorted r l :
  StronglySorted byPriorityDesc l ->
  StronglySorted byPriorityDesc (insertByPriority r l).
Proof.
  induction 1 as [| x xs Hs IH Hx]; simpl.
  - repeat constructor.
  - destruct (rule_priority r <? rule_priority x) eqn:E.
    + constructor; [exact IH |].
      rewrite <- insertByPriority_perm. constructor; [| exact Hx].
      apply Z.ltb_lt in E. unfold byPriorityDesc. lia.
    + apply Z.ltb_ge in E.
      constructor; [constructor; assumption |].
      constructor; [exact E |].
      rewrite Forall_forall in Hx |- *. intros y Hy.
      specialize (Hx y Hy). unfold byPriorityDesc in *. lia.
Qed.

Lemma orderByPriorityDesc_sorted l :
  StronglySorted byPriorityDesc (orderByPriorityDesc l).
Proof.
  induction l as [| x xs IH]; simpl.
  - constructor.
  - now apply insertByPriority_sorted.
Qed.

Lemma firstMatchingRule_none name l :
  firstMatchingRule env name l = None <->
  forall rule, In rule l ->
    matchesMerchant env (rule_merchantPattern rule) name = false.
Proof.
  induction l as [| x xs IH]; simpl.
  - split; [intros _ rule [] | reflexivity].
  - destruct (matchesMerchant env (rule_merchantPattern x) name) eqn:E.
    + split; [discriminate |]. intros H. specialize (H x (or_introl eq_refl)).
      congruence.
    + rewrite IH. split.
      * intros H rule [<- | Hin]; [exact E | now apply H].
      * intros H rule Hin. apply H. now right.
Qed.

Lemma firstMatchingRule_some name l r :
  StronglySorted byPriorityDesc l ->
  firstMatchingRule env name l = Some r ->
  exists rule,
    In rule l /\
    matchesMerchant env (rule_merchantPattern rule) name = true /\
    r = mkResult (rule_categoryId rule) 95 /\
    forall other, In other l ->
      matchesMerchant env (rule_merchantPattern other) name = true ->
      rule_priority other <= rule_priority rule.
Proof.
  induction 1 as [| x xs Hs IH Hx]; simpl; [discriminate |].
  destruct (matchesMerchant env (rule_merchantPattern x) name) eqn:E.
  - intros [= <-]. exists x. repeat split; auto.
    intros other [<- | Hin] _; [lia |].
    rewrite List.Forall_forall in Hx. now apply Hx.
  - intros H. destruct (IH H) as (rule & Hin & Hm & Hr & Hmax).
    exists rule. repeat split; auto.
    intros other [<- | Hin'] Hm'; [congruence | now apply Hmax].
Qed.

Lemma in_rulesOf userId rules rule :
  In rule (orderByPriorityDesc (rulesOf userId rules)) <->
  In rule rules /\ rule_userId rule = userId.
Proof.
  rewrite <- (Permutation_in' (eq_refl rule) (orderByPriorityDesc_perm _)).
  unfold rulesOf. rewrite filter_In. now rewrite String.eqb_eq.
Qed.

Lemma scanPatterns_confidence cats name ps r :
  scanPatterns cats name ps = Some r ->
  In (confidence r) (map snd ps).
Proof.
  induction ps as [| [[alts cn] conf] rest IH]; simpl; [discriminate |].
  destruct (testAlternation alts name).
  - destruct (findSystemCategory cats cn).
    + intros [= <-]. now left.
    + intros H. right. now apply IH.
  - intros H. right. now apply IH.
Qed.

Lemma patterns_confidence_range :
  Forall (fun c => 0 <= c <= 100) (map snd patterns).
Proof. repeat constructor; simpl; lia. Qed.

Lemma stage_confidence_range db userId transaction s r :
  stageResult env db userId transaction s = Some r ->
  0 <= confidence r <= 100.
Proof.
  destruct s; simpl.
  - unfold matchUserRules. intros H.
    apply firstMatchingRule_some in H; [| apply orderByPriorityDesc_sorted].
    destruct H as (rule & _ & _ & -> & _). simpl. lia.
  - unfold matchMerchantPattern.
    destruct (String.eqb _ ""); [discriminate |]. intros H.
    apply scanPatterns_confidence in H.
    pose proof patterns_confidence_range as HF.
    rewrite List.Forall_forall in HF. now apply HF.
  - unfold matchPlaidCategory.
    destruct (plaidCategory transaction) as [names |]; [| discriminate].
    destruct (last names) as [n |]; [| discriminate].
    destruct (lookupMapping n) as [m |]; [| discriminate].
    destruct (String.eqb m ""); [discriminate |].
    destruct (findSystemCategory _ m); [| discriminate].
    intros [= <-]. simpl. lia.
  - unfold categorizeWithAI.
    destruct (openai env) as [create |]; [| discriminate].
    destruct (create _) as [content |]; [| discriminate].
    destruct (String.eqb _ ""); [discriminate |].
    destruct (find _ _); [| discriminate].
    intros [= <-]. simpl. lia.
  - intros [= <-]. simpl. lia.
Qed.

Lemma find_snoc_fresh {A} (f : A -> bool) (l : list A) (a : A) :
  find f l = None -> f a = true -> find f (l ++ [a]) = Some a.
Proof.
  intros Hl Ha. induction l as [| x xs IH]; simpl in *.
  - now rewrite Ha.
  - destruct (f x); [discriminate | now apply IH].
Qed.

Lemma getDefaultCategory_found db :
  let (category, db') := getDefaultCategory env db in
  findSystemCategory (categories db') "Uncategorized" = Some category /\
  cat_name category = "Uncategorized" /\ cat_isSystem category = true.
Proof.
  unfold getDefaultCategory.
  destruct (findSystemCategory (categories db) "Uncategorized") as [c |] eqn:E.
  - split; [exact E |]. unfold findSystemCategory in E.
    apply find_some in E. destruct E as [_ E].
    apply andb_true_iff in E. destruct E as [E1 E2].
    apply String.eqb_eq in E1. now split.
  - simpl. split; [| now split]. unfold findSystemCategory in *.
    now apply find_snoc_fresh.
Qed.

End RuleScan.

(** C1: [categorizeTransaction] always returns a pair whose confidence
    lies between 0 and 100, and the pair is the answer of the first stage
    of the cascade that answers: the user's learned rules (the matching
    rule of highest priority, confidence 95), then the merchant keyword
    patterns, then the Plaid category mapping, then OpenAI when it is
    configured, and otherwise the Uncategorized system category with
    confidence 0.  Only the last stage may write (it creates the
    Uncategorized category when it is missing). *)
Theorem categorizeTransaction_cascade :
  forall (env : Env) (db : Db) (userId : string)
         (transaction : Categorization.TransactionForCategorization),
    let r := fst (Categorization.categorizeTransaction env db userId transaction) in
    let db' := snd (Categorization.categorizeTransaction env db userId transaction) in
    let name := Js.orElse (Categorization.merchantName transaction)
                          (Categorization.description transaction) in
    let applies rule :=
      In rule (categorizationRules db) /\ rule_userId rule = userId /\
      Categorization.matchesMerchant env (rule_merchantPattern rule) name = true in
    0 <= Categorization.confidence r <= 100 /\
    exists s : Categorization.Stage,
      Categorization.stageResult env db userId transaction s = Some r /\
      (forall s', (Categorization.stageRank s' < Categorization.stageRank s)%nat ->
                  Categorization.stageResult env db userId transaction s' = None) /\
      (s = Categorization.UserRule ->
         exists rule, applies rule /\
           r = Categorization.mkResult (rule_categoryId rule) 95 /\
           forall other, applies other ->
             rule_priority other <= rule_priority rule) /\
      (s <> Categorization.UserRule -> forall rule, ~ applies rule) /\
      (s = Categorization.OpenAI -> openai env <> None) /\
      (s = Categorization.Default ->
         Categorization.confidence r = 0 /\
         exists category,
           Categorization.findSystemCategory (categories db') "Uncategorized"
             = Some category /\
           Categorization.categoryId r = cat_id category) /\
      (s <> Categorization.Default -> db' = db).
Proof.
  intros env db userId transaction r db' name applies.
  assert (Hstage : exists s : Categorization.Stage,
    Categorization.stageResult env db userId transaction s = Some r /\
    (forall s', (Categorization.stageRank s' < Categorization.stageRank s)%nat ->
                Categorization.stageResult env db userId transaction s' = None) /\
    (s = Categorization.OpenAI -> openai env <> None) /\
    (s = Categorization.Default ->
       Categorization.confidence r = 0 /\
       exists category,
         Categorization.findSystemCategory (categories db') "Uncategorized"
           = Some category /\
         Categorization.categoryId r = cat_id category) /\
    (s <> Categorization.Default -> db' = db)).
  { subst r db'. unfold Categorization.categorizeTransaction.
    destruct (Categorization.matchUserRules env db userId transaction)
      as [r1 |] eqn:E1.
    { exists Categorization.UserRule. simpl.
      repeat split; try discriminate; auto. intros s' Hs'. lia. }
    destruct (Categorization.matchMerchantPattern db transaction)
      as [r2 |] eqn:E2.
    { exists Categorization.MerchantPattern. simpl.
      repeat split; try discriminate; auto.
      intros [] Hs'; simpl in *; auto; lia. }
    destruct (Categorization.matchPlaidCategory db transaction)
      as [r3 |] eqn:E3.
    { exists Categorization.PlaidCategory. simpl.
      repeat split; try discriminate; auto.
      intros [] Hs'; simpl in *; auto; lia. }
    destruct (openai env) as [create |] eqn:Eo.
    - destruct (Categorization.categorizeWithAI env db userId transaction)
        as [r4 |] eqn:E4.
      { exists Categorization.OpenAI. simpl.
        repeat split; try discriminate; auto.
        intros [] Hs'; simpl in *; auto; lia. }
      exists Categorization.Default.
      pose proof (getDefaultCategory_found env db) as Hd.
      destruct (Categorization.getDefaultCategory env db) as [c dbd] eqn:Ed.
      simpl. rewrite ?Ed. simpl.
      repeat split; try discriminate; try congruence.
      + intros [] Hs'; simpl in *; auto; lia.
      + exists c. split; [apply Hd | reflexivity].
    - assert (E4 : Categorization.categorizeWithAI env db userId transaction
                   = None).
      { unfold Categorization.categorizeWithAI. now rewrite Eo. }
      exists Categorization.Default.
      pose proof (getDefaultCategory_found env db) as Hd.
      destruct (Categorization.getDefaultCategory env db) as [c dbd] eqn:Ed.
      simpl. rewrite ?Ed. simpl.
      repeat split; try discriminate; try congruence.
      + intros [] Hs'; simpl in *; auto; lia.
      + exists c. split; [apply Hd | reflexivity]. }
  destruct Hstage as (s & Hs & Hearlier & Hai & Hdef & Hdb).
  split; [exact (stage_confidence_range env db userId transaction s r Hs) |].
  exists s. repeat split; auto.
  - intros ->. simpl in Hs. unfold Categorization.matchUserRules in Hs.
    apply firstMatchingRule_some in Hs;
      [| apply orderByPriorityDesc_sorted].
    destruct Hs as (rule & Hin & Hm & Hr & Hmax).
    apply in_rulesOf in Hin. destruct Hin as [Hin Hu].
    exists rule. repeat split; auto.
    intros other (Hin' & Hu' & Hm').
    apply Hmax; [| exact Hm']. apply in_rulesOf. now split.
  - intros Hne rule (Hin & Hu & Hm).
    assert (Hnone : Categorization.stageResult env db userId transaction
                      Categorization.UserRule = None).
    { apply Hearlier. destruct s; simpl; try lia. congruence. }
    simpl in Hnone. unfold Categorization.matchUserRules in Hnone.
    rewrite firstMatchingRule_none in Hnone.
    specialize (Hnone rule). fold name in Hnone.
    rewrite Hnone in Hm; [discriminate |]. apply in_rulesOf. now split.
  - apply Hdef. assumption.
  - apply Hdef. assumption.
Qed.

(** *** Learning a rule from a manual correction *)

Section Learning.

Import Categorization Correction.

Variable env : Env.

Lemma find_map_stable {A} (p : A -> bool) (f : A -> A) (l : list A) :
  (forall x, p (f x) = p x) ->
  find p (map f l) = option_map f (find p l).
Proof.
  intros Hp. induction l as [| x xs IH]; simpl; [reflexivity |].
  rewrite Hp. destruct (p x); [reflexivity | exact IH].
Qed.

Lemma head_sorted_max l h :
  StronglySorted byPriorityDesc l ->
  head l = Some h ->
  forall r, In r l -> rule_priority r <= rule_priority h.
Proof.
  intros Hs Hh r Hin. destruct l as [| x xs]; [discriminate |].
  injection Hh as ->. inversion Hs as [| ? ? _ Hall]; subst.
  destruct Hin as [<- | Hin]; [lia |].
  rewrite List.Forall_forall in Hall. now apply Hall.
Qed.

Lemma orderByPriorityDesc_snoc_top l r :
  (forall x, In x l -> rule_priority x < rule_priority r) ->
  orderByPriorityDesc (l ++ [r])%list = r :: orderByPriorityDesc l.
Proof.
  induction l as [| x xs IH]; intros Hlt; simpl; [reflexivity |].
  rewrite IH by (intros y Hy; apply Hlt; now right).
  simpl. assert (Hx : (rule_priority x <? rule_priority r) = true).
  { apply Z.ltb_lt, Hlt. now left. }
  now rewrite Hx.
Qed.

Lemma rulesOf_snoc userId rules r :
  rule_userId r = userId ->
  rulesOf userId (rules ++ [r])%list = (rulesOf userId rules ++ [r])%list.
Proof.
  intros Hu. unfold rulesOf. rewrite List.filter_app. simpl.
  apply String.eqb_eq in Hu. now rewrite Hu.
Qed.

(** The priority given to a new rule is above every rule of the user. *)
Lemma newPriority_above userId rules r :
  In r rules -> rule_userId r = userId ->
  rule_priority r <
  match head (orderByPriorityDesc (rulesOf userId rules)) with
  | Some h => rule_priority h + 1
  | None => 100
  end.
Proof.
  intros Hin Hu.
  assert (Hr : In r (orderByPriorityDesc (rulesOf userId rules))).
  { apply in_rulesOf. now split. }
  destruct (head (orderByPriorityDesc (rulesOf userId rules))) as [h |] eqn:Eh.
  - pose proof (head_sorted_max _ h (orderByPriorityDesc_sorted _) Eh r Hr).
    lia.
  - destruct (orderByPriorityDesc (rulesOf userId rules)); [destruct Hr | discriminate].
Qed.

Lemma updateRule_in existing newCategoryId newPriority rules :
  In existing rules ->
  In (mkRule (rule_id existing) (rule_userId existing)
             (rule_merchantPattern existing) newCategoryId newPriority true)
     (updateRule (rule_id existing) newCategoryId newPriority rules).
Proof.
  intros Hin. unfold updateRule. apply in_map_iff. exists existing.
  now rewrite String.eqb_refl.
Qed.

Lemma isTransactionOf_assign transactionId userId categoryId tid t :
  isTransactionOf transactionId userId
    (if String.eqb (tx_id t) tid then assignCategory categoryId t else t)
  = isTransactionOf transactionId userId t.
Proof. now destruct (String.eqb (tx_id t) tid). Qed.

End Learning.

(** C10 (as stated): after a correction the corrected category takes
    precedence in future categorization.  It fails when the rule of the
    merchant exists already and another rule of the user that matches the
    merchant has a higher priority: the user has filed Target Optical
    under Groceries (a rule of priority 100) and Target under Shopping
    twice (a rule of priority 102); moving the Target Optical purchase to
    Healthcare raises its rule to 101 only, and the next Target Optical
    purchase is still filed under Shopping. *)
Lemma correction_not_always_first :
  ~ (forall (env : Env) (db : Db) (transactionId userId categoryId : string)
            (updated : Transaction) (db' : Db),
       Correction.updateCategory env db transactionId userId categoryId
         = Ok (updated, db') ->
       Categorization.categoryId
         (fst (Categorization.categorizeTransaction env db' userId
                 (Categorization.mkTxCat (tx_merchantName updated)
                    (tx_description updated) None)))
       = categoryId).
Proof.
  intros H.
  destruct (Correction.updateCategory LearningSamples.env LearningSamples.learnedDb
              "t1" "u1" "c3") as [[updated db'] | m] eqn:E;
    [| vm_compute in E; discriminate].
  pose proof (H _ _ _ _ _ _ _ E) as Hc.
  vm_compute in E. injection E as <- <-.
  vm_compute in Hc. discriminate.
Qed.

(** C10 (amended): a successful [updateCategory] stores the chosen category with
    confidence exactly 100 on the transaction and learns a rule for its
    merchant pattern.  When the user already has a rule with that pattern,
    that rule gets the new category and its priority plus 1, and no rule
    is added.  Otherwise one rule is appended whose priority is strictly
    above every rule of the user (100 when the user had none); it heads
    the scan of the user's rules, so every later transaction that its
    pattern matches is categorized with the corrected category. *)
Theorem updateCategory_learns_rule :
  forall (env : Env) (db : Db) (transactionId userId categoryId : string)
         (updated : Transaction) (db' : Db),
    Correction.updateCategory env db transactionId userId categoryId
      = Ok (updated, db') ->
    tx_id updated = transactionId /\
    tx_categoryId updated = Some categoryId /\
    tx_categoryConfidence updated = 100 /\
    In updated (transactions db') /\
    (forall t, In t (transactions db') -> tx_id t = transactionId ->
               tx_categoryId t = Some categoryId /\
               tx_categoryConfidence t = 100) /\
    let pattern :=
      Correction.createMerchantPattern
        (Js.orElse (tx_merchantName updated) (tx_description updated)) in
    let rules := categorizationRules db in
    let rules' := categorizationRules db' in
    match find (Correction.hasPattern userId pattern) rules with
    | Some existing =>
        rules' = Correction.updateRule (rule_id existing) categoryId
                   (rule_priority existing + 1) rules /\
        In (mkRule (rule_id existing) userId pattern categoryId
                   (rule_priority existing + 1) true) rules' /\
        length rules' = length rules
    | None =>
        exists newRule,
          rules' = (rules ++ [newRule])%list /\
          rule_userId newRule = userId /\
          rule_merchantPattern newRule = pattern /\
          rule_categoryId newRule = categoryId /\
          (forall r, In r rules -> rule_userId r = userId ->
                     rule_priority r < rule_priority newRule) /\
          (Categorization.rulesOf userId rules = [] ->
           rule_priority newRule = 100) /\
          (forall later,
             Categorization.matchesMerchant env pattern
               (Js.orElse (Categorization.merchantName later)
                          (Categorization.description later)) = true ->
             Categorization.categorizeTransaction env db' userId later
               = (Categorization.mkResult categoryId 95, db'))
    end.
Proof.
  intros env db transactionId userId categoryId updated db'.
  unfold Correction.updateCategory.
  destruct (find (Correction.isTransactionOf transactionId userId) (transactions db))
    as [transaction |] eqn:Et; [| discriminate].
  destruct (find (Correction.isCategoryFor categoryId userId) (categories db))
    as [category |] eqn:Ec; [| discriminate].
  unfold Correction.learnFromCorrection. simpl.
  rewrite find_map_stable
    by (intros x; apply isTransactionOf_assign).
  rewrite Et, Ec. simpl.
  pose proof (find_some _ _ Et) as [Hin Hp].
  apply andb_true_iff in Hp. destruct Hp as [Hid Hu].
  rewrite Hid. simpl.
  apply String.eqb_eq in Hid. apply String.eqb_eq in Hu.
  set (pattern := Correction.createMerchantPattern
                    (Js.orElse (tx_merchantName transaction)
                               (tx_description transaction))).
  assert (Htx : forall dbx : Db,
    transactions dbx =
      map (fun t => if String.eqb (tx_id t) transactionId
                    then Correction.assignCategory categoryId t else t)
          (transactions db) ->
    In (Correction.assignCategory categoryId transaction) (transactions dbx) /\
    (forall t, In t (transactions dbx) -> tx_id t = transactionId ->
               tx_categoryId t = Some categoryId /\
               tx_categoryConfidence t = 100)).
  { intros dbx ->. split.
    - apply in_map_iff. exists transaction. split; [| exact Hin].
      apply String.eqb_eq in Hid. now rewrite Hid.
    - intros t Ht Htid. apply in_map_iff in Ht. destruct Ht as (t0 & <- & _).
      destruct (String.eqb (tx_id t0) transactionId) eqn:E0.
      + now split.
      + simpl in Htid. apply String.eqb_neq in E0. contradiction. }
  destruct (find (Correction.hasPattern userId pattern) (categorizationRules db))
    as [existing |] eqn:Er.
  - intros [= <- <-]. simpl.
    destruct (Htx (setTransactions
                     (map (fun t => if String.eqb (tx_id t) transactionId
                                    then Correction.assignCategory categoryId t
                                    else t) (transactions db)) db) eq_refl)
      as [H1 H2].
    repeat split; auto; try (now apply H2).
    fold pattern. rewrite Er.
    pose proof (find_some _ _ Er) as [Hine Hpe].
    apply andb_true_iff in Hpe. destruct Hpe as [Hue Hpat].
    apply String.eqb_eq in Hue. apply String.eqb_eq in Hpat.
    repeat split.
    + rewrite <- Hue at 1. rewrite <- Hpat at 1.
      now apply updateRule_in.
    + unfold Correction.updateRule. now rewrite length_map.
  - intros [= <- <-]. simpl.
    destruct (Htx (setTransactions
                     (map (fun t => if String.eqb (tx_id t) transactionId
                                    then Correction.assignCategory categoryId t
                                    else t) (transactions db)) db) eq_refl)
      as [H1 H2].
    repeat split; auto; try (now apply H2).
    fold pattern. rewrite Er.
    eexists. split; [reflexivity |]. simpl.
    repeat split.
    + intros r Hr Hur. now apply newPriority_above.
    + intros Hnil. now rewrite Hnil.
    + intros later Hm.
      unfold Categorization.categorizeTransaction, Categorization.matchUserRules.
      simpl. rewrite rulesOf_snoc by reflexivity.
      rewrite orderByPriorityDesc_snoc_top.
      * simpl. now rewrite Hm.
      * intros x Hx. simpl. unfold Categorization.rulesOf in Hx.
        apply filter_In in Hx. destruct Hx as [Hx Hxu].
        apply String.eqb_eq in Hxu. now apply newPriority_above.
Qed.

Lemma updateCategory_learns_rule_witness :
  tx_categoryConfidence (Correction.assignCategory "c2" Samples.bigPurchase) = 100 /\
  In (Correction.assignCategory "c2" Samples.bigPurchase)
     (transactions Samples.correctedDb).
Proof.
  assert (H : Correction.updateCategory Samples.env Samples.quietDb "t9" "u1" "c2"
              = Ok (Correction.assignCategory "c2" Samples.bigPurchase,
                    Samples.correctedDb))
    by (vm_compute; reflexivity).
  destruct (updateCategory_learns_rule _ _ _ _ _ _ _ H) as (_ & _ & H1 & H2 & _).
  split; [exact H1 | exact H2].
Defined.


(** *** Budgets *)

Section Budgets.

Import BudgetService.

Lemma find_is_some {A} (p : A -> bool) (l : list A) (x : A) :
  In x l -> p x = true -> exists y, find p l = Some y.
Proof.
  intros Hin Hp. destruct (find p l) as [y |] eqn:E; [now exists y |].
  pose proof (find_none _ _ E x Hin). congruence.
Qed.

Lemma find_all_false {A} (p : A -> bool) (l : list A) :
  (forall x, In x l -> p x = false) -> find p l = None.
Proof.
  intros H. destruct (find p l) as [y |] eqn:E; [| reflexivity].
  apply find_some in E. destruct E as [Hin Hp].
  rewrite (H y Hin) in Hp. discriminate.
Qed.

Lemma sumAmount_from (f : Transaction -> bool) (l : list Transaction) (a : Q) :
  (fold_left (fun acc t => acc + tx_amount t) (List.filter f l) a
   == a + fold_right (fun t acc => (if f t then tx_amount t else 0) + acc) 0 l)%Q.
Proof.
  revert a. induction l as [| t rest IH]; intros a; simpl.
  - ring.
  - destruct (f t); simpl; rewrite IH; ring.
Qed.

Lemma spendingOf_fold userId b l :
  spendingOf userId b l =
  fold_right (fun t acc => ((if countsTowards userId b t then tx_amount t else 0)
                            + acc)%Q) 0%Q l.
Proof. induction l as [| t rest IH]; simpl; [reflexivity | now rewrite IH]. Qed.

Lemma countsTowards_iff userId b t :
  countsTowards userId b t = true <->
  tx_userId t = userId /\ tx_categoryId t = Some (budget_categoryId b) /\
  budget_startDate b <= tx_date t <= budget_endDate b /\
  tx_isPending t = false.
Proof.
  unfold countsTowards. rewrite !andb_true_iff, String.eqb_eq, !Z.leb_le,
    negb_true_iff.
  destruct (tx_categoryId t) as [c |].
  - rewrite String.eqb_eq. split.
    + intros ((((-> & ->) & ?) & ?) & ?). auto.
    + intros (-> & [= ->] & [? ?] & ?). auto.
  - split.
    + intros ((((_ & ?) & _) & _) & _). discriminate.
    + intros (_ & ? & _). discriminate.
Qed.

Lemma Qlt_bool_iff a b : Qlt_bool a b = true <-> (a < b)%Q.
Proof.
  unfold Qlt_bool. rewrite negb_true_iff. split.
  - intros H. apply Qnot_le_lt. intros Hle.
    apply Qle_bool_iff in Hle. congruence.
  - intros H. destruct (Qle_bool b a) eqn:E; [| reflexivity].
    apply Qle_bool_iff in E. exfalso. now apply (Qlt_not_le a b).
Qed.

Lemma overlap_caught input b :
  rangesOverlap (budget_startDate b) (budget_endDate b)
                (in_startDate input) (in_endDate input) ->
  budget_userId b = in_userId input ->
  budget_categoryId b = in_categoryId input ->
  budget_isActive b = true ->
  overlapsQuery input b = true.
Proof.
  intros [H1 H2] Hu Hc Ha. unfold overlapsQuery.
  rewrite Hu, Hc, Ha, !String.eqb_refl. simpl.
  destruct (budget_startDate b <=? in_startDate input) eqn:E1;
  destruct (in_startDate input <=? budget_endDate b) eqn:E2;
  destruct (budget_startDate b <=? in_endDate input) eqn:E3;
  destruct (in_endDate input <=? budget_endDate b) eqn:E4;
  destruct (in_startDate input <=? budget_startDate b) eqn:E5;
  destruct (budget_endDate b <=? in_endDate input) eqn:E6;
  try reflexivity; exfalso;
  rewrite ?Z.leb_le, ?Z.leb_gt in *; lia.
Qed.

Lemma validateCreateInput_nil input :
  validateCreateInput input = [] ->
  Js.isBlank (in_categoryId input) = false /\
  Qle_bool (in_amount input) 0 = false /\
  validatePeriod (in_period input) = true /\
  validateDateRange (in_startDate input) (in_endDate input) = true /\
  (forall t, in_alertThreshold input = Some t -> validateAlertThreshold t = true).
Proof.
  unfold validateCreateInput.
  destruct (Js.isBlank (in_userId input)); [discriminate |].
  destruct (Js.isBlank (in_categoryId input)); [discriminate |].
  destruct (Qle_bool (in_amount input) 0); [discriminate |].
  destruct (validatePeriod (in_period input)); [| discriminate].
  destruct (validateDateRange _ _); [| discriminate].
  destruct (in_alertThreshold input) as [t |].
  - destruct (validateAlertThreshold t) eqn:E; [| discriminate].
    intros _. repeat split; auto. now intros t' [= <-].
  - intros _. repeat split; auto. discriminate.
Qed.

End Budgets.

(** The double nearest to a decimal does not depend on how the decimal is
    written. *)
Lemma toNumber_Qeq (p q : Q) :
  (p == q)%Q -> BudgetNumbers.toNumber p = BudgetNumbers.toNumber q.
Proof.
  intros H. unfold BudgetNumbers.toNumber. now rewrite (Qred_complete _ _ H).
Qed.

(** 58 spent of a budget of 100: the service computes 58 / 100 * 100 on
    doubles and gets a number below 58. *)
Example percentage_of_58 :
  match BudgetNumbers.getBudgetProgress BudgetNumbers.spent58 Samples.now "b1" "u1" with
  | Ok p => PrimFloat.ltb (BudgetNumbers.percentageUsed p)
                          (BudgetNumbers.ofInteger 58) = true /\
            BudgetNumbers.shouldAlert p = false
  | Throw _ => False
  end.
Proof. vm_compute. split; reflexivity. Qed.

(** C2 (as stated): [percentageUsed] is the spending divided by the
    amount of the budget, times 100, and [shouldAlert] holds exactly when
    it is at least the threshold.  It fails for 58 spent of a budget of
    100 with a threshold of 58: the spending is 58 percent of the budget,
    yet the percentage the service computes is the double below 58 and
    there is no alert. *)
Lemma alert_missed_by_rounding :
  ~ (forall (db : Db) (now : Z) (budgetId userId : string)
            (p : BudgetNumbers.BudgetProgress),
       BudgetNumbers.getBudgetProgress db now budgetId userId = Ok p ->
       BudgetNumbers.inRange db userId (BudgetNumbers.budget p) ->
       (0 < budget_amount (BudgetNumbers.budget p))%Q ->
       BudgetNumbers.percentageUsed p
       = BudgetNumbers.toNumber
           (BudgetService.spendingOf userId (BudgetNumbers.budget p) (transactions db)
            / budget_amount (BudgetNumbers.budget p) * 100) /\
       (BudgetNumbers.shouldAlert p = true <->
        (inject_Z (budget_alertThreshold (BudgetNumbers.budget p))
         <= BudgetService.spendingOf userId (BudgetNumbers.budget p) (transactions db)
            / budget_amount (BudgetNumbers.budget p) * 100)%Q)).
Proof.
  intros H.
  destruct (BudgetNumbers.getBudgetProgress BudgetNumbers.spent58 Samples.now
              "b1" "u1") as [p | m] eqn:E; [| vm_compute in E; discriminate].
  pose proof (H _ _ _ _ _ E) as Hp.
  vm_compute in E. injection E as <-.
  cbn [BudgetNumbers.budget BudgetNumbers.shouldAlert] in Hp.
  assert (Hrange : BudgetNumbers.inRange BudgetNumbers.spent58 "u1"
                     BudgetNumbers.budgetOf100)
    by (repeat split; vm_compute; reflexivity).
  assert (Hpos : (0 < 100 # 1)%Q) by reflexivity.
  destruct (Hp Hrange Hpos) as [_ [_ Hback]].
  assert (Hexact : (inject_Z 58
                    <= BudgetService.spendingOf "u1" BudgetNumbers.budgetOf100
                         (transactions BudgetNumbers.spent58) / (100 # 1) * 100)%Q)
    by (vm_compute; discriminate).
  specialize (Hback Hexact). discriminate.
Qed.

(** C2 (amended): for a budget of the user, [getBudgetProgress] returns a
    progress whose [currentSpending] is the number of the sum of the
    amounts of the transactions that count towards the budget: those of
    the user, not pending, in the budget's category and dated within
    [startDate, endDate] (bounds included); [percentageUsed] is
    [currentSpending / amount * 100] computed on doubles, each operation
    rounded, and 0 when the amount is not positive; [shouldAlert] holds
    exactly when that [percentageUsed] is at least [alertThreshold]. *)
Theorem getBudgetProgress_spec :
  forall (db : Db) (now : Z) (budgetId userId : string) (b : Budget),
    BudgetService.getBudgetById db budgetId userId = Some b ->
    BudgetNumbers.inRange db userId b ->
    exists p,
      BudgetNumbers.getBudgetProgress db now budgetId userId = Ok p /\
      BudgetNumbers.budget p = b /\
      (forall t,
         BudgetService.countsTowards userId b t = true <->
         tx_userId t = userId /\
         tx_categoryId t = Some (budget_categoryId b) /\
         budget_startDate b <= tx_date t <= budget_endDate b /\
         tx_isPending t = false) /\
      BudgetNumbers.currentSpending p
      = BudgetNumbers.toNumber
          (BudgetService.spendingOf userId b (transactions db)) /\
      (PrimFloat.ltb PrimFloat.zero (BudgetNumbers.toNumber (budget_amount b)) = true ->
       BudgetNumbers.percentageUsed p
       = PrimFloat.mul
           (PrimFloat.div (BudgetNumbers.currentSpending p)
                          (BudgetNumbers.toNumber (budget_amount b)))
           (BudgetNumbers.ofInteger 100)) /\
      (PrimFloat.ltb PrimFloat.zero (BudgetNumbers.toNumber (budget_amount b)) = false ->
       BudgetNumbers.percentageUsed p = PrimFloat.zero) /\
      (BudgetNumbers.shouldAlert p = true <->
       PrimFloat.leb (BudgetNumbers.ofInteger (budget_alertThreshold b))
                     (BudgetNumbers.percentageUsed p) = true).
Proof.
  intros db now budgetId userId b Hb _.
  unfold BudgetNumbers.getBudgetProgress, BudgetNumbers.calculateSpending.
  rewrite Hb. eexists. split; [reflexivity |].
  cbn [BudgetNumbers.budget BudgetNumbers.currentSpending
       BudgetNumbers.percentageUsed BudgetNumbers.shouldAlert].
  split; [reflexivity |].
  split; [intros t; apply countsTowards_iff |].
  split.
  { apply toNumber_Qeq. unfold BudgetService.sumAmount. rewrite sumAmount_from.
    rewrite spendingOf_fold. ring. }
  split; [intros Hpos; now rewrite Hpos |].
  split; [intros Hnot; now rewrite Hnot |].
  reflexivity.
Qed.

Lemma getBudgetProgress_spec_witness :
  exists p,
    BudgetNumbers.getBudgetProgress BudgetNumbers.spent58 Samples.now "b1" "u1"
    = Ok p /\
    BudgetNumbers.budget p = BudgetNumbers.budgetOf100.
Proof.
  assert (Hrange : BudgetNumbers.inRange BudgetNumbers.spent58 "u1"
                     BudgetNumbers.budgetOf100)
    by (repeat split; vm_compute; reflexivity).
  destruct (getBudgetProgress_spec BudgetNumbers.spent58 Samples.now "b1" "u1"
              BudgetNumbers.budgetOf100 eq_refl Hrange) as (p & H1 & H2 & _).
  exists p. split; [exact H1 | exact H2].
Defined.


(** C9: [createBudget] throws, and leaves the database as it was,
    whenever the requested date range overlaps (shares an instant with) an
    active budget of the same user and category, the amount is not
    positive, the period is none of monthly, quarterly, annual, an alert
    threshold is given outside (0, 100], the end date is not after the
    start date, or the category is missing (blank identifier, or no
    category with it that is the user's own or a system one); and every
    call that throws leaves the database unchanged. *)
Theorem createBudget_rejects :
  forall (env : Env) (db : Db) (input : BudgetService.CreateBudgetInput),
    ((exists b, In b (budgets db) /\
                budget_userId b = BudgetService.in_userId input /\
                budget_categoryId b = BudgetService.in_categoryId input /\
                budget_isActive b = true /\
                BudgetService.rangesOverlap
                  (budget_startDate b) (budget_endDate b)
                  (BudgetService.in_startDate input)
                  (BudgetService.in_endDate input))
     \/ (BudgetService.in_amount input <= 0)%Q
     \/ ~ In (BudgetService.in_period input) ["monthly"; "quarterly"; "annual"]
     \/ (exists t, BudgetService.in_alertThreshold input = Some t /\
                   ~ (0 < t <= 100))
     \/ ~ (BudgetService.in_startDate input < BudgetService.in_endDate input)
     \/ BudgetService.in_categoryId input = ""
     \/ (forall c, In c (categories db) ->
                   cat_id c = BudgetService.in_categoryId input ->
                   categoryVisible (BudgetService.in_userId input) c = false)
     -> exists message,
          BudgetService.createBudget env db input = (Throw message, db))
    /\ (forall message db',
          BudgetService.createBudget env db input = (Throw message, db') ->
          db' = db).
Proof.
  intros env db input. split.
  - intros Hcase. unfold BudgetService.createBudget.
    destruct (BudgetService.validateCreateInput input) as [| e es] eqn:Ev;
      [| eexists; reflexivity].
    apply validateCreateInput_nil in Ev.
    destruct Ev as (Hblank & Hamt & Hper & Hrange & Hthr).
    destruct (find _ (categories db)) as [c |] eqn:Ec;
      [| eexists; reflexivity].
    destruct (find (BudgetService.overlapsQuery input) (budgets db))
      as [o |] eqn:Eo; [eexists; reflexivity |].
    exfalso.
    destruct Hcase as [(b & Hin & Hu & Hc & Ha & Hov) | [H | [H | [H | [H | [H | H]]]]]].
    + pose proof (find_none _ _ Eo b Hin) as Hq.
      rewrite (overlap_caught input b Hov Hu Hc Ha) in Hq. discriminate.
    + apply Qle_bool_iff in H. congruence.
    + apply H. unfold BudgetService.validatePeriod in Hper.
      apply existsb_exists in Hper. destruct Hper as (x & Hx & Hxe).
      apply String.eqb_eq in Hxe. now subst x.
    + destruct H as (t & Ht & Hbad). specialize (Hthr t Ht).
      unfold BudgetService.validateAlertThreshold in Hthr.
      apply andb_true_iff in Hthr. destruct Hthr as [H1 H2].
      apply Z.ltb_lt in H1. apply Z.leb_le in H2. lia.
    + unfold BudgetService.validateDateRange in Hrange.
      apply Z.ltb_lt in Hrange. contradiction.
    + rewrite H in Hblank. discriminate Hblank.
    + apply find_some in Ec. destruct Ec as [Hin Hp].
      unfold Correction.isCategoryFor in Hp.
      apply andb_true_iff in Hp. destruct Hp as [Hid Hvis].
      apply String.eqb_eq in Hid. rewrite (H c Hin Hid) in Hvis. discriminate.
  - intros message db'. unfold BudgetService.createBudget.
    destruct (BudgetService.validateCreateInput input); [| now intros [= _ <-]].
    destruct (find _ (categories db)); [| now intros [= _ <-]].
    destruct (find _ (budgets db)); [now intros [= _ <-] | discriminate].
Qed.

Lemma createBudget_rejects_witness :
  exists message,
    BudgetService.createBudget Samples.env Samples.quietDb Samples.overlappingInput
    = (Throw message, Samples.quietDb).
Proof.
  apply (createBudget_rejects Samples.env Samples.quietDb Samples.overlappingInput).
  left. exists Samples.groceriesBudget.
  repeat split; try reflexivity; try (now left); apply Z.leb_le; reflexivity.
Defined.


(** *** The location and velocity heuristics *)

Section FraudChecks.

Import FraudDetection.

Lemma countLocation_lookup m t k :
  countLocation m t !! k =
  if hasLocation t && String.eqb (keyOfTransaction t) k
  then Some (default 0 (m !! k) + 1)%nat
  else m !! k.
Proof.
  unfold countLocation. destruct (hasLocation t); simpl; [| reflexivity].
  destruct (String.eqb (keyOfTransaction t) k) eqn:E.
  - apply String.eqb_eq in E. subst k. now rewrite lookup_insert_eq.
  - apply String.eqb_neq in E. now rewrite lookup_insert_ne.
Qed.

(** After the [forEach], the map holds for each key its number of
    occurrences (on top of what the map held before). *)
Lemma locationMap_lookup txs m k :
  fold_left countLocation txs m !! k =
  match occurrences k txs with
  | O => m !! k
  | S n => Some (default 0 (m !! k) + S n)%nat
  end.
Proof.
  revert m. induction txs as [| t rest IH]; intros m; [reflexivity |].
  simpl. rewrite IH, countLocation_lookup. unfold occurrences. simpl.
  destruct (hasLocation t && String.eqb (keyOfTransaction t) k); simpl.
  - destruct (length _); simpl; f_equal; lia.
  - reflexivity.
Qed.

Lemma typical_includes (m : gmap string nat) (total : nat) (key : string) :
  existsb (String.eqb key)
    (map fst (List.filter (fun kv => Nat.leb total (10 * snd kv)) (map_to_list m)))
  = true <->
  exists n, m !! key = Some n /\ (total <= 10 * n)%nat.
Proof.
  rewrite existsb_exists. split.
  - intros (x & Hin & Heq). apply String.eqb_eq in Heq. subst x.
    apply in_map_iff in Hin. destruct Hin as ([k n] & Hk & Hin).
    simpl in Hk. subst k. apply filter_In in Hin. destruct Hin as [Hin Hle].
    apply list_elem_of_In, elem_of_map_to_list in Hin.
    exists n. split; [exact Hin |]. now apply Nat.leb_le in Hle.
  - intros (n & Hn & Hle). exists key. split; [| apply String.eqb_refl].
    apply in_map_iff. exists (key, n). split; [reflexivity |].
    apply filter_In. split.
    + now apply list_elem_of_In, elem_of_map_to_list.
    + now apply Nat.leb_le.
Qed.

Lemma baseline_count now db userId :
  transactionCount (calculateUserBaseline now db userId)
  = length (List.filter (inBaseline now userId) (transactions db)).
Proof.
  unfold calculateUserBaseline.
  now destruct (List.filter (inBaseline now userId) (transactions db)).
Qed.

Lemma baseline_typical now db userId key :
  let recent := List.filter (inBaseline now userId) (transactions db) in
  (1 <= length recent)%nat ->
  (existsb (String.eqb key)
     (typicalLocations (calculateUserBaseline now db userId)) = true <->
   (length recent <= 10 * occurrences key recent)%nat).
Proof.
  intros recent Hpos. unfold calculateUserBaseline. fold recent.
  destruct recent as [| t rest] eqn:E; [simpl in Hpos; lia |].
  rewrite <- E in *. simpl typicalLocations.
  rewrite typical_includes, locationMap_lookup. rewrite lookup_empty.
  destruct (occurrences key recent) as [| n].
  - split; [intros (n & [=] & _) | intros H; lia].
  - split.
    + intros (n' & [= <-] & Hle). simpl in Hle. lia.
    + intros Hle. eexists. split; [reflexivity |]. simpl. lia.
Qed.

Lemma inBaseline_iff now userId t :
  inBaseline now userId t = true <->
  tx_userId t = userId /\ now - 30 * msPerDay <= tx_date t /\
  tx_isPending t = false.
Proof.
  unfold inBaseline.
  rewrite !andb_true_iff, String.eqb_eq, Z.leb_le, negb_true_iff. tauto.
Qed.

Lemma isRecent_iff userId transaction t :
  isRecent userId transaction t = true <->
  tx_userId t = userId /\ tx_id t <> tx_id transaction /\
  tx_date transaction - 5 * msPerMinute <= tx_date t < tx_date transaction.
Proof.
  unfold isRecent.
  rewrite !andb_true_iff, String.eqb_eq, Z.leb_le, Z.ltb_lt, negb_true_iff,
    String.eqb_neq. tauto.
Qed.

End FraudChecks.

(** C4: [checkRapidTransactions] flags the transaction exactly when at
    least 4 other transactions of the same user are dated in the five
    minutes before it (from five minutes earlier, included, up to its own
    date, excluded), that is when 5 or more fall in the window counting
    the transaction itself; the severity of the flag is high when that
    count is at least 6 and medium otherwise. *)
Theorem checkRapidTransactions_spec :
  forall (db : Db) (userId : string) (transaction : Transaction),
    let others :=
      List.filter (FraudDetection.isRecent userId transaction) (transactions db) in
    let count := (length others + 1)%nat in
    let r := FraudDetection.checkRapidTransactions db userId transaction in
    (forall t,
       In t others <->
       In t (transactions db) /\ tx_userId t = userId /\
       tx_id t <> tx_id transaction /\
       tx_date transaction - 5 * 60 * 1000 <= tx_date t < tx_date transaction) /\
    (FraudDetection.isUnusual r = true <-> (4 <= length others)%nat) /\
    (FraudDetection.isUnusual r = true <-> (5 <= count)%nat) /\
    (FraudDetection.isUnusual r = true ->
     ((6 <= count)%nat -> FraudDetection.un_severity r = high) /\
     ((count < 6)%nat -> FraudDetection.un_severity r = medium)).
Proof.
  intros db userId transaction others count r.
  split.
  { intros t. unfold others. rewrite filter_In, isRecent_iff.
    unfold FraudDetection.msPerMinute. tauto. }
  subst r. unfold FraudDetection.checkRapidTransactions. fold others.
  destruct (Nat.leb 4 (length others)) eqn:E;
    cbn [FraudDetection.isUnusual FraudDetection.un_severity].
  - apply Nat.leb_le in E. repeat split; intros; try lia.
    + fold count. destruct (Nat.leb 6 count) eqn:E6; [reflexivity |].
      apply Nat.leb_gt in E6. lia.
    + fold count. destruct (Nat.leb 6 count) eqn:E6; [| reflexivity].
      apply Nat.leb_le in E6. lia.
  - apply Nat.leb_gt in E. unfold count.
    repeat split; intros; try discriminate; lia.
Qed.

(** C5 (as stated): a location alert needs at least 10 non-pending
    transactions of the user in the trailing 30 days.  It fails for a user
    whose ten transactions are all dated the day after the call: none of
    them lies in the trailing 30 days, yet the query of the baseline,
    which bounds the date from below only, counts them, and the purchase
    in Oslo is flagged. *)
Lemma unusual_location_counts_later_dates :
  ~ (forall (now : Z) (db : Db) (userId : string) (transaction : Transaction),
       FraudDetection.isUnusual
         (FraudDetection.checkUnusualLocation now db userId transaction) = true ->
       (10 <= length (List.filter (FraudSpec.inTrailing30Days now userId)
                                  (transactions db)))%nat).
Proof.
  intros H.
  specialize (H Samples.now FraudSpec.postDatedDb "u1" FraudSpec.osloVisit).
  assert (Hflag : FraudDetection.isUnusual
                    (FraudDetection.checkUnusualLocation Samples.now
                       FraudSpec.postDatedDb "u1" FraudSpec.osloVisit) = true)
    by (vm_compute; reflexivity).
  apply H in Hflag. vm_compute in Hflag. lia.
Qed.

(** C5 (amended): [checkUnusualLocation] flags the transaction, with
    severity medium, exactly when it carries both a city and a region, the
    user has at least 10 non-pending transactions dated no earlier than 30
    days before the call (later dates count too), and its "city,region"
    string is not a typical location, a typical location being one that
    occurs in at least 10% of those transactions; in every other case
    nothing is flagged. *)
Theorem checkUnusualLocation_spec :
  forall (now : Z) (db : Db) (userId : string) (transaction : Transaction),
    let recent :=
      List.filter (FraudDetection.inBaseline now userId) (transactions db) in
    let key := FraudDetection.keyOfTransaction transaction in
    let r := FraudDetection.checkUnusualLocation now db userId transaction in
    (forall t,
       In t recent <->
       In t (transactions db) /\ tx_userId t = userId /\
       now - 30 * (24 * 60 * 60 * 1000) <= tx_date t /\ tx_isPending t = false) /\
    (forall city region,
       tx_locationCity transaction = Some city ->
       tx_locationRegion transaction = Some region ->
       city <> "" -> region <> "" ->
       key = city +:+ "," +:+ region) /\
    (FraudDetection.isUnusual r = true <->
     Js.truthy (tx_locationCity transaction) = true /\
     Js.truthy (tx_locationRegion transaction) = true /\
     (10 <= length recent)%nat /\
     ~ (length recent <= 10 * FraudDetection.occurrences key recent)%nat) /\
    (FraudDetection.isUnusual r = true -> FraudDetection.un_severity r = medium).
Proof.
  intros now db userId transaction recent key r.
  split.
  { intros t. unfold recent. rewrite filter_In, inBaseline_iff.
    unfold FraudDetection.msPerDay. tauto. }
  split.
  { intros city region Hc Hr Hcne Hrne. unfold key, FraudDetection.keyOfTransaction.
    rewrite Hc, Hr. simpl.
    apply String.eqb_neq in Hcne. apply String.eqb_neq in Hrne.
    now rewrite Hcne, Hrne. }
  subst r. unfold FraudDetection.checkUnusualLocation, FraudDetection.hasLocation.
  destruct (Js.truthy (tx_locationCity transaction)) eqn:Ec; simpl;
    [| split; [split; [discriminate | intros (? & _); discriminate] | discriminate]].
  destruct (Js.truthy (tx_locationRegion transaction)) eqn:Er; simpl;
    [| split; [split; [discriminate | intros (_ & ? & _); discriminate] | discriminate]].
  rewrite baseline_count. fold recent.
  destruct (Nat.ltb (length recent) 10) eqn:En; simpl.
  { apply Nat.ltb_lt in En.
    split; [split; [discriminate | intros (_ & _ & ? & _); lia] | discriminate]. }
  apply Nat.ltb_ge in En. fold key.
  pose proof (baseline_typical now db userId key) as Ht. simpl in Ht.
  fold recent in Ht. specialize (Ht ltac:(lia)).
  destruct (existsb (String.eqb key) _) eqn:Ee; simpl.
  - split; [| discriminate]. split; [discriminate |].
    intros (_ & _ & _ & Hn). exfalso. apply Hn. now apply Ht.
  - split; [| reflexivity]. split; [| reflexivity].
    intros _. repeat split; auto. intros Hle. apply Ht in Hle. discriminate.
Qed.

(** *** Blank strings *)

Section Blank.

Import Js.

Lemma trimStart_empty s : trimStart s = "" <-> allWhiteSpace s = true.
Proof.
  induction s as [| c r IH]; simpl; [tauto |].
  destruct (isWhiteSpace c); simpl; [exact IH |].
  split; discriminate.
Qed.

Lemma allWhiteSpace_trimStart s : allWhiteSpace (trimStart s) = allWhiteSpace s.
Proof.
  induction s as [| c r IH]; simpl; [reflexivity |].
  destruct (isWhiteSpace c) eqn:E; simpl; [exact IH | now rewrite E].
Qed.

Lemma allWhiteSpace_reverse s acc :
  allWhiteSpace (reverse s acc) = allWhiteSpace s && allWhiteSpace acc.
Proof.
  revert acc. induction s as [| c r IH]; intros acc; simpl; [reflexivity |].
  rewrite IH. simpl. now destruct (isWhiteSpace c), (allWhiteSpace r).
Qed.

Lemma reverse_empty s acc : reverse s acc = "" <-> s = "" /\ acc = "".
Proof.
  revert acc. induction s as [| c r IH]; intros acc; simpl.
  - tauto.
  - rewrite IH. split; [intros [_ [=]] | intros [[=] _]].
Qed.

Lemma isBlank_allWhiteSpace s : isBlank s = allWhiteSpace s.
Proof.
  unfold isBlank, trim, trimEnd.
  destruct (allWhiteSpace s) eqn:E.
  - apply String.eqb_eq, reverse_empty. split; [| reflexivity].
    apply trimStart_empty. rewrite allWhiteSpace_reverse, allWhiteSpace_trimStart.
    now rewrite E.
  - apply String.eqb_neq. intros H. apply reverse_empty in H.
    destruct H as [H _]. apply trimStart_empty in H.
    rewrite allWhiteSpace_reverse, allWhiteSpace_trimStart, E in H. discriminate.
Qed.

Lemma allWhiteSpace_app a b :
  allWhiteSpace (a +:+ b) = allWhiteSpace a && allWhiteSpace b.
Proof.
  induction a as [| c r IH]; simpl; [reflexivity |].
  rewrite IH. now destruct (isWhiteSpace c).
Qed.

End Blank.

(** *** Fraud alerts: creation and deduplication *)

Section FraudAlerts.

Import FraudDetection.

Local Open Scope list_scope.

Variable env : Env.

Lemma alertTypeEqb_eq a b : alertTypeEqb a b = true <-> a = b.
Proof. destruct a, b; simpl; split; congruence. Qed.

Lemma sameAlert_key input a :
  sameAlert (fa_transactionId input) (fa_alertType input) a = true <->
  alertKey a = inputKey input.
Proof.
  unfold sameAlert, alertKey, inputKey.
  rewrite andb_true_iff, String.eqb_eq, alertTypeEqb_eq.
  split; [intros [-> ->]; reflexivity | intros [= -> ->]; now split].
Qed.

Lemma find_app_some {A} (p : A -> bool) (l ext : list A) (x : A) :
  find p l = Some x -> find p (l ++ ext) = Some x.
Proof.
  induction l as [| y ys IH]; simpl; [discriminate |].
  destruct (p y); [trivial | exact IH].
Qed.

(** What one block does, case by case. *)
Lemma raise_skip x s : fst x = false -> raise env x s = (Ok tt, s).
Proof. intros H. unfold raise. now rewrite H. Qed.

Lemma raise_invalid x s :
  fst x = true -> validateCreateInput (snd x) <> [] ->
  exists message, raise env x s = (Throw message, s).
Proof.
  intros Hc Hv. unfold raise, when, bind, createFraudAlert. rewrite Hc.
  destruct (validateCreateInput (snd x)); [contradiction | eexists; reflexivity].
Qed.

Lemma raise_existing x s existing :
  fst x = true -> validateCreateInput (snd x) = [] ->
  find (sameAlert (fa_transactionId (snd x)) (fa_alertType (snd x))) (table s)
    = Some existing ->
  raise env x s = (Ok tt, mkRun (alerts s ++ [existing]) (table s)).
Proof.
  intros Hc Hv Hf. unfold raise, when, bind, createFraudAlert.
  now rewrite Hc, Hv, Hf.
Qed.

Lemma raise_new x s :
  fst x = true -> validateCreateInput (snd x) = [] ->
  find (sameAlert (fa_transactionId (snd x)) (fa_alertType (snd x))) (table s)
    = None ->
  raise env x s =
  (Ok tt, mkRun (alerts s ++ [newAlert env (table s) (snd x)])
                (table s ++ [newAlert env (table s) (snd x)])).
Proof.
  intros Hc Hv Hf. unfold raise, when, bind, createFraudAlert.
  now rewrite Hc, Hv, Hf.
Qed.

Lemma raisedAlert_key x tbl : alertKey (raisedAlert env x tbl) = inputKey (snd x).
Proof.
  unfold raisedAlert.
  destruct (find _ tbl) as [e |] eqn:E; [| reflexivity].
  apply find_some in E. destruct E as [_ E]. now apply sameAlert_key.
Qed.

Lemma raise_cases x s :
  (fst x = false /\ raise env x s = (Ok tt, s))
  \/ (fst x = true /\ validateCreateInput (snd x) <> [] /\
      exists message, raise env x s = (Throw message, s))
  \/ (fst x = true /\ validateCreateInput (snd x) = [] /\
      exists ext,
        raise env x s =
          (Ok tt, mkRun (alerts s ++ [raisedAlert env x (table s)]) (table s ++ ext)) /\
        (ext = [] \/ ext = [raisedAlert env x (table s)]) /\
        (ext = [] <->
         exists e, find (sameAlert (fa_transactionId (snd x))
                                   (fa_alertType (snd x))) (table s) = Some e)).
Proof.
  destruct (fst x) eqn:Hc; [| left; split; [reflexivity | now apply raise_skip]].
  right. destruct (validateCreateInput (snd x)) as [| e es] eqn:Hv.
  - right. repeat split; auto. unfold raisedAlert.
    destruct (find _ (table s)) as [ex |] eqn:Hf.
    + exists []. rewrite app_nil_r. split; [now apply raise_existing |].
      split; [now left |]. split; [eauto | reflexivity].
    + eexists. split; [now apply raise_new |].
      split; [now right |]. split; [discriminate | intros [? [=]]].
  - left. repeat split; [discriminate |].
    apply raise_invalid; [exact Hc | rewrite Hv; discriminate].
Qed.

Lemma raise_unique x s :
  uniqueAlerts (table s) -> uniqueAlerts (table (snd (raise env x s))).
Proof.
  intros Hu.
  destruct (raise_cases x s) as [[_ ->] | [(_ & _ & m & ->) | (Hc & Hv & ext & -> & Hext & Hiff)]];
    simpl; auto.
  destruct Hext as [-> | ->]; [now rewrite app_nil_r |].
  unfold uniqueAlerts in *. rewrite map_app. simpl.
  apply NoDup_app. repeat split; auto.
  - intros k Hk Hk'. apply list_elem_of_In in Hk, Hk'.
    destruct Hk' as [<- | []].
    apply in_map_iff in Hk. destruct Hk as (a & Ha & Hin).
    rewrite raisedAlert_key in Ha. apply sameAlert_key in Ha.
    destruct (find (sameAlert (fa_transactionId (snd x)) (fa_alertType (snd x)))
                   (table s)) as [e |] eqn:Hf.
    + assert (Hnil : [raisedAlert env x (table s)] = []) by (apply Hiff; eauto).
      discriminate.
    + pose proof (find_none _ _ Hf a Hin). congruence.
  - apply NoDup_singleton.
Qed.

Lemma raiseAll_unique xs s :
  uniqueAlerts (table s) -> uniqueAlerts (table (snd (raiseAll env xs s))).
Proof.
  revert s. induction xs as [| x rest IH]; intros s Hu; simpl; [exact Hu |].
  unfold bind. pose proof (raise_unique x s Hu) as Hx.
  destruct (raise env x s) as [[u | m] s']; simpl in *; auto.
Qed.

Lemma three_blocks (m1 m2 m3 : M unit) (s0 : Run) :
  (let (_, s) := (m1 ;;; m2 ;;; m3) s0 in (alerts s, table s)) =
  (let s := snd ((m1 ;;; m2 ;;; m3 ;;; ret tt) s0) in (alerts s, table s)).
Proof.
  unfold bind, ret.
  destruct (m1 s0) as [[u1 | e1] s1]; [| reflexivity].
  destruct (m2 s1) as [[u2 | e2] s2]; [| reflexivity].
  destruct (m3 s2) as [[u3 | e3] s3]; reflexivity.
Qed.

Lemma analyzeTransaction_raiseAll now db transaction :
  analyzeTransaction env now db transaction =
  let s := snd (raiseAll env (findings now db transaction)
                  (mkRun [] (fraudAlerts db))) in
  (alerts s, table s).
Proof. apply three_blocks. Qed.

Lemma raise_covers x s u s' :
  raise env x s = (Ok u, s') -> covered x (table s').
Proof.
  intros Hr Hc Hv.
  destruct (raise_cases x s) as [[Hf _] | [(_ & Hnv & _) | (_ & _ & ext & He & Hext & Hiff)]];
    [congruence | contradiction |].
  rewrite He in Hr. injection Hr as _ <-. simpl.
  destruct Hext as [-> | ->].
  - rewrite app_nil_r. now apply Hiff.
  - exists (raisedAlert env x (table s)).
    destruct (find (sameAlert (fa_transactionId (snd x)) (fa_alertType (snd x)))
                   (table s)) as [e |] eqn:Hf.
    + assert (Hnil : [raisedAlert env x (table s)] = []) by (apply Hiff; eauto).
      discriminate.
    + apply find_snoc_fresh; [exact Hf |].
      apply sameAlert_key, raisedAlert_key.
Qed.

Lemma covered_mono x tbl ext : covered x tbl -> covered x (tbl ++ ext).
Proof.
  intros H Hc Hv. destruct (H Hc Hv) as [e He].
  exists e. now apply find_app_some.
Qed.

Lemma raise_throws_again x s message s' :
  raise env x s = (Throw message, s') ->
  s' = s /\ forall s2, exists message', raise env x s2 = (Throw message', s2).
Proof.
  intros Hr.
  destruct (raise_cases x s) as [[_ He] | [(Hc & Hnv & m & He) | (_ & _ & ext & He & _)]];
    rewrite He in Hr; try discriminate.
  injection Hr as _ <-. split; [reflexivity |].
  intros s2. now apply raise_invalid.
Qed.

Lemma raise_on_covered x s u s' s2 :
  raise env x s = (Ok u, s') -> covered x (table s2) ->
  exists s2', raise env x s2 = (Ok tt, s2') /\ table s2' = table s2.
Proof.
  intros Hr Hcov.
  destruct (raise_cases x s) as [[Hc _] | [(_ & _ & m & He) | (Hc & Hv & _)]].
  - exists s2. split; [now apply raise_skip | reflexivity].
  - rewrite He in Hr. discriminate.
  - destruct (Hcov Hc Hv) as [e He].
    eexists. split; [now apply (raise_existing x s2 e) | reflexivity].
Qed.

Lemma raise_extends x s :
  exists ext, table (snd (raise env x s)) = table s ++ ext.
Proof.
  destruct (raise_cases x s) as [[_ ->] | [(_ & _ & m & ->) | (_ & _ & ext & -> & _)]];
    simpl; [exists [] | exists [] | exists ext]; now rewrite ?app_nil_r.
Qed.

Lemma raiseAll_extends xs s :
  exists ext, table (snd (raiseAll env xs s)) = table s ++ ext.
Proof.
  revert s. induction xs as [| x rest IH]; intros s; simpl.
  - exists []. now rewrite app_nil_r.
  - unfold bind. destruct (raise_extends x s) as [e1 H1].
    destruct (raise env x s) as [[u | m] s1]; simpl in *; [| now exists e1].
    destruct (IH s1) as [e2 H2]. exists (e1 ++ e2).
    now rewrite H2, H1, app_assoc.
Qed.

Lemma raiseAll_cons x rest s :
  raiseAll env (x :: rest) s =
  match raise env x s with
  | (Ok _, s') => raiseAll env rest s'
  | (Throw e, s') => (Throw e, s')
  end.
Proof. reflexivity. Qed.

(** Running the same blocks again on the table they produced (or on a
    longer one) writes nothing. *)
Lemma raiseAll_again xs s ext a :
  table (snd (raiseAll env xs
                (mkRun a (table (snd (raiseAll env xs s)) ++ ext))))
  = table (snd (raiseAll env xs s)) ++ ext.
Proof.
  revert s ext a. induction xs as [| x rest IH]; intros s ext a;
    [reflexivity |].
  rewrite (raiseAll_cons x rest s).
  destruct (raise env x s) as [[u | m] s1] eqn:E1.
  - destruct (raiseAll_extends rest s1) as [e2 H2].
    assert (Hcov : covered x (table (snd (raiseAll env rest s1)) ++ ext)).
    { rewrite H2, <- app_assoc. apply covered_mono. now apply (raise_covers x s u). }
    destruct (raise_on_covered x s u s1
                (mkRun a (table (snd (raiseAll env rest s1)) ++ ext)) E1 Hcov)
      as (s2' & Hr2 & Ht2).
    cbn [raiseAll]. unfold bind at 1. rewrite Hr2. simpl in Ht2.
    destruct s2' as [a2 t2]. simpl in Ht2. subst t2. apply IH.
  - apply raise_throws_again in E1. destruct E1 as [-> Hagain].
    simpl snd. destruct (Hagain (mkRun a (table s ++ ext))) as [m' Hm'].
    cbn [raiseAll]. unfold bind at 1. now rewrite Hm'.
Qed.

Lemma findings_reads_transactions now db tbl transaction :
  findings now (setFraudAlerts tbl db) transaction = findings now db transaction.
Proof. reflexivity. Qed.

Lemma analyzeTransaction_again now db transaction :
  snd (analyzeTransaction env now
         (setFraudAlerts (snd (analyzeTransaction env now db transaction)) db)
         transaction)
  = snd (analyzeTransaction env now db transaction).
Proof.
  rewrite !analyzeTransaction_raiseAll. cbv zeta. cbn [snd].
  rewrite findings_reads_transactions.
  pose proof (raiseAll_again (findings now db transaction)
                (mkRun [] (fraudAlerts db)) [] []) as H.
  rewrite !app_nil_r in H. exact H.
Qed.

Lemma analyzeTransaction_unique now db transaction :
  uniqueAlerts (fraudAlerts db) ->
  uniqueAlerts (snd (analyzeTransaction env now db transaction)).
Proof.
  intros Hu. rewrite analyzeTransaction_raiseAll. cbv zeta. cbn [snd].
  now apply raiseAll_unique.
Qed.

Lemma afterCalls_unique calls db :
  uniqueAlerts (fraudAlerts db) ->
  uniqueAlerts (fraudAlerts (afterCalls env db calls)).
Proof.
  revert db. induction calls as [| c rest IH]; intros db Hu; simpl; [exact Hu |].
  apply IH. unfold afterCall. simpl. now apply analyzeTransaction_unique.
Qed.

Lemma firstSketchy_first merchantName description amount ps :
  isSketchy (firstSketchy merchantName description amount ps) = true ->
  exists before t after,
    ps = before ++ (t, sk_reason (firstSketchy merchantName description amount ps),
                    sk_severity (firstSketchy merchantName description amount ps))
                   :: after /\
    runSketchyTest merchantName description amount t = true /\
    Forall (fun e => runSketchyTest merchantName description amount (fst (fst e))
                     = false) before.
Proof.
  induction ps as [| [[t reason] severity] rest IH]; simpl; [discriminate |].
  destruct (runSketchyTest merchantName description amount t) eqn:E; simpl.
  - intros _. exists [], t, rest. repeat split; auto.
  - intros H. destruct (IH H) as (before & t' & after & Hps & Ht & Hb).
    exists ((t, reason, severity) :: before), t', after.
    repeat split; auto. simpl. now rewrite <- Hps.
Qed.

Lemma firstSketchy_none merchantName description amount ps :
  isSketchy (firstSketchy merchantName description amount ps) = false ->
  Forall (fun e => runSketchyTest merchantName description amount (fst (fst e))
                   = false) ps.
Proof.
  induction ps as [| [[t reason] severity] rest IH]; simpl; [constructor |].
  destruct (runSketchyTest merchantName description amount t) eqn:E; simpl;
    [discriminate |].
  intros H. constructor; [exact E | now apply IH].
Qed.

Lemma sketchyPatterns_reasons amount :
  Forall (fun e => Js.isBlank (snd (fst e)) = false) (sketchyPatterns amount).
Proof.
  unfold sketchyPatterns.
  repeat (constructor; [first [reflexivity
                             | rewrite isBlank_allWhiteSpace; reflexivity] |]).
  constructor.
Qed.

Lemma sketchy_reason_given transaction :
  isSketchy (checkSketchyMerchant transaction) = true ->
  Js.isBlank (sk_reason (checkSketchyMerchant transaction)) = false.
Proof.
  unfold checkSketchyMerchant. intros H.
  apply firstSketchy_first in H. destruct H as (before & t & after & Hps & _).
  pose proof (sketchyPatterns_reasons (Qabs (tx_amount transaction))) as HF.
  rewrite Hps in HF. apply Forall_app in HF. destruct HF as [_ HF].
  inversion HF; subst. assumption.
Qed.

Lemma location_reason_given now db userId transaction :
  isUnusual (checkUnusualLocation now db userId transaction) = true ->
  Js.isBlank (un_reason (checkUnusualLocation now db userId transaction)) = false.
Proof.
  unfold checkUnusualLocation.
  destruct (negb (hasLocation transaction)); [discriminate |].
  destruct (Nat.ltb _ 10); [discriminate |].
  destruct (negb (existsb _ _)); [| discriminate].
  intros _. rewrite isBlank_allWhiteSpace. reflexivity.
Qed.

Lemma rapid_reason_given db userId transaction :
  isUnusual (checkRapidTransactions db userId transaction) = true ->
  Js.isBlank (un_reason (checkRapidTransactions db userId transaction)) = false.
Proof.
  unfold checkRapidTransactions.
  destruct (Nat.leb 4 _); [| discriminate].
  intros _. cbn [un_reason].
  rewrite isBlank_allWhiteSpace, allWhiteSpace_app.
  apply andb_false_iff. right. reflexivity.
Qed.

Lemma findings_valid now db transaction :
  Js.isBlank (tx_userId transaction) = false ->
  Js.isBlank (tx_id transaction) = false ->
  forall x, In x (findings now db transaction) ->
    fst x = true -> validateCreateInput (snd x) = [].
Proof.
  intros Hu Hi x Hx Hc. unfold findings in Hx.
  destruct Hx as [<- | [<- | [<- | []]]]; unfold validateCreateInput;
    cbn [snd fst fa_userId fa_transactionId fa_reason] in *; rewrite Hu, Hi.
  - now rewrite sketchy_reason_given.
  - now rewrite location_reason_given.
  - now rewrite rapid_reason_given.
Qed.

Lemma raiseAll_valid xs s :
  (forall x, In x xs -> fst x = true -> validateCreateInput (snd x) = []) ->
  exists more,
    alerts (snd (raiseAll env xs s)) = alerts s ++ more /\
    map alertKey more = map (fun x => inputKey (snd x)) (List.filter fst xs).
Proof.
  revert s. induction xs as [| x rest IH]; intros s Hv.
  - exists []. split; [now rewrite app_nil_r | reflexivity].
  - assert (Hrest : forall y, In y rest -> fst y = true ->
                              validateCreateInput (snd y) = [])
      by (intros y Hy; apply Hv; now right).
    rewrite raiseAll_cons.
    destruct (raise_cases x s)
      as [[Hc ->] | [(Hc & Hnv & _) | (Hc & _ & ext & -> & _)]].
    + destruct (IH s Hrest) as (more & Ha & Hk).
      exists more. split; [exact Ha |]. simpl. now rewrite Hc.
    + exfalso. apply Hnv, Hv; [now left | exact Hc].
    + destruct (IH (mkRun (alerts s ++ [raisedAlert env x (table s)])
                          (table s ++ ext)) Hrest) as (more & Ha & Hk).
      exists (raisedAlert env x (table s) :: more). split.
      * rewrite Ha. simpl. now rewrite <- app_assoc.
      * simpl. rewrite Hc. simpl. now rewrite raisedAlert_key, Hk.
Qed.

(** The alerts [analyzeTransaction] returns: the one of the first block
    when the sketchy-merchant check fires, followed by alerts of the other
    two types only. *)
Lemma analyzeTransaction_returned now db transaction :
  Js.isBlank (tx_userId transaction) = false ->
  Js.isBlank (tx_id transaction) = false ->
  let check := checkSketchyMerchant transaction in
  let x1 := (isSketchy check,
             mkAlertInput (tx_userId transaction) (tx_id transaction)
               unusual_amount (sk_severity check) (sk_reason check)) in
  exists more,
    fst (analyzeTransaction env now db transaction)
    = (if isSketchy check then [raisedAlert env x1 (fraudAlerts db)] else [])
      ++ more /\
    forall a, In a more -> alert_alertType a <> unusual_amount.
Proof.
  intros Hu Hi check x1.
  pose proof (findings_valid now db transaction Hu Hi) as Hv.
  rewrite analyzeTransaction_raiseAll. cbv zeta. cbn [fst].
  unfold findings in *. fold check in Hv |- *. fold x1 in Hv |- *.
  match goal with
  | |- context [raiseAll env (x1 :: ?r)] => set (rest := r) in *
  end.
  assert (Hrest : forall y, In y rest -> fst y = true ->
                            validateCreateInput (snd y) = [])
    by (intros y Hy; apply Hv; now right).
  assert (Hmore : forall more,
            map alertKey more = map (fun x => inputKey (snd x)) (List.filter fst rest) ->
            forall a, In a more -> alert_alertType a <> unusual_amount).
  { intros more Hk a Ha Hty.
    assert (Hin : In (alertKey a) (map alertKey more)) by now apply in_map.
    rewrite Hk in Hin. apply in_map_iff in Hin.
    destruct Hin as (y & Hy & Hyin). apply filter_In in Hyin.
    destruct Hyin as [Hyin _]. unfold alertKey in Hy. rewrite Hty in Hy.
    subst rest. destruct Hyin as [<- | [<- | []]]; discriminate Hy. }
  rewrite raiseAll_cons.
  destruct (raise_cases x1 (mkRun [] (fraudAlerts db)))
    as [[Hc ->] | [(Hc & Hnv & _) | (Hc & _ & ext & -> & _)]].
  - destruct (raiseAll_valid rest (mkRun [] (fraudAlerts db)) Hrest)
      as (more & Ha & Hk).
    exists more. simpl in Hc. rewrite Hc. split; [exact Ha |].
    now apply Hmore.
  - exfalso. apply Hnv, Hv; [now left | exact Hc].
  - destruct (raiseAll_valid rest
                (mkRun ([] ++ [raisedAlert env x1 (fraudAlerts db)])
                       (fraudAlerts db ++ ext)) Hrest) as (more & Ha & Hk).
    exists more. simpl in Hc. rewrite Hc. split; [exact Ha |].
    now apply Hmore.
Qed.

End FraudAlerts.

(** C6: starting from a table with at most one alert per (transactionId,
    alertType), every sequence of [analyzeTransaction] calls leaves at
    most one alert per pair; [createFraudAlert] on a pair that already has
    an alert returns that alert and writes nothing; and analyzing the same
    transaction once more leaves the table exactly as the first analysis
    left it. *)
Theorem fraud_alerts_deduplicated :
  forall (env : Env) (db : Db) (calls : list FraudDetection.Call),
    FraudDetection.uniqueAlerts (fraudAlerts db) ->
    FraudDetection.uniqueAlerts
      (fraudAlerts (FraudDetection.afterCalls env db calls)) /\
    (forall input s existing,
       FraudDetection.validateCreateInput input = [] ->
       find (FraudDetection.sameAlert (FraudDetection.fa_transactionId input)
                                      (FraudDetection.fa_alertType input))
            (FraudDetection.table s) = Some existing ->
       FraudDetection.createFraudAlert env input s = (Ok existing, s)) /\
    (forall c,
       FraudDetection.afterCall env (FraudDetection.afterCall env db c) c
       = FraudDetection.afterCall env db c).
Proof.
  intros env db calls Hu. split; [now apply afterCalls_unique |]. split.
  - intros input s existing Hv Hf. unfold FraudDetection.createFraudAlert.
    now rewrite Hv, Hf.
  - intros c. unfold FraudDetection.afterCall. simpl.
    unfold setFraudAlerts, setTransactions. simpl. f_equal.
    apply (analyzeTransaction_again env (FraudDetection.call_now c)
             (setTransactions (FraudDetection.call_transactions c) db)).
Qed.

Lemma fraud_alerts_deduplicated_witness :
  FraudDetection.uniqueAlerts
    (fraudAlerts (FraudDetection.afterCalls Samples.env Samples.quietDb
                    [Samples.casinoCall; Samples.casinoCall])).
Proof.
  apply (fraud_alerts_deduplicated Samples.env Samples.quietDb
           [Samples.casinoCall; Samples.casinoCall]).
  unfold FraudDetection.uniqueAlerts. simpl. constructor.
Defined.


(** C3 (as stated): an amount far above the user's 30-day baseline gets
    an unusual_amount alert.  It fails for a purchase of 4321 by a user
    whose other purchases of the last 30 days are all of 10: no alert is
    produced. *)
Lemma unusual_amount_ignores_baseline :
  ~ (forall (env : Env) (now : Z) (db : Db) (transaction : Transaction),
       FraudDetection.exceedsBaseline (3 # 1) now db transaction = true ->
       exists a,
         In a (fst (FraudDetection.analyzeTransaction env now db transaction)) /\
         alert_alertType a = unusual_amount).
Proof.
  intros H.
  assert (Hex : FraudDetection.exceedsBaseline (3 # 1) Samples.now Samples.quietDb
                  Samples.bigPurchase = true) by (vm_compute; reflexivity).
  destruct (H Samples.env Samples.now Samples.quietDb Samples.bigPurchase Hex)
    as (a & Ha & _).
  vm_compute in Ha. exact Ha.
Qed.

(** C3 (amended): for a transaction with a user and an identifier,
    [analyzeTransaction] returns an unusual_amount alert exactly when
    [checkSketchyMerchant] fires, that is when the lower-cased merchant
    name or description matches one of the built-in patterns or the
    absolute amount is exactly 1000, 2000, 5000 or 10000; a newly created
    alert carries the reason and severity of the first entry whose test
    passes; the decision reads neither the clock nor any stored
    transaction. *)
Theorem unusual_amount_from_sketchy_merchant :
  forall (env : Env) (now : Z) (db : Db) (transaction : Transaction),
    Js.isBlank (tx_userId transaction) = false ->
    Js.isBlank (tx_id transaction) = false ->
    let returned := fst (FraudDetection.analyzeTransaction env now db transaction) in
    let check := FraudDetection.checkSketchyMerchant transaction in
    let merchantName := Js.toLowerCase (Js.orElse (tx_merchantName transaction) "") in
    let description := Js.toLowerCase (tx_description transaction) in
    let amount := Qabs (tx_amount transaction) in
    let passes t :=
      FraudDetection.runSketchyTest merchantName description amount t = true in
    ((exists a, In a returned /\ alert_alertType a = unusual_amount) <->
     FraudDetection.isSketchy check = true) /\
    (FraudDetection.isSketchy check = true <->
     exists t reason severity,
       In (t, reason, severity) (FraudDetection.sketchyPatterns amount) /\
       passes t) /\
    (FraudDetection.isSketchy check = true ->
     exists before t after,
       FraudDetection.sketchyPatterns amount
       = (before ++ (t, FraudDetection.sk_reason check,
                     FraudDetection.sk_severity check) :: after)%list /\
       passes t /\
       forall e, In e before -> ~ passes (fst (fst e))) /\
    (forall a,
       In a returned -> alert_alertType a = unusual_amount ->
       alert_transactionId a = tx_id transaction /\
       (find (FraudDetection.sameAlert (tx_id transaction) unusual_amount)
             (fraudAlerts db) = None ->
        alert_severity a = FraudDetection.sk_severity check /\
        alert_reason a = FraudDetection.sk_reason check)) /\
    (forall now' db',
       (exists a,
          In a (fst (FraudDetection.analyzeTransaction env now' db' transaction)) /\
          alert_alertType a = unusual_amount) <->
       (exists a, In a returned /\ alert_alertType a = unusual_amount)).
Proof.
  intros env now db transaction Hu Hi returned check merchantName description
    amount passes.
  assert (Hiff : forall now0 db0,
    (exists a,
       In a (fst (FraudDetection.analyzeTransaction env now0 db0 transaction)) /\
       alert_alertType a = unusual_amount) <->
    FraudDetection.isSketchy check = true).
  { intros now0 db0.
    destruct (analyzeTransaction_returned env now0 db0 transaction Hu Hi)
      as (more & -> & Hmore). fold check.
    destruct (FraudDetection.isSketchy check) eqn:Ec.
    - split; [reflexivity |]. intros _. eexists. split; [now left |].
      pose proof (raisedAlert_key env
        (true, FraudDetection.mkAlertInput (tx_userId transaction)
                 (tx_id transaction) unusual_amount
                 (FraudDetection.sk_severity check)
                 (FraudDetection.sk_reason check)) (fraudAlerts db0)) as Hk.
      unfold FraudDetection.alertKey, FraudDetection.inputKey in Hk.
      simpl in Hk. now injection Hk.
    - split; [| discriminate]. intros (a & Ha & Hty). simpl in Ha.
      exfalso. now apply (Hmore a). }
  split; [apply Hiff |]. split; [| split; [| split]].
  - subst check. unfold FraudDetection.checkSketchyMerchant.
    fold merchantName description amount. split.
    + intros H. apply firstSketchy_first in H.
      destruct H as (before & t & after & Hps & Ht & _).
      exists t. do 2 eexists. split; [| exact Ht].
      rewrite Hps. apply in_or_app. right. now left.
    + intros (t & reason & severity & Hin & Ht).
      destruct (FraudDetection.isSketchy _) eqn:E; [reflexivity |].
      apply firstSketchy_none in E. rewrite List.Forall_forall in E.
      specialize (E _ Hin). cbn [fst] in E.
      unfold passes, merchantName, description, amount in Ht.
      rewrite E in Ht. discriminate Ht.
  - subst check. unfold FraudDetection.checkSketchyMerchant.
    fold merchantName description amount. intros H.
    apply firstSketchy_first in H.
    destruct H as (before & t & after & Hps & Ht & Hb).
    exists before, t, after. repeat split; auto.
    intros e He Hp. rewrite List.Forall_forall in Hb.
    specialize (Hb e He). cbn beta in Hb. unfold passes in Hp.
    rewrite Hb in Hp. discriminate Hp.
  - intros a Ha Hty. subst returned.
    destruct (analyzeTransaction_returned env now db transaction Hu Hi)
      as (more & Hret & Hmore). fold check in Hret. rewrite Hret in Ha.
    apply in_app_or in Ha. destruct Ha as [Ha | Ha];
      [| exfalso; now apply (Hmore a)].
    destruct (FraudDetection.isSketchy check); [| destruct Ha].
    destruct Ha as [<- | []].
    pose proof (raisedAlert_key env
      (true, FraudDetection.mkAlertInput (tx_userId transaction)
               (tx_id transaction) unusual_amount
               (FraudDetection.sk_severity check)
               (FraudDetection.sk_reason check)) (fraudAlerts db)) as Hk.
    unfold FraudDetection.alertKey, FraudDetection.inputKey in Hk.
    simpl in Hk. injection Hk as Hk1 Hk2. split; [exact Hk1 |].
    intros Hnone. unfold FraudDetection.raisedAlert. simpl.
    now rewrite Hnone.
  - intros now' db'. etransitivity; [apply Hiff | symmetry; apply Hiff].
Qed.

Lemma unusual_amount_from_sketchy_merchant_witness :
  (exists a,
     In a (fst (FraudDetection.analyzeTransaction Samples.env Samples.now
                  Samples.quietDb Samples.casinoVisit)) /\
     alert_alertType a = unusual_amount) <->
  FraudDetection.isSketchy (FraudDetection.checkSketchyMerchant Samples.casinoVisit)
  = true.
Proof.
  apply (unusual_amount_from_sketchy_merchant Samples.env Samples.now
           Samples.quietDb Samples.casinoVisit); reflexivity.
Defined.

(** *** The retry queue of the scheduler *)

Section Retries.

Import SyncScheduler.

Lemma handleSyncFailure_first now accountId (q : gmap string RetryInfo) :
  q !! accountId = None ->
  handleSyncFailure now accountId q =
  (<[accountId := mkRetryInfo 1 (now + BASE_RETRY_DELAY_MS * 2 ^ (1 - 1))]> q,
   [Timeout (BASE_RETRY_DELAY_MS * 2 ^ (1 - 1)) (RetrySync accountId)]).
Proof. intros H. unfold handleSyncFailure. now rewrite H. Qed.

Lemma handleSyncFailure_next now accountId (q : gmap string RetryInfo) info :
  q !! accountId = Some info ->
  handleSyncFailure now accountId q =
  if retryCount info + 1 <=? MAX_RETRIES
  then (<[accountId := mkRetryInfo (retryCount info + 1)
                         (now + BASE_RETRY_DELAY_MS * 2 ^ (retryCount info + 1 - 1))]> q,
        [Timeout (BASE_RETRY_DELAY_MS * 2 ^ (retryCount info + 1 - 1))
                 (RetrySync accountId)])
  else (delete accountId q, []).
Proof. intros H. unfold handleSyncFailure. now rewrite H. Qed.

End Retries.

(** C7: [start] registers the daily sync at a fixed interval of 24 hours.
    For an account with no entry in the retry queue, the first, second
    and third consecutive failures record the count in the queue and
    schedule a retry after 1 hour times 2^(n-1), that is 1, 2 and 4 hours;
    the fourth gives up: it schedules nothing and removes the entry.  A
    successful sync removes the entry as well. *)
Theorem sync_retry_backoff :
  forall (q : gmap string SyncScheduler.RetryInfo) (accountId : string)
         (t1 t2 t3 t4 : Z),
    q !! accountId = None ->
    let hour := 60 * 60 * 1000 in
    let entry n t := SyncScheduler.mkRetryInfo n (t + hour * 2 ^ (n - 1)) in
    let retry n :=
      [SyncScheduler.Timeout (hour * 2 ^ (n - 1))
         (SyncScheduler.RetrySync accountId)] in
    let r1 := SyncScheduler.handleSyncFailure t1 accountId q in
    let r2 := SyncScheduler.handleSyncFailure t2 accountId (fst r1) in
    let r3 := SyncScheduler.handleSyncFailure t3 accountId (fst r2) in
    let r4 := SyncScheduler.handleSyncFailure t4 accountId (fst r3) in
    (forall s,
       SyncScheduler.syncInterval s = None ->
       SyncScheduler.start s =
       (SyncScheduler.mkScheduler (Some (24 * hour)) (SyncScheduler.retryQueue s),
        [SyncScheduler.Timeout (60 * 1000) SyncScheduler.RunDailySync;
         SyncScheduler.Interval (24 * hour) SyncScheduler.RunDailySync])) /\
    r1 = (<[accountId := entry 1 t1]> q, retry 1) /\
    r2 = (<[accountId := entry 2 t2]> q, retry 2) /\
    r3 = (<[accountId := entry 3 t3]> q, retry 3) /\
    (hour * 2 ^ (1 - 1) = 1 * hour /\ hour * 2 ^ (2 - 1) = 2 * hour /\
     hour * 2 ^ (3 - 1) = 4 * hour) /\
    r4 = (q, []) /\
    (forall now (q' : gmap string SyncScheduler.RetryInfo),
       SyncScheduler.afterSync now accountId true q' = (delete accountId q', []) /\
       delete accountId q' !! accountId = None) /\
    (forall now,
       SyncScheduler.runDailySync [SyncScheduler.mkVisit accountId now false] q
       = SyncScheduler.handleSyncFailure now accountId q /\
       SyncScheduler.runDailySync [SyncScheduler.mkVisit accountId now true] q
       = (delete accountId q, [])).
Proof.
  intros q accountId t1 t2 t3 t4 Hq hour entry retry r1 r2 r3 r4.
  assert (H1 : r1 = (<[accountId := entry 1 t1]> q, retry 1)).
  { subst r1. now rewrite handleSyncFailure_first by exact Hq. }
  assert (H2 : r2 = (<[accountId := entry 2 t2]> q, retry 2)).
  { subst r2. rewrite H1. cbn [fst].
    rewrite (handleSyncFailure_next t2 accountId _ (entry 1 t1))
      by apply lookup_insert_eq.
    cbn. now rewrite insert_insert_eq. }
  assert (H3 : r3 = (<[accountId := entry 3 t3]> q, retry 3)).
  { subst r3. rewrite H2. cbn [fst].
    rewrite (handleSyncFailure_next t3 accountId _ (entry 2 t2))
      by apply lookup_insert_eq.
    cbn. now rewrite insert_insert_eq. }
  split.
  { intros s Hs. unfold SyncScheduler.start. now rewrite Hs. }
  repeat split; auto.
  - subst r4. rewrite H3. cbn [fst].
    rewrite (handleSyncFailure_next t4 accountId _ (entry 3 t3))
      by apply lookup_insert_eq.
    cbn. now rewrite delete_insert_eq, delete_id.
  - apply lookup_delete_eq.
  - unfold SyncScheduler.runDailySync, SyncScheduler.visit. simpl.
    rewrite Hq. simpl.
    now destruct (SyncScheduler.handleSyncFailure now accountId q).
  - unfold SyncScheduler.runDailySync, SyncScheduler.visit. simpl.
    now rewrite Hq.
Qed.

Lemma sync_retry_backoff_witness :
  SyncScheduler.handleSyncFailure 7200000 "acc-1"
    (fst (SyncScheduler.handleSyncFailure 0 "acc-1" ∅))
  = (<["acc-1" := SyncScheduler.mkRetryInfo 2 (7200000 + 60 * 60 * 1000 * 2 ^ (2 - 1))]> ∅,
     [SyncScheduler.Timeout (60 * 60 * 1000 * 2 ^ (2 - 1))
        (SyncScheduler.RetrySync "acc-1")]).
Proof.
  apply (sync_retry_backoff ∅ "acc-1" 0 7200000 0 0). apply lookup_empty.
Defined.

(** C8 (as stated): every row with confidence below 70 carries the Review
    badge of the list.  It fails on a row without a category name. *)
Lemma review_badge_not_every_low_confidence :
  ~ (forall t : Review.ListRow,
        Review.row_categoryConfidence t < 70 ->
        Review.listReviewBadge t = true).
Proof.
  intros H. specialize (H Review.uncategorizedRow).
  cbv in H. discriminate H. reflexivity.
Qed.

(** C8 (amended): the list shows the Review badge exactly when the
    confidence is below 70 and the row has a category name; the detail
    dialog shows the low-confidence note exactly when the confidence is
    below 70; with a confidence of 70 or more neither is shown. *)
Theorem review_flag_threshold :
  forall t : Review.ListRow,
    (Review.listReviewBadge t = true <->
       Review.row_categoryConfidence t < 70 /\
       Js.truthy (Review.row_categoryName t) = true) /\
    (Review.detailLowConfidence (Review.row_categoryConfidence t) = true <->
       Review.row_categoryConfidence t < 70) /\
    (70 <= Review.row_categoryConfidence t ->
       Review.listReviewBadge t = false /\
       Review.detailLowConfidence (Review.row_categoryConfidence t) = false).
Proof.
  intros t. unfold Review.listReviewBadge, Review.detailLowConfidence.
  repeat split.
  - apply andb_true_iff in H. destruct H as [H _]. now apply Z.ltb_lt.
  - apply andb_true_iff in H. tauto.
  - intros [H1 H2]. apply andb_true_iff. split; [now apply Z.ltb_lt | exact H2].
  - apply Z.ltb_lt.
  - apply Z.ltb_lt.
  - apply andb_false_iff. left. now apply Z.ltb_ge.
  - now apply Z.ltb_ge.
Qed.

Lemma review_flag_threshold_witness :
  Review.listReviewBadge (Review.mkListRow (Some "Dining") 85) = false /\
  Review.detailLowConfidence 85 = false.
Proof.
  apply (review_flag_threshold (Review.mkListRow (Some "Dining") 85)).
  simpl. lia.
Defined.

(** ** Further properties of the services *)

(** *** What categorization and corrections write *)

Section Footprints.

Import Categorization Correction Invariants.

Local Open Scope list_scope.

Variable env : Env.

Lemma find_none_filter {A} (p : A -> bool) (l : list A) :
  find p l = None -> List.filter p l = [].
Proof.
  induction l as [| x xs IH]; simpl; [reflexivity |].
  destruct (p x); [discriminate | exact IH].
Qed.

Lemma getDefaultCategory_writes db :
  let db' := snd (getDefaultCategory env db) in
  categorizationRules db' = categorizationRules db /\
  transactions db' = transactions db /\
  budgets db' = budgets db /\
  fraudAlerts db' = fraudAlerts db /\
  (categories db' = categories db
   \/ (findSystemCategory (categories db) "Uncategorized" = None /\
       categories db' =
       categories db
       ++ [mkCategory (genId env (length (categories db))) None
                      "Uncategorized" true])).
Proof.
  unfold getDefaultCategory.
  destruct (findSystemCategory (categories db) "Uncategorized") eqn:E; simpl;
    repeat split; auto.
Qed.

Lemma updateRule_keys id newCategoryId newPriority rules :
  map ruleKey (updateRule id newCategoryId newPriority rules) = map ruleKey rules.
Proof.
  unfold updateRule. rewrite map_map. apply map_ext. intros r.
  now destruct (String.eqb (rule_id r) id).
Qed.

Lemma hasPattern_key userId merchantPattern r :
  hasPattern userId merchantPattern r = true <->
  ruleKey r = (userId, merchantPattern).
Proof.
  unfold hasPattern, ruleKey. rewrite andb_true_iff, !String.eqb_eq.
  split; [intros [-> ->]; reflexivity | intros [= -> ->]; now split].
Qed.

Lemma updateRule_other id newCategoryId newPriority rules userId :
  NoDup (map rule_id rules) ->
  (forall r, In r rules -> rule_id r = id -> rule_userId r <> userId) ->
  rulesOf userId (updateRule id newCategoryId newPriority rules)
  = rulesOf userId rules.
Proof.
  intros _ Hid. unfold rulesOf, updateRule.
  induction rules as [| r rest IH]; simpl; [reflexivity |].
  assert (Hrest : forall r0, In r0 rest -> rule_id r0 = id -> rule_userId r0 <> userId)
    by (intros r0 H0; apply Hid; now right).
  destruct (String.eqb (rule_id r) id) eqn:E; simpl.
  - apply String.eqb_eq in E.
    assert (Hne : rule_userId r <> userId) by (apply Hid; [now left | exact E]).
    apply String.eqb_neq in Hne. rewrite Hne. now apply IH.
  - destruct (String.eqb (rule_userId r) userId); [f_equal |]; now apply IH.
Qed.

(** Two rows with one identifier are one row. *)
Lemma NoDup_map_same {A B} (f : A -> B) (l : list A) (x y : A) :
  NoDup (map f l) -> In x l -> In y l -> f x = f y -> x = y.
Proof.
  induction l as [| a rest IH]; simpl; [intros _ [] |].
  intros Hnd Hx Hy Hf. apply NoDup_cons in Hnd. destruct Hnd as [Hnot Hnd].
  destruct Hx as [-> | Hx], Hy as [-> | Hy]; auto.
  - exfalso. apply Hnot, list_elem_of_In. rewrite Hf. now apply in_map.
  - exfalso. apply Hnot, list_elem_of_In. rewrite <- Hf. now apply in_map.
Qed.

End Footprints.

(** X1: [categorizeTransaction] writes nothing but, at most, the one
    Uncategorized system category of the fallback stage: rules,
    transactions, budgets and alerts are left alone, the categories are
    either unchanged or extended by that single row (only when no such
    category existed and the answer is the default one), so the table
    never holds more Uncategorized system categories than it did, or
    one. *)
Theorem categorizeTransaction_footprint :
  forall (env : Env) (db : Db) (userId : string)
         (transaction : Categorization.TransactionForCategorization),
    let r := fst (Categorization.categorizeTransaction env db userId transaction) in
    let db' := snd (Categorization.categorizeTransaction env db userId transaction) in
    categorizationRules db' = categorizationRules db /\
    transactions db' = transactions db /\
    budgets db' = budgets db /\
    fraudAlerts db' = fraudAlerts db /\
    (categories db' = categories db
     \/ (Categorization.findSystemCategory (categories db) "Uncategorized" = None /\
         Categorization.confidence r = 0 /\
         categories db' =
         (categories db
          ++ [mkCategory (genId env (length (categories db))) None
                         "Uncategorized" true])%list)) /\
    (length (List.filter Invariants.isUncategorized (categories db'))
     <= Nat.max 1 (length (List.filter Invariants.isUncategorized (categories db))))%nat.
Proof.
  intros env db userId transaction r db'.
  assert (H : categorizationRules db' = categorizationRules db /\
              transactions db' = transactions db /\
              budgets db' = budgets db /\
              fraudAlerts db' = fraudAlerts db /\
              (categories db' = categories db
               \/ (Categorization.findSystemCategory (categories db) "Uncategorized"
                   = None /\
                   Categorization.confidence r = 0 /\
                   categories db' =
                   (categories db
                    ++ [mkCategory (genId env (length (categories db))) None
                                   "Uncategorized" true])%list))).
  { subst r db'. unfold Categorization.categorizeTransaction.
    destruct (Categorization.matchUserRules env db userId transaction);
      [simpl; tauto |].
    destruct (Categorization.matchMerchantPattern db transaction);
      [simpl; tauto |].
    destruct (Categorization.matchPlaidCategory db transaction);
      [simpl; tauto |].
    destruct (match openai env with
              | Some _ => Categorization.categorizeWithAI env db userId transaction
              | None => None
              end); [simpl; tauto |].
    pose proof (getDefaultCategory_writes env db) as Hd.
    destruct (Categorization.getDefaultCategory env db) as [c dbd]. simpl in *.
    destruct Hd as (H1 & H2 & H3 & H4 & [H5 | [H5 H6]]); repeat split; auto. }
  destruct H as (H1 & H2 & H3 & H4 & H5). repeat split; auto.
  destruct H5 as [-> | (Hnone & _ & ->)]; [lia |].
  rewrite List.filter_app, length_app.
  unfold Categorization.findSystemCategory in Hnone.
  apply find_none_filter in Hnone. unfold Invariants.isUncategorized.
  rewrite Hnone. simpl. lia.
Qed.

(** X2: a successful [updateCategory] keeps the rule table free of
    duplicates: when no two rules shared a user and a merchant pattern
    before the correction, none do after it, however often the same
    merchant is corrected. *)
Theorem updateCategory_one_rule_per_pattern :
  forall (env : Env) (db : Db) (transactionId userId categoryId : string)
         (updated : Transaction) (db' : Db),
    Invariants.oneRulePerPattern (categorizationRules db) ->
    Correction.updateCategory env db transactionId userId categoryId
      = Ok (updated, db') ->
    Invariants.oneRulePerPattern (categorizationRules db').
Proof.
  intros env db transactionId userId categoryId updated db' Hnd.
  unfold Correction.updateCategory.
  destruct (find _ (transactions db)) as [transaction |]; [| discriminate].
  destruct (find _ (categories db)) as [category |]; [| discriminate].
  destruct (Correction.learnFromCorrection env _ userId transactionId categoryId)
    as [db2 | m] eqn:El.
  - intros [= _ <-]. revert El. unfold Correction.learnFromCorrection. simpl.
    destruct (find _ (map _ (transactions db))) as [t |]; [| discriminate].
    destruct (find _ (categories db)); [| discriminate].
    destruct (find (Correction.hasPattern userId _) (categorizationRules db))
      as [existing |] eqn:Er.
    + intros [= <-]. unfold Invariants.oneRulePerPattern. simpl.
      now rewrite updateRule_keys.
    + intros [= <-]. unfold Invariants.oneRulePerPattern in *. simpl.
      rewrite map_app. simpl. apply NoDup_app. repeat split; auto.
      * intros k Hk Hk'. apply list_elem_of_In in Hk, Hk'.
        destruct Hk' as [<- | []].
        apply in_map_iff in Hk. destruct Hk as (r & Hr & Hin).
        cbn [Invariants.ruleKey rule_userId rule_merchantPattern] in Hr.
        pose proof (find_none _ _ Er r Hin) as Hf.
        pose proof (proj2 (hasPattern_key userId
                             (Correction.createMerchantPattern
                                (Js.orElse (tx_merchantName t) (tx_description t)))
                             r) Hr) as Ht.
        rewrite Ht in Hf. discriminate Hf.
      * apply NoDup_singleton.
  - intros [= _ <-]. exact Hnd.
Qed.

Lemma updateCategory_one_rule_per_pattern_witness :
  Invariants.oneRulePerPattern (categorizationRules Samples.correctedDb).
Proof.
  assert (H : Correction.updateCategory Samples.env Samples.quietDb "t9" "u1" "c2"
              = Ok (Correction.assignCategory "c2" Samples.bigPurchase,
                    Samples.correctedDb))
    by (vm_compute; reflexivity).
  apply (updateCategory_one_rule_per_pattern Samples.env Samples.quietDb
           "t9" "u1" "c2" (Correction.assignCategory "c2" Samples.bigPurchase)
           Samples.correctedDb); [apply NoDup_nil_2 | exact H].
Defined.

(** X3: a successful [updateCategory] stays within its user and its
    transaction: with unique rule identifiers, the rules of every other
    user are exactly what they were, every transaction with another
    identifier is untouched, and categories, budgets and alerts are
    unchanged. *)
Theorem updateCategory_frame :
  forall (env : Env) (db : Db) (transactionId userId categoryId : string)
         (updated : Transaction) (db' : Db),
    NoDup (map rule_id (categorizationRules db)) ->
    Correction.updateCategory env db transactionId userId categoryId
      = Ok (updated, db') ->
    (forall other, other <> userId ->
       Categorization.rulesOf other (categorizationRules db')
       = Categorization.rulesOf other (categorizationRules db)) /\
    List.filter (fun t => negb (String.eqb (tx_id t) transactionId)) (transactions db')
    = List.filter (fun t => negb (String.eqb (tx_id t) transactionId)) (transactions db) /\
    length (transactions db') = length (transactions db) /\
    categories db' = categories db /\
    budgets db' = budgets db /\
    fraudAlerts db' = fraudAlerts db.
Proof.
  intros env db transactionId userId categoryId updated db' Hids.
  unfold Correction.updateCategory.
  destruct (find _ (transactions db)) as [transaction |]; [| discriminate].
  destruct (find _ (categories db)) as [category |]; [| discriminate].
  assert (Htx : List.filter (fun t => negb (String.eqb (tx_id t) transactionId))
                  (map (fun t => if String.eqb (tx_id t) transactionId
                                 then Correction.assignCategory categoryId t else t)
                       (transactions db))
                = List.filter (fun t => negb (String.eqb (tx_id t) transactionId))
                    (transactions db)).
  { induction (transactions db) as [| t rest IH]; simpl; [reflexivity |].
    destruct (String.eqb (tx_id t) transactionId) eqn:E; simpl; rewrite E; simpl;
      [exact IH | now f_equal]. }
  destruct (Correction.learnFromCorrection env _ userId transactionId categoryId)
    as [db2 | m] eqn:El.
  - intros [= _ <-]. revert El. unfold Correction.learnFromCorrection. simpl.
    destruct (find _ (map _ (transactions db))) as [t |]; [| discriminate].
    destruct (find _ (categories db)); [| discriminate].
    destruct (find (Correction.hasPattern userId _) (categorizationRules db))
      as [existing |] eqn:Er.
    + intros [= <-]. simpl. repeat split; auto; [| now rewrite length_map].
      intros other Hne. apply updateRule_other; [exact Hids |].
      intros r Hr Hid Hu.
      apply find_some in Er. destruct Er as [Hin Hp].
      assert (r = existing) by (eapply NoDup_map_same; eauto).
      subst r. apply hasPattern_key in Hp. unfold Invariants.ruleKey in Hp.
      congruence.
    + intros [= <-]. simpl. repeat split; auto; [| now rewrite length_map].
      intros other Hne. unfold Categorization.rulesOf.
      rewrite List.filter_app. simpl.
      apply String.eqb_neq in Hne. rewrite String.eqb_sym in Hne.
      rewrite Hne. now rewrite app_nil_r.
  - intros [= _ <-]. simpl. repeat split; auto. now rewrite length_map.
Qed.

Lemma updateCategory_frame_witness :
  categories Samples.correctedDb = categories Samples.quietDb /\
  budgets Samples.correctedDb = budgets Samples.quietDb.
Proof.
  assert (H : Correction.updateCategory Samples.env Samples.quietDb "t9" "u1" "c2"
              = Ok (Correction.assignCategory "c2" Samples.bigPurchase,
                    Samples.correctedDb))
    by (vm_compute; reflexivity).
  assert (Hids : NoDup (map rule_id (categorizationRules Samples.quietDb)))
    by apply NoDup_nil_2.
  destruct (updateCategory_frame _ _ _ _ _ _ _ Hids H)
    as (_ & _ & _ & H1 & H2 & _).
  split; [exact H1 | exact H2].
Defined.

(** *** Budgets over their life *)

Section BudgetLife.

Import BudgetService BudgetMaintenance Invariants.

Local Open Scope list_scope.

Lemma ForallOrdPairs_snoc {A} (R : A -> A -> Prop) (l : list A) (b : A) :
  ForallOrdPairs R l -> (forall a, In a l -> R a b) ->
  ForallOrdPairs R (l ++ [b]).
Proof.
  induction 1 as [| a l Ha Hl IH]; intros Hb; simpl.
  - constructor; constructor.
  - constructor.
    + apply List.Forall_app. split; [exact Ha |].
      constructor; [apply Hb; now left | constructor].
    + apply IH. intros a' Ha'. apply Hb. now right.
Qed.

Lemma createBudget_ok env db input b db' :
  createBudget env db input = (Ok b, db') ->
  validateCreateInput input = [] /\
  find (overlapsQuery input) (budgets db) = None /\
  b = mkBudget (genId env (length (budgets db))) (in_userId input)
        (in_categoryId input) (in_amount input) (in_period input)
        (in_startDate input) (in_endDate input)
        (thresholdOrDefault (in_alertThreshold input)) true /\
  db' = setBudgets (budgets db ++ [b]) db.
Proof.
  unfold createBudget.
  destruct (validateCreateInput input); [| discriminate].
  destruct (find _ (categories db)); [| discriminate].
  destruct (find (overlapsQuery input) (budgets db)); [discriminate |].
  intros [= <- <-]. repeat split; reflexivity.
Qed.

Lemma roundCents_nonneg (q : Q) : (0 < q)%Q -> 0 <= BudgetTable.roundCents q.
Proof.
  intros Hq. unfold BudgetTable.roundCents.
  assert (Hle : Qle_bool 0 q = true) by (apply Qle_bool_iff; lra).
  rewrite Hle. change 0 with (Qfloor 0). apply Qfloor_resp_le. lra.
Qed.

Lemma fitsColumn_bound (q : Q) :
  (0 < q)%Q -> BudgetTable.fitsColumn q = true ->
  0 <= BudgetTable.roundCents q < 10 ^ 12.
Proof.
  intros Hq Hfit. pose proof (roundCents_nonneg q Hq) as H0.
  unfold BudgetTable.fitsColumn in Hfit. apply Z.ltb_lt in Hfit.
  rewrite Z.abs_eq in Hfit by exact H0. split; assumption.
Qed.

Lemma created_wellFormed input id :
  validateCreateInput input = [] ->
  BudgetTable.fitsColumn (in_amount input) = true ->
  BudgetTable.wellFormed
    (BudgetTable.atColumn
       (mkBudget id (in_userId input) (in_categoryId input)
          (in_amount input) (in_period input) (in_startDate input)
          (in_endDate input)
          (thresholdOrDefault (in_alertThreshold input)) true)).
Proof.
  intros Hv Hfit. apply validateCreateInput_nil in Hv.
  destruct Hv as (_ & Hamt & Hper & Hrange & Hthr).
  unfold BudgetTable.wellFormed. simpl.
  split; [| split; [| split; [| split]]].
  - exists (BudgetTable.roundCents (in_amount input)).
    split; [| reflexivity].
    apply fitsColumn_bound; [| exact Hfit].
    apply Qnot_le_lt. intros Hle. apply Qle_bool_iff in Hle. congruence.
  - unfold validatePeriod in Hper. apply existsb_exists in Hper.
    destruct Hper as (x & Hx & Hxe). apply String.eqb_eq in Hxe. now subst x.
  - now apply Z.ltb_lt.
  - unfold thresholdOrDefault. destruct (in_alertThreshold input) as [t |]; [| lia].
    specialize (Hthr t eq_refl). unfold validateAlertThreshold in Hthr.
    apply andb_true_iff in Hthr. destruct Hthr as [H1 _]. apply Z.ltb_lt in H1.
    destruct (t =? 0); lia.
  - unfold thresholdOrDefault. destruct (in_alertThreshold input) as [t |]; [| lia].
    specialize (Hthr t eq_refl). unfold validateAlertThreshold in Hthr.
    apply andb_true_iff in Hthr. destruct Hthr as [_ H2]. apply Z.leb_le in H2.
    destruct (t =? 0); lia.
Qed.

Lemma updateWhereId_other budgetId f bs b :
  In b bs -> budget_id b <> budgetId -> In b (updateWhereId budgetId f bs).
Proof.
  intros Hin Hne. unfold updateWhereId. apply in_map_iff. exists b.
  apply String.eqb_neq in Hne. now rewrite Hne.
Qed.

Lemma updateWhereId_in budgetId f bs b' :
  In b' (updateWhereId budgetId f bs) ->
  exists b, In b bs /\
    ((budget_id b = budgetId /\ b' = f b) \/ (budget_id b <> budgetId /\ b' = b)).
Proof.
  unfold updateWhereId. intros H. apply in_map_iff in H.
  destruct H as (b & Hb & Hin). exists b. split; [exact Hin |].
  destruct (String.eqb (budget_id b) budgetId) eqn:E.
  - left. apply String.eqb_eq in E. now split.
  - right. apply String.eqb_neq in E. now split.
Qed.

Lemma getBudgetById_some db budgetId userId b :
  getBudgetById db budgetId userId = Some b ->
  In b (budgets db) /\ budget_id b = budgetId /\ budget_userId b = userId.
Proof.
  unfold getBudgetById. intros H. apply find_some in H. destruct H as [Hin Hp].
  apply andb_true_iff in Hp. destruct Hp as [H1 H2].
  apply String.eqb_eq in H1. apply String.eqb_eq in H2. auto.
Qed.

Lemma updateBudget_ok db budgetId userId input b db' :
  updateBudget db budgetId userId input = (Ok b, db') ->
  exists existing,
    getBudgetById db budgetId userId = Some existing /\
    b = applyUpdate input existing /\
    db' = setBudgets (updateWhereId budgetId (applyUpdate input) (budgets db)) db /\
    (forall a, up_amount input = Some a -> (0 < a)%Q) /\
    (forall p, up_period input = Some p -> p <> "" ->
               In p ["monthly"; "quarterly"; "annual"]) /\
    (forall t, up_alertThreshold input = Some t -> 0 < t <= 100) /\
    budget_startDate b < budget_endDate b.
Proof.
  unfold updateBudget.
  destruct (getBudgetById db budgetId userId) as [existing |]; [| discriminate].
  destruct (match up_amount input with Some a => Qle_bool a 0 | None => false end)
    eqn:Ea; [discriminate |].
  destruct (match up_period input with
            | Some p => negb (String.eqb p "") && negb (validatePeriod p)
            | None => false
            end) eqn:Ep; [discriminate |].
  destruct (match up_alertThreshold input with
            | Some t => negb (validateAlertThreshold t)
            | None => false
            end) eqn:Et; [discriminate |].
  destruct (negb (validateDateRange _ _)) eqn:Ed; [discriminate |].
  intros [= <- <-]. exists existing. repeat split; auto.
  - intros a Ha. rewrite Ha in Ea. apply Qnot_le_lt. intros Hle.
    apply Qle_bool_iff in Hle. congruence.
  - intros p Hp Hne. rewrite Hp in Ep. apply String.eqb_neq in Hne.
    rewrite Hne in Ep. simpl in Ep. apply negb_false_iff in Ep.
    unfold validatePeriod in Ep. apply existsb_exists in Ep.
    destruct Ep as (x & Hx & Hxe). apply String.eqb_eq in Hxe. now subst x.
  - rewrite H in Et. apply negb_false_iff in Et.
    unfold validateAlertThreshold in Et. apply andb_true_iff in Et.
    destruct Et as [H1 _]. now apply Z.ltb_lt in H1.
  - rewrite H in Et. apply negb_false_iff in Et.
    unfold validateAlertThreshold in Et. apply andb_true_iff in Et.
    destruct Et as [_ H2]. now apply Z.leb_le in H2.
  - apply negb_false_iff in Ed. unfold validateDateRange in Ed.
    apply Z.ltb_lt in Ed. unfold applyUpdate. simpl. exact Ed.
Qed.

End BudgetLife.

(** X4: a successful [createBudget] appends exactly one budget, active,
    with the threshold given or 80 when none is given, and it keeps
    budgets apart: when no two active budgets of one user and category had
    overlapping date ranges before, none have after. *)
Theorem createBudget_keeps_budgets_apart :
  forall (env : Env) (db : Db) (input : BudgetService.CreateBudgetInput)
         (b : Budget) (db' : Db),
    BudgetService.createBudget env db input = (Ok b, db') ->
    budgets db' = (budgets db ++ [b])%list /\
    budget_isActive b = true /\
    budget_alertThreshold b
    = match BudgetService.in_alertThreshold input with
      | Some t => t
      | None => 80
      end /\
    (Invariants.noConflicts (budgets db) -> Invariants.noConflicts (budgets db')).
Proof.
  intros env db input b db' H.
  pose proof (createBudget_ok env db input b db' H) as (Hv & Hf & Hb & Hdb).
  subst db'. simpl. split; [reflexivity |]. split; [now subst b |]. split.
  - subst b. simpl. unfold BudgetService.thresholdOrDefault.
    destruct (BudgetService.in_alertThreshold input) as [t |] eqn:Et; [| reflexivity].
    apply validateCreateInput_nil in Hv. destruct Hv as (_ & _ & _ & _ & Hthr).
    specialize (Hthr t Et). unfold BudgetService.validateAlertThreshold in Hthr.
    apply andb_true_iff in Hthr. destruct Hthr as [H1 _]. apply Z.ltb_lt in H1.
    destruct (t =? 0) eqn:E0; [apply Z.eqb_eq in E0; lia | reflexivity].
  - intros Hnc. apply ForallOrdPairs_snoc; [exact Hnc |].
    intros a Ha (Hu & Hc & Hact & _ & Hov).
    pose proof (find_none _ _ Hf a Ha) as Hq.
    rewrite overlap_caught in Hq; [discriminate | | | | exact Hact];
      subst b; simpl in *; auto.
Qed.

Lemma createBudget_keeps_budgets_apart_witness :
  exists b db',
    BudgetService.createBudget Samples.env Samples.quietDb
      (BudgetService.mkCreateBudgetInput "u1" "c2" (50 # 1) "monthly"
         Samples.now (Samples.now + Samples.day) None) = (Ok b, db') /\
    budget_alertThreshold b = 80.
Proof.
  eexists. eexists. split; [vm_compute; reflexivity |].
  refine (proj1 (proj2 (proj2
    (createBudget_keeps_budgets_apart Samples.env Samples.quietDb
       (BudgetService.mkCreateBudgetInput "u1" "c2" (50 # 1) "monthly"
          Samples.now (Samples.now + Samples.day) None) _ _ _)))).
  vm_compute. reflexivity.
Defined.



Section BudgetUpdates.

Import BudgetService BudgetMaintenance Invariants.

Local Open Scope list_scope.

Lemma table_createBudget_ok env db input b db' :
  BudgetTable.createBudget env db input = (Ok b, db') ->
  BudgetTable.wellFormed b /\
  db' = setBudgets (budgets db ++ [b]) db.
Proof.
  unfold BudgetTable.createBudget.
  destruct (createBudget env db input) as [[b0 | m] db0] eqn:E; [| discriminate].
  apply createBudget_ok in E. destruct E as (Hv & _ & -> & _).
  cbn [budget_amount].
  destruct (BudgetTable.fitsColumn (in_amount input)) eqn:Hfit; [| discriminate].
  intros [= <- <-]. split; [| reflexivity].
  exact (created_wellFormed input _ Hv Hfit).
Qed.

Lemma table_updateBudget_ok db budgetId userId input b db' :
  BudgetTable.updateBudget db budgetId userId input = (Ok b, db') ->
  exists existing,
    getBudgetById db budgetId userId = Some existing /\
    db' = setBudgets
            (updateWhereId budgetId
               (applyUpdate (BudgetTable.columnInput input)) (budgets db)) db /\
    forall x, BudgetTable.wellFormed x ->
              budget_startDate x = budget_startDate existing ->
              budget_endDate x = budget_endDate existing ->
              BudgetTable.wellFormed
                (applyUpdate (BudgetTable.columnInput input) x).
Proof.
  unfold BudgetTable.updateBudget.
  destruct (BudgetMaintenance.updateBudget db budgetId userId input)
    as [[b0 | m] db0] eqn:E; [| discriminate].
  apply updateBudget_ok in E.
  destruct E as (existing & He & -> & _ & Ha & Hp & Ht & Hd).
  rewrite He.
  destruct (match up_amount input with
            | Some a => BudgetTable.fitsColumn a
            | None => true
            end) eqn:Hfit; [| discriminate].
  intros [= <- <-]. exists existing. split; [reflexivity |].
  split; [reflexivity |].
  intros x (W1 & W2 & W3 & W4) Hs He'.
  unfold BudgetTable.wellFormed, applyUpdate. simpl.
  split; [| split; [| split]].
  - destruct (up_amount input) as [a |]; simpl; [| exact W1].
    exists (BudgetTable.roundCents a). split; [| reflexivity].
    apply fitsColumn_bound; [now apply Ha | exact Hfit].
  - destruct (up_period input) as [p |]; [| exact W2].
    destruct (String.eqb p "") eqn:Ep; [exact W2 |].
    apply String.eqb_neq in Ep. now apply Hp.
  - unfold applyUpdate in Hd. simpl in Hd. rewrite Hs, He'. exact Hd.
  - destruct (up_alertThreshold input) as [t |]; [now apply Ht | exact W4].
Qed.

Lemma wellFormed_deactivate b :
  BudgetTable.wellFormed b -> BudgetTable.wellFormed (deactivate b).
Proof. unfold BudgetTable.wellFormed. simpl. tauto. Qed.

Lemma Forall_updateWhereId (P : Budget -> Prop) budgetId f bs :
  Forall P bs ->
  (forall b, In b bs -> budget_id b = budgetId -> P (f b)) ->
  Forall P (updateWhereId budgetId f bs).
Proof.
  intros Hall Hf. apply List.Forall_forall. intros b' Hb'.
  apply updateWhereId_in in Hb'.
  destruct Hb' as (b & Hin & [[Hid ->] | [_ ->]]).
  - now apply Hf.
  - rewrite List.Forall_forall in Hall. now apply Hall.
Qed.

Lemma getBudgetProgress_returns db now budgetId userId b :
  getBudgetById db budgetId userId = Some b ->
  exists p, getBudgetProgress db now budgetId userId = Ok p.
Proof.
  intros Hb. unfold getBudgetProgress, calculateSpending. rewrite Hb.
  eexists. reflexivity.
Qed.

Lemma collectAlerts_total db now userId bs :
  (forall b, In b bs -> In b (budgets db) /\ budget_userId b = userId) ->
  exists alerts,
    collectAlerts db now userId bs = Ok alerts /\
    forall p, In p alerts <->
      exists b, In b bs /\
        getBudgetProgress db now (budget_id b) userId = Ok p /\
        shouldAlert p = true.
Proof.
  induction bs as [| b rest IH]; intros Hbs.
  - exists []. split; [reflexivity |]. intros p. split; [intros [] |].
    intros (b & [] & _).
  - destruct (Hbs b (or_introl eq_refl)) as [Hin Hu].
    assert (Hfound : exists b0, getBudgetById db (budget_id b) userId = Some b0).
    { unfold getBudgetById. apply (find_is_some _ _ b Hin).
      now rewrite String.eqb_refl, Hu, String.eqb_refl. }
    destruct Hfound as [b0 Hb0].
    destruct (getBudgetProgress_returns db now (budget_id b) userId b0 Hb0)
      as (p0 & Hp0).
    destruct IH as (alerts & Ha & Hiff); [intros x Hx; apply Hbs; now right |].
    simpl. rewrite Hp0, Ha. eexists. split; [reflexivity |].
    intros p. destruct (shouldAlert p0) eqn:Es; simpl.
    + rewrite Hiff. split.
      * intros [<- | (x & Hx & Hxp & Hxs)].
        -- exists b. repeat split; auto.
        -- exists x. repeat split; auto.
      * intros (x & [<- | Hx] & Hxp & Hxs).
        -- left. congruence.
        -- right. exists x. auto.
    + rewrite Hiff. split.
      * intros (x & Hx & Hxp & Hxs). exists x. repeat split; auto.
      * intros (x & [<- | Hx] & Hxp & Hxs).
        -- rewrite Hp0 in Hxp. injection Hxp as <-. congruence.
        -- exists x. auto.
Qed.

Lemma in_getBudgets db userId includeInactive b :
  In b (getBudgets db userId includeInactive) <->
  In b (budgets db) /\ budget_userId b = userId /\
  (includeInactive = true \/ budget_isActive b = true).
Proof.
  unfold getBudgets. rewrite <- in_rev, filter_In, andb_true_iff, orb_true_iff,
    String.eqb_eq. tauto.
Qed.

End BudgetUpdates.

(** A budget of a tenth of a cent passes the validation; the table keeps
    it with the amount 0. *)
Example tenth_of_a_cent_is_stored_as_zero :
  exists b db',
    BudgetTable.createBudget Samples.env Samples.quietDb BudgetTable.tenthOfACent
    = (Ok b, db') /\
    (budget_amount b == 0)%Q.
Proof. eexists. eexists. split; [reflexivity | reflexivity]. Qed.

(** X6: the rows of [budgets] stay valid.  When every row has an amount
    of whole cents that is not negative and fits the column, a period
    among monthly, quarterly and annual, an end date after its start date
    and a threshold in (0, 100], and budget identifiers are unique, this
    still holds after any successful [createBudget], [updateBudget] or
    [deleteBudget], the amount being kept as the column
    [DECIMAL(12,2)] rounds it.  (The amount need not stay positive: a
    positive amount below half a cent is stored as 0.) *)
Theorem budgets_stay_wellFormed :
  forall (env : Env) (db : Db),
    Forall BudgetTable.wellFormed (budgets db) ->
    NoDup (map budget_id (budgets db)) ->
    (forall input b db',
       BudgetTable.createBudget env db input = (Ok b, db') ->
       Forall BudgetTable.wellFormed (budgets db')) /\
    (forall budgetId userId input b db',
       BudgetTable.updateBudget db budgetId userId input = (Ok b, db') ->
       Forall BudgetTable.wellFormed (budgets db')) /\
    (forall budgetId userId db',
       BudgetMaintenance.deleteBudget db budgetId userId = (Ok tt, db') ->
       Forall BudgetTable.wellFormed (budgets db')).
Proof.
  intros env db Hwf Hids. split; [| split].
  - intros input b db' H. apply table_createBudget_ok in H.
    destruct H as (Hb & ->). simpl.
    apply List.Forall_app. split; [exact Hwf |]. constructor; [exact Hb | constructor].
  - intros budgetId userId input b db' H.
    apply table_updateBudget_ok in H.
    destruct H as (existing & He & -> & Hkeep). simpl.
    apply getBudgetById_some in He. destruct He as (Hin & Hid & _).
    apply Forall_updateWhereId; [exact Hwf |].
    intros x Hx Hxid.
    assert (x = existing)
      by (eapply (NoDup_map_same budget_id); eauto; congruence).
    subst x. rewrite List.Forall_forall in Hwf.
    apply Hkeep; [now apply Hwf | reflexivity | reflexivity].
  - intros budgetId userId db'. unfold BudgetMaintenance.deleteBudget.
    destruct (BudgetService.getBudgetById db budgetId userId); [| discriminate].
    intros [= <-]. simpl. apply Forall_updateWhereId; [exact Hwf |].
    intros x Hx _. apply wellFormed_deactivate.
    rewrite List.Forall_forall in Hwf. now apply Hwf.
Qed.

Lemma budgets_stay_wellFormed_witness :
  Forall BudgetTable.wellFormed
    (budgets (snd (BudgetTable.updateBudget Samples.quietDb "b1" "u1"
                     (BudgetMaintenance.mkUpdateBudgetInput (Some (2505 # 1000))
                        None None None (Some 90) None)))).
Proof.
  assert (Hwf : Forall BudgetTable.wellFormed (budgets Samples.quietDb)).
  { constructor; [| constructor]. unfold BudgetTable.wellFormed. simpl.
    split; [exists 20000; split; [lia | reflexivity] |].
    split; [now left |]. split; [reflexivity | lia]. }
  assert (Hids : NoDup (map budget_id (budgets Samples.quietDb))).
  { simpl. apply NoDup_singleton. }
  destruct (budgets_stay_wellFormed Samples.env Samples.quietDb Hwf Hids)
    as (_ & Hupd & _).
  apply (Hupd "b1" "u1"
           (BudgetMaintenance.mkUpdateBudgetInput (Some (2505 # 1000)) None
              None None (Some 90) None)
           (BudgetMaintenance.applyUpdate
              (BudgetTable.columnInput
                 (BudgetMaintenance.mkUpdateBudgetInput (Some (2505 # 1000)) None
                    None None (Some 90) None)) Samples.groceriesBudget)).
  reflexivity.
Defined.

(** X7: [deleteBudget] is a soft delete.  For a budget that is not the
    user's it throws and changes nothing.  Otherwise no row is removed:
    the budget is marked inactive, drops out of the default listing while
    staying in the listing that includes inactive budgets, no longer
    blocks the creation of an overlapping budget, and every other budget
    is left as it was. *)
Theorem deleteBudget_soft :
  forall (db : Db) (budgetId userId : string),
    (BudgetService.getBudgetById db budgetId userId = None ->
     BudgetMaintenance.deleteBudget db budgetId userId
     = (Throw "Budget not found", db)) /\
    (forall db',
       BudgetMaintenance.deleteBudget db budgetId userId = (Ok tt, db') ->
       length (budgets db') = length (budgets db) /\
       (forall b, In b (budgets db') -> budget_id b = budgetId ->
                  budget_isActive b = false) /\
       (forall b, In b (BudgetMaintenance.getBudgets db' userId false) ->
                  budget_id b <> budgetId) /\
       (exists b, In b (BudgetMaintenance.getBudgets db' userId true) /\
                  budget_id b = budgetId) /\
       (forall input b, In b (budgets db') -> budget_id b = budgetId ->
                        BudgetService.overlapsQuery input b = false) /\
       (forall b, In b (budgets db) -> budget_id b <> budgetId ->
                  In b (budgets db'))).
Proof.
  intros db budgetId userId. unfold BudgetMaintenance.deleteBudget. split.
  - intros ->. reflexivity.
  - intros db'.
    destruct (BudgetService.getBudgetById db budgetId userId) as [existing |] eqn:He;
      [| discriminate].
    intros [= <-]. simpl.
    assert (Hinactive : forall b,
              In b (BudgetMaintenance.updateWhereId budgetId
                      BudgetMaintenance.deactivate (budgets db)) ->
              budget_id b = budgetId -> budget_isActive b = false).
    { intros b Hb Hid. apply updateWhereId_in in Hb.
      destruct Hb as (b0 & _ & [[_ ->] | [Hne ->]]); [reflexivity | contradiction]. }
    split; [unfold BudgetMaintenance.updateWhereId; now rewrite length_map |].
    split; [exact Hinactive |]. split; [| split; [| split]].
    + intros b Hb Hid. apply in_getBudgets in Hb. simpl in Hb.
      destruct Hb as (Hin & _ & [Hf | Hact]); [discriminate |].
      rewrite (Hinactive b Hin Hid) in Hact. discriminate.
    + apply getBudgetById_some in He. destruct He as (Hin & Hid & Hu).
      exists (BudgetMaintenance.deactivate existing).
      split; [| exact Hid]. apply in_getBudgets. simpl.
      split; [| split; [exact Hu | now left]].
      unfold BudgetMaintenance.updateWhereId. apply in_map_iff.
      exists existing. split; [| exact Hin].
      apply String.eqb_eq in Hid. now rewrite Hid.
    + intros input b Hb Hid. unfold BudgetService.overlapsQuery.
      rewrite (Hinactive b Hb Hid).
      now rewrite andb_false_r.
    + intros b Hb Hne. now apply updateWhereId_other.
Qed.

Lemma deleteBudget_soft_witness :
  length (budgets (snd (BudgetMaintenance.deleteBudget Samples.quietDb "b1" "u1")))
  = length (budgets Samples.quietDb).
Proof.
  refine (proj1 (proj2 (deleteBudget_soft Samples.quietDb "b1" "u1") _ _)).
  reflexivity.
Defined.

(** X8: [updateBudget] validates before it writes.  It throws and leaves
    the database unchanged when the budget is not the user's, when a given
    amount is not positive, when a given non-empty period is none of the
    three, when a given threshold lies outside (0, 100], or when the
    resulting end date is not after the resulting start date.  When it
    succeeds, the budget keeps its identifier, user and category, the
    number of budgets is unchanged and budgets with other identifiers are
    untouched. *)
Theorem updateBudget_guarded :
  forall (db : Db) (budgetId userId : string)
         (input : BudgetMaintenance.UpdateBudgetInput),
    (BudgetService.getBudgetById db budgetId userId = None
     \/ (exists a, BudgetMaintenance.up_amount input = Some a /\ (a <= 0)%Q)
     \/ (exists p, BudgetMaintenance.up_period input = Some p /\ p <> "" /\
                   ~ In p ["monthly"; "quarterly"; "annual"])
     \/ (exists t, BudgetMaintenance.up_alertThreshold input = Some t /\
                   ~ (0 < t <= 100))
     \/ (exists existing,
           BudgetService.getBudgetById db budgetId userId = Some existing /\
           ~ (budget_startDate (BudgetMaintenance.applyUpdate input existing)
              < budget_endDate (BudgetMaintenance.applyUpdate input existing)))
     -> exists message,
          BudgetMaintenance.updateBudget db budgetId userId input
          = (Throw message, db)) /\
    (forall b db',
       BudgetMaintenance.updateBudget db budgetId userId input = (Ok b, db') ->
       budget_id b = budgetId /\ budget_userId b = userId /\
       (exists existing,
          BudgetService.getBudgetById db budgetId userId = Some existing /\
          budget_categoryId b = budget_categoryId existing) /\
       length (budgets db') = length (budgets db) /\
       (forall x, In x (budgets db) -> budget_id x <> budgetId ->
                  In x (budgets db'))).
Proof.
  intros db budgetId userId input. split.
  - intros Hcase.
    destruct (BudgetMaintenance.updateBudget db budgetId userId input)
      as [[b | m] db'] eqn:E.
    + exfalso. apply updateBudget_ok in E.
      destruct E as (existing & He & Hb & _ & Ha & Hp & Ht & Hd).
      destruct Hcase as [H | [(a & Hin & Hle) | [(p & Hin & Hne & Hbad)
                        | [(t & Hin & Hbad) | (ex & Hex & Hbad)]]]].
      * congruence.
      * specialize (Ha a Hin). now apply (Qlt_not_le 0 a).
      * apply Hbad. now apply Hp.
      * apply Hbad. now apply Ht.
      * rewrite He in Hex. injection Hex as <-. subst b. contradiction.
    + exists m. f_equal. revert E. unfold BudgetMaintenance.updateBudget.
      destruct (BudgetService.getBudgetById db budgetId userId);
        [| now intros [= _ <-]].
      repeat match goal with
             | |- (if ?c then _ else _) = _ -> _ =>
                 destruct c; [now intros [= _ <-] |]
             end.
      discriminate.
  - intros b db' H. apply updateBudget_ok in H.
    destruct H as (existing & He & -> & -> & _).
    pose proof (getBudgetById_some _ _ _ _ He) as (Hin & Hid & Hu).
    simpl. repeat split; auto.
    + exists existing. now split.
    + unfold BudgetMaintenance.updateWhereId. now rewrite length_map.
    + intros x Hx Hne. now apply updateWhereId_other.
Qed.

Lemma updateBudget_guarded_witness :
  exists message,
    BudgetMaintenance.updateBudget Samples.quietDb "b1" "u1"
      (BudgetMaintenance.mkUpdateBudgetInput None None
         (Some (Samples.now + 30 * Samples.day)) None None None)
    = (Throw message, Samples.quietDb).
Proof.
  apply (updateBudget_guarded Samples.quietDb "b1" "u1").
  right. right. right. right. exists Samples.groceriesBudget.
  split; [reflexivity |]. simpl. unfold Samples.day. lia.
Defined.

(** X9: [checkBudgetAlerts] never throws, and it returns exactly the
    progress reports of the user's active budgets that should alert:
    inactive budgets, other users' budgets and budgets below their
    threshold are never reported. *)
Theorem checkBudgetAlerts_exact :
  forall (db : Db) (now : Z) (userId : string),
    exists alerts,
      BudgetMaintenance.checkBudgetAlerts db now userId = Ok alerts /\
      forall p,
        In p alerts <->
        exists b,
          In b (budgets db) /\ budget_userId b = userId /\
          budget_isActive b = true /\
          BudgetService.getBudgetProgress db now (budget_id b) userId = Ok p /\
          BudgetService.shouldAlert p = true.
Proof.
  intros db now userId. unfold BudgetMaintenance.checkBudgetAlerts.
  destruct (collectAlerts_total db now userId
              (BudgetMaintenance.getBudgets db userId false))
    as (alerts & Ha & Hiff).
  { intros b Hb. apply in_getBudgets in Hb. tauto. }
  exists alerts. split; [exact Ha |]. intros p. rewrite Hiff. split.
  - intros (b & Hb & Hp & Hs). apply in_getBudgets in Hb.
    destruct Hb as (Hin & Hu & [Hf | Hact]); [discriminate |].
    exists b. auto.
  - intros (b & Hin & Hu & Hact & Hp & Hs). exists b. split; [| auto].
    apply in_getBudgets. auto.
Qed.

(** *** What a fraud analysis writes *)

Section AnalysisFootprint.

Import FraudDetection.

Local Open Scope list_scope.

Variable env : Env.

Lemma raise_effect x s :
  exists ret new,
    alerts (snd (raise env x s)) = alerts s ++ ret /\
    table (snd (raise env x s)) = table s ++ new /\
    (length new <= length ret <= 1)%nat /\
    (forall a, In a new -> In a ret /\ a = newAlert env (table s) (snd x)) /\
    (forall a, In a ret ->
       In a (table s ++ new) /\ alertKey a = inputKey (snd x)).
Proof.
  destruct (raise_cases env x s)
    as [[_ ->] | [(_ & _ & m & ->) | (_ & _ & ext & -> & Hext & Hiff)]].
  - exists [], []. simpl. rewrite !app_nil_r.
    split; [reflexivity |]. split; [reflexivity |]. split; [lia |].
    split; intros a [].
  - exists [], []. simpl. rewrite !app_nil_r.
    split; [reflexivity |]. split; [reflexivity |]. split; [lia |].
    split; intros a [].
  - exists [raisedAlert env x (table s)], ext. simpl.
    split; [reflexivity |]. split; [reflexivity |].
    destruct Hext as [-> | ->]; simpl.
    + split; [lia |]. split; [intros a [] |].
      intros a [<- | []]. split; [| apply raisedAlert_key].
      rewrite app_nil_r. destruct (proj1 Hiff eq_refl) as [e He].
      unfold raisedAlert. rewrite He. apply find_some in He. tauto.
    + split; [lia |]. split.
      * intros a [<- | []]. split; [now left |].
        unfold raisedAlert.
        destruct (find _ (table s)) as [e |] eqn:Hf; [| reflexivity].
        assert (Hnil : [raisedAlert env x (table s)] = []) by (apply Hiff; eauto).
        discriminate.
      * intros a [<- | []]. split; [| apply raisedAlert_key].
        apply in_or_app. right. now left.
Qed.

Lemma raiseAll_effect xs s :
  exists ret new,
    alerts (snd (raiseAll env xs s)) = alerts s ++ ret /\
    table (snd (raiseAll env xs s)) = table s ++ new /\
    (length new <= length ret <= length xs)%nat /\
    (forall a, In a new ->
       In a ret /\ exists x tbl, In x xs /\ a = newAlert env tbl (snd x)) /\
    (forall a, In a ret ->
       In a (table s ++ new) /\ exists x, In x xs /\ alertKey a = inputKey (snd x)).
Proof.
  revert s. induction xs as [| x rest IH]; intros s.
  - exists [], []. simpl. rewrite !app_nil_r.
    split; [reflexivity |]. split; [reflexivity |]. split; [lia |].
    split; intros a [].
  - rewrite raiseAll_cons.
    destruct (raise_effect x s) as (r1 & n1 & Ha1 & Ht1 & Hl1 & Hn1 & Hr1).
    destruct (raise env x s) as [[u | m] s1] eqn:E; simpl in Ha1, Ht1.
    + destruct (IH s1) as (r2 & n2 & Ha2 & Ht2 & Hl2 & Hn2 & Hr2).
      exists (r1 ++ r2), (n1 ++ n2).
      rewrite Ha2, Ht2, Ha1, Ht1, <- !app_assoc, !length_app.
      split; [reflexivity |]. split; [reflexivity |].
      split; [simpl; lia |]. split.
      * intros a Ha. apply in_app_or in Ha. destruct Ha as [Ha | Ha].
        -- destruct (Hn1 a Ha) as [Hin ->]. split; [apply in_or_app; now left |].
           exists x, (table s). split; [now left | reflexivity].
        -- destruct (Hn2 a Ha) as [Hin (y & tbl & Hy & ->)].
           split; [apply in_or_app; now right |].
           exists y, tbl. split; [now right | reflexivity].
      * intros a Ha. apply in_app_or in Ha. destruct Ha as [Ha | Ha].
        -- destruct (Hr1 a Ha) as [Hin Hk]. split.
           ++ rewrite app_assoc. apply in_or_app. now left.
           ++ exists x. split; [now left | exact Hk].
        -- destruct (Hr2 a Ha) as [Hin (y & Hy & Hk)]. split.
           ++ rewrite Ht1, <- app_assoc in Hin. exact Hin.
           ++ exists y. split; [now right | exact Hk].
    + exists r1, n1. simpl. rewrite Ha1, Ht1.
      split; [reflexivity |]. split; [reflexivity |].
      split; [lia |]. split.
      * intros a Ha. destruct (Hn1 a Ha) as [Hin ->]. split; [exact Hin |].
        exists x, (table s). split; [now left | reflexivity].
      * intros a Ha. destruct (Hr1 a Ha) as [Hin Hk]. split; [exact Hin |].
        exists x. split; [now left | exact Hk].
Qed.

Lemma raiseAll_invalid xs s :
  (forall x, In x xs -> validateCreateInput (snd x) <> []) ->
  snd (raiseAll env xs s) = s.
Proof.
  revert s. induction xs as [| x rest IH]; intros s Hv; [reflexivity |].
  rewrite raiseAll_cons.
  destruct (raise_cases env x s)
    as [[_ ->] | [(_ & _ & m & ->) | (_ & Hok & _)]].
  - apply IH. intros y Hy. apply Hv. now right.
  - reflexivity.
  - exfalso. now apply (Hv x (or_introl eq_refl)).
Qed.

Lemma findings_inputs now db transaction x :
  In x (findings now db transaction) ->
  fa_userId (snd x) = tx_userId transaction /\
  fa_transactionId (snd x) = tx_id transaction.
Proof.
  unfold findings. intros [<- | [<- | [<- | []]]]; simpl; auto.
Qed.

End AnalysisFootprint.

(** X10: [analyzeTransaction] only ever appends to the alert table: the
    stored alerts are kept as they are and at most three rows are added,
    each for the analyzed transaction and its user, unreviewed and not
    marked as false positive.  It returns at most three alerts, all stored
    in the table afterwards and all for the analyzed transaction, and
    every row it adds is among them. *)
Theorem analyzeTransaction_footprint :
  forall (env : Env) (now : Z) (db : Db) (transaction : Transaction),
    let returned := fst (FraudDetection.analyzeTransaction env now db transaction) in
    let tbl' := snd (FraudDetection.analyzeTransaction env now db transaction) in
    exists new,
      tbl' = (fraudAlerts db ++ new)%list /\
      (length new <= length returned <= 3)%nat /\
      (forall a, In a new ->
         In a returned /\
         alert_transactionId a = tx_id transaction /\
         alert_userId a = tx_userId transaction /\
         alert_isReviewed a = false /\ alert_isFalsePositive a = false) /\
      (forall a, In a returned ->
         In a tbl' /\ alert_transactionId a = tx_id transaction).
Proof.
  intros env now db transaction returned tbl'.
  subst returned tbl'. rewrite analyzeTransaction_raiseAll. cbv zeta. cbn [fst snd].
  destruct (raiseAll_effect env (FraudDetection.findings now db transaction)
              (FraudDetection.mkRun [] (fraudAlerts db)))
    as (ret & new & Ha & Ht & Hl & Hn & Hr).
  cbn [FraudDetection.alerts FraudDetection.table app] in Ha, Ht.
  exists new. rewrite Ha, Ht.
  split; [reflexivity |]. split; [exact Hl |]. split.
  - intros a Hin. destruct (Hn a Hin) as [Hret (x & tbl & Hx & ->)].
    destruct (findings_inputs now db transaction x Hx) as [Hu Hi].
    simpl. auto.
  - intros a Hin. destruct (Hr a Hin) as [Htbl (x & Hx & Hk)].
    split; [exact Htbl |].
    destruct (findings_inputs now db transaction x Hx) as [_ Hi].
    unfold FraudDetection.alertKey, FraudDetection.inputKey in Hk. congruence.
Qed.

(** X11: for a transaction whose user identifier or own identifier is
    blank, [analyzeTransaction] stores nothing and returns no alert,
    whatever the checks find: the first alert it would create fails
    validation and ends the analysis. *)
Theorem analyzeTransaction_blank_ids :
  forall (env : Env) (now : Z) (db : Db) (transaction : Transaction),
    Js.isBlank (tx_userId transaction) = true
    \/ Js.isBlank (tx_id transaction) = true ->
    FraudDetection.analyzeTransaction env now db transaction
    = ([], fraudAlerts db).
Proof.
  intros env now db transaction Hblank.
  rewrite analyzeTransaction_raiseAll. cbv zeta.
  rewrite raiseAll_invalid; [reflexivity |].
  intros x Hx. destruct (findings_inputs now db transaction x Hx) as [Hu Hi].
  unfold FraudDetection.validateCreateInput. rewrite Hu, Hi.
  destruct Hblank as [-> | ->].
  - discriminate.
  - destruct (Js.isBlank (tx_userId transaction)); discriminate.
Qed.

Lemma analyzeTransaction_blank_ids_witness :
  FraudDetection.analyzeTransaction Samples.env Samples.now Samples.quietDb
    (mkTransaction "t11" "  " (10 # 1) Samples.now (Some "Lucky Casino")
       "Card purchase" None 0 false None None)
  = ([], []).
Proof.
  apply (analyzeTransaction_blank_ids Samples.env Samples.now Samples.quietDb).
  left. reflexivity.
Defined.

(** *** The retry queue over time *)

Section RetryQueue.

Import SyncScheduler Invariants.

Local Open Scope list_scope.

Lemma handleSyncFailure_bounded now accountId (q : gmap string RetryInfo) :
  retryBounded q ->
  retryBounded (fst (handleSyncFailure now accountId q)) /\
  Forall isBackoffTimer (snd (handleSyncFailure now accountId q)).
Proof.
  intros Hq. unfold handleSyncFailure.
  assert (Hc : 0 <= retryCount (default (mkRetryInfo 0 now) (q !! accountId)) <= 3).
  { destruct (q !! accountId) as [info |] eqn:E; simpl; [| lia].
    pose proof (map_Forall_lookup_1 _ _ _ _ Hq E) as Hb. simpl in Hb.
    unfold MAX_RETRIES in Hb. lia. }
  set (c := retryCount (default (mkRetryInfo 0 now) (q !! accountId))) in *.
  destruct (c + 1 <=? MAX_RETRIES) eqn:E; simpl.
  - apply Z.leb_le in E. unfold MAX_RETRIES in E. split.
    + apply map_Forall_insert_2; [simpl; unfold MAX_RETRIES; lia | exact Hq].
    + constructor; [| constructor]. exists accountId, (c + 1).
      split; [lia | reflexivity].
  - split; [now apply map_Forall_delete | constructor].
Qed.

Lemma afterSync_bounded now accountId success (q : gmap string RetryInfo) :
  retryBounded q ->
  retryBounded (fst (afterSync now accountId success q)) /\
  Forall isBackoffTimer (snd (afterSync now accountId success q)).
Proof.
  intros Hq. unfold afterSync. destruct success.
  - split; [now apply map_Forall_delete | constructor].
  - now apply handleSyncFailure_bounded.
Qed.

Lemma visit_bounded st v :
  retryBounded (fst st) -> Forall isBackoffTimer (snd st) ->
  retryBounded (fst (visit st v)) /\ Forall isBackoffTimer (snd (visit st v)).
Proof.
  intros Hq Ht. unfold visit.
  destruct (match fst st !! visit_accountId v with
            | Some retryInfo => visit_now v <? nextRetry retryInfo
            | None => false
            end); [now split |].
  pose proof (afterSync_bounded (visit_now v) (visit_accountId v)
                (visit_success v) (fst st) Hq) as [H1 H2].
  destruct (afterSync _ _ _ _) as [q' timers]. simpl in *.
  split; [exact H1 |]. apply List.Forall_app. now split.
Qed.

Lemma handleSyncFailure_other now accountId other (q : gmap string RetryInfo) :
  other <> accountId ->
  fst (handleSyncFailure now accountId q) !! other = q !! other.
Proof.
  intros Hne. unfold handleSyncFailure.
  destruct (_ <=? MAX_RETRIES); simpl.
  - now rewrite lookup_insert_ne.
  - now rewrite lookup_delete_ne.
Qed.

Lemma afterSync_other now accountId success other (q : gmap string RetryInfo) :
  other <> accountId ->
  fst (afterSync now accountId success q) !! other = q !! other.
Proof.
  intros Hne. unfold afterSync. destruct success; simpl.
  - now rewrite lookup_delete_ne.
  - now apply handleSyncFailure_other.
Qed.

Lemma visit_other st v other :
  other <> visit_accountId v ->
  fst (visit st v) !! other = fst st !! other.
Proof.
  intros Hne. unfold visit.
  destruct (match fst st !! visit_accountId v with
            | Some retryInfo => visit_now v <? nextRetry retryInfo
            | None => false
            end); [reflexivity |].
  pose proof (afterSync_other (visit_now v) (visit_accountId v)
                (visit_success v) other (fst st) Hne) as H.
  now destruct (afterSync _ _ _ _).
Qed.

End RetryQueue.

(** X12: the retry queue stays within its bounds.  When every queued
    account has a retry count between 1 and 3, this still holds after any
    sync failure, any retry and any daily run, whatever succeeds or fails,
    and every timer these register is a retry after 1, 2 or 4 hours. *)
Theorem retry_queue_bounded :
  forall (q : gmap string SyncScheduler.RetryInfo),
    Invariants.retryBounded q ->
    (forall now accountId,
       Invariants.retryBounded
         (fst (SyncScheduler.handleSyncFailure now accountId q)) /\
       Forall Invariants.isBackoffTimer
         (snd (SyncScheduler.handleSyncFailure now accountId q))) /\
    (forall now accountId active success,
       Invariants.retryBounded
         (fst (SyncScheduler.retrySync now accountId active success q)) /\
       Forall Invariants.isBackoffTimer
         (snd (SyncScheduler.retrySync now accountId active success q))) /\
    (forall accounts,
       Invariants.retryBounded (fst (SyncScheduler.runDailySync accounts q)) /\
       Forall Invariants.isBackoffTimer
         (snd (SyncScheduler.runDailySync accounts q))).
Proof.
  intros q Hq. split; [| split].
  - intros now accountId. now apply handleSyncFailure_bounded.
  - intros now accountId active success. unfold SyncScheduler.retrySync.
    destruct active; [now apply afterSync_bounded |].
    split; [now apply map_Forall_delete | constructor].
  - intros accounts. unfold SyncScheduler.runDailySync.
    assert (H : forall st,
              Invariants.retryBounded (fst st) ->
              Forall Invariants.isBackoffTimer (snd st) ->
              Invariants.retryBounded (fst (fold_left SyncScheduler.visit accounts st)) /\
              Forall Invariants.isBackoffTimer
                (snd (fold_left SyncScheduler.visit accounts st))).
    { induction accounts as [| v rest IH]; intros st H1 H2; simpl; [now split |].
      destruct (visit_bounded st v H1 H2) as [H3 H4]. now apply IH. }
    apply H; [exact Hq | constructor].
Qed.

Lemma retry_queue_bounded_witness :
  Invariants.retryBounded
    (fst (SyncScheduler.runDailySync
            [SyncScheduler.mkVisit "acc-1" 0 false;
             SyncScheduler.mkVisit "acc-2" 1000 true] ∅)).
Proof.
  apply (retry_queue_bounded ∅). apply map_Forall_empty.
Defined.

(** X13: what happens to one account never touches another account's
    entry in the retry queue: a failure, a success, a retry, and a daily
    run that does not visit the account all leave its entry as it was. *)
Theorem retry_queue_frame :
  forall (q : gmap string SyncScheduler.RetryInfo) (other : string),
    (forall now accountId,
       other <> accountId ->
       fst (SyncScheduler.handleSyncFailure now accountId q) !! other = q !! other) /\
    (forall now accountId active success,
       other <> accountId ->
       fst (SyncScheduler.retrySync now accountId active success q) !! other
       = q !! other) /\
    (forall accounts,
       ~ In other (map SyncScheduler.visit_accountId accounts) ->
       fst (SyncScheduler.runDailySync accounts q) !! other = q !! other).
Proof.
  intros q other. split; [| split].
  - intros now accountId Hne. now apply handleSyncFailure_other.
  - intros now accountId active success Hne. unfold SyncScheduler.retrySync.
    destruct active; [now apply afterSync_other |].
    simpl. now rewrite lookup_delete_ne.
  - intros accounts Hn. unfold SyncScheduler.runDailySync.
    assert (H : forall st,
              ~ In other (map SyncScheduler.visit_accountId accounts) ->
              fst (fold_left SyncScheduler.visit accounts st) !! other
              = fst st !! other).
    { clear Hn. induction accounts as [| v rest IH]; intros st Hn; simpl;
        [reflexivity |].
      rewrite IH by (intros Hin; apply Hn; now right).
      apply visit_other. intros ->. apply Hn. now left. }
    now rewrite (H _ Hn).
Qed.

Lemma retry_queue_frame_witness :
  fst (SyncScheduler.handleSyncFailure 0 "acc-1"
         (<["acc-2" := SyncScheduler.mkRetryInfo 2 500]> ∅)) !! "acc-2"
  = Some (SyncScheduler.mkRetryInfo 2 500).
Proof.
  rewrite (proj1 (retry_queue_frame
                    (<["acc-2" := SyncScheduler.mkRetryInfo 2 500]> ∅) "acc-2")).
  - apply lookup_insert_eq.
  - discriminate.
Defined.

(** X14: [start] is safe to call twice: on a running scheduler it
    registers no timer and changes nothing, so there is never more than
    one daily interval; [stop] only clears the interval, after which
    [start] registers the initial run and the interval again; neither
    touches the retry queue. *)
Theorem start_stop_compose :
  forall (s : SyncScheduler.Scheduler),
    (SyncScheduler.start (fst (SyncScheduler.start s))
     = (fst (SyncScheduler.start s), [])) /\
    (SyncScheduler.retryQueue (fst (SyncScheduler.start s))
     = SyncScheduler.retryQueue s) /\
    (SyncScheduler.stop (SyncScheduler.stop s) = SyncScheduler.stop s) /\
    (SyncScheduler.retryQueue (SyncScheduler.stop s) = SyncScheduler.retryQueue s) /\
    (SyncScheduler.start (SyncScheduler.stop s)
     = (SyncScheduler.mkScheduler (Some SyncScheduler.SYNC_INTERVAL_MS)
          (SyncScheduler.retryQueue s),
        [SyncScheduler.Timeout (60 * 1000) SyncScheduler.RunDailySync;
         SyncScheduler.Interval SyncScheduler.SYNC_INTERVAL_MS
           SyncScheduler.RunDailySync])).
Proof.
  intros [[period |] q]; repeat split.
Qed.

(** *** Reviewing alerts *)

Section Reviews.

Import FraudReview.

Lemma markReviewed_key fp now r :
  FraudDetection.alertKey (ar_alert (markReviewed fp now r))
  = FraudDetection.alertKey (ar_alert r).
Proof. reflexivity. Qed.

End Reviews.

(** X15: only its owner can review an alert.  [reviewAlert] throws and
    changes nothing when no alert has the given identifier and user.
    Otherwise the alert comes back reviewed, with the verdict and the time
    of the review; no alert is added or removed and no alert changes its
    transaction, type, severity or reason, so there is still at most one
    alert per transaction and type; and the alert no longer shows in the
    user's listing of unreviewed alerts. *)
Theorem reviewAlert_owner_only :
  forall (db : Db) (rows : list FraudReview.AlertRow) (now : Z)
         (alertId userId : string) (isFalsePositive : bool),
    ((forall r, In r rows -> alert_id (FraudReview.ar_alert r) = alertId ->
                alert_userId (FraudReview.ar_alert r) <> userId) ->
     FraudReview.reviewAlert rows now alertId userId isFalsePositive
     = (Throw "Fraud alert not found", rows)) /\
    (forall reviewed rows',
       FraudReview.reviewAlert rows now alertId userId isFalsePositive
       = (Ok reviewed, rows') ->
       alert_id (FraudReview.ar_alert reviewed) = alertId /\
       alert_userId (FraudReview.ar_alert reviewed) = userId /\
       alert_isReviewed (FraudReview.ar_alert reviewed) = true /\
       alert_isFalsePositive (FraudReview.ar_alert reviewed) = isFalsePositive /\
       FraudReview.ar_reviewedAt reviewed = Some now /\
       map (fun r => (alert_id (FraudReview.ar_alert r), alert_userId (FraudReview.ar_alert r),
                      alert_transactionId (FraudReview.ar_alert r), alert_alertType (FraudReview.ar_alert r),
                      alert_severity (FraudReview.ar_alert r), alert_reason (FraudReview.ar_alert r))) rows'
       = map (fun r => (alert_id (FraudReview.ar_alert r), alert_userId (FraudReview.ar_alert r),
                        alert_transactionId (FraudReview.ar_alert r), alert_alertType (FraudReview.ar_alert r),
                        alert_severity (FraudReview.ar_alert r), alert_reason (FraudReview.ar_alert r))) rows /\
       (FraudDetection.uniqueAlerts (map FraudReview.ar_alert rows) ->
        FraudDetection.uniqueAlerts (map FraudReview.ar_alert rows')) /\
       (forall x,
          In x (FraudReview.getFraudAlerts db rows' userId
                  (Some (FraudReview.mkAlertOptions (Some false) None None))) ->
          alert_id (FraudReview.ar_alert (fst x)) <> alertId)).
Proof.
  intros db rows now alertId userId isFalsePositive.
  unfold FraudReview.reviewAlert. split.
  - intros Hnone. rewrite find_all_false; [reflexivity |].
    intros r Hr. apply andb_false_iff.
    destruct (String.eqb (alert_id (FraudReview.ar_alert r)) alertId) eqn:E; [| now left].
    right. apply String.eqb_eq in E. apply String.eqb_neq. now apply Hnone.
  - intros reviewed rows'.
    destruct (find _ rows) as [alert |] eqn:Ef; [| discriminate].
    intros [= <- <-]. apply find_some in Ef. destruct Ef as [Hin Hp].
    apply andb_true_iff in Hp. destruct Hp as [Hid Hu].
    apply String.eqb_eq in Hid. apply String.eqb_eq in Hu.
    assert (Hkeys : forall (B : Type) (f : FraudAlert -> B),
              (forall fp t r, f (FraudReview.ar_alert (FraudReview.markReviewed fp t r))
                              = f (FraudReview.ar_alert r)) ->
              map (fun r => f (FraudReview.ar_alert r))
                (map (fun r => if String.eqb (alert_id (FraudReview.ar_alert r)) alertId
                               then FraudReview.markReviewed isFalsePositive now r
                               else r) rows)
              = map (fun r => f (FraudReview.ar_alert r)) rows).
    { intros B f Hf. rewrite map_map. apply map_ext. intros r.
      destruct (String.eqb (alert_id (FraudReview.ar_alert r)) alertId); [apply Hf | reflexivity]. }
    repeat split; auto.
    + apply (Hkeys _ (fun a => (alert_id a, alert_userId a, alert_transactionId a,
                                alert_alertType a, alert_severity a, alert_reason a))).
      reflexivity.
    + unfold FraudDetection.uniqueAlerts. intros Hu'.
      rewrite (map_map _ FraudReview.ar_alert), map_map.
      rewrite map_map in Hu'.
      erewrite map_ext; [exact Hu' |].
      intros r. cbv beta.
      destruct (String.eqb (alert_id (FraudReview.ar_alert r)) alertId); reflexivity.
    + intros x Hx Hxid. unfold FraudReview.getFraudAlerts in Hx.
      apply in_map_iff in Hx. destruct Hx as (r & <- & Hr). simpl in Hxid.
      apply in_rev, filter_In in Hr. destruct Hr as [Hr Hm].
      apply in_map_iff in Hr. destruct Hr as (r0 & Hr0 & _).
      unfold FraudReview.alertMatches in Hm. simpl in Hm.
      destruct (String.eqb (alert_id (FraudReview.ar_alert r0)) alertId) eqn:E.
      * subst r. simpl in Hm. rewrite !andb_false_r in Hm. discriminate.
      * subst r. apply String.eqb_neq in E. contradiction.
Qed.

(** *** Typical locations *)

Section TypicalLocations.

Import FraudDetection Counting.

Local Open Scope nat_scope.

Lemma countTotal_insert (m : gmap string nat) k v :
  countTotal (<[k := v]> m) + default 0 (m !! k) = countTotal m + v.
Proof.
  unfold countTotal. destruct (m !! k) as [old |] eqn:E; simpl.
  - rewrite <- insert_delete_eq.
    rewrite (map_to_list_insert (delete k m) k v) by apply lookup_delete_eq.
    rewrite <- (map_to_list_delete m k old E). simpl. lia.
  - rewrite (map_to_list_insert m k v E). simpl. lia.
Qed.

Lemma countLocation_total m t :
  countTotal (countLocation m t) <= countTotal m + 1.
Proof.
  unfold countLocation. destruct (hasLocation t); [| lia].
  pose proof (countTotal_insert m (keyOfTransaction t)
                (default 0 (m !! keyOfTransaction t) + 1)). lia.
Qed.

Lemma locationMap_total txs m :
  countTotal (fold_left countLocation txs m) <= countTotal m + length txs.
Proof.
  revert m. induction txs as [| t rest IH]; intros m; simpl; [lia |].
  pose proof (IH (countLocation m t)). pose proof (countLocation_total m t). lia.
Qed.

Lemma filter_sum_bound (l : list (string * nat)) (total : nat) :
  total * length (List.filter (fun kv => Nat.leb total (10 * snd kv)) l)
  <= 10 * sum_list (map snd l).
Proof.
  induction l as [| [k n] rest IH]; [simpl; lia |].
  cbn [List.filter map snd sum_list foldr].
  destruct (Nat.leb total (10 * n)) eqn:E.
  - apply Nat.leb_le in E. cbn [length]. rewrite Nat.mul_succ_r.
    unfold id in *. lia.
  - unfold id in *. lia.
Qed.

Lemma NoDup_fst_filter (p : string * nat -> bool) (l : list (string * nat)) :
  NoDup (map fst l) -> NoDup (map fst (List.filter p l)).
Proof.
  induction l as [| x rest IH]; simpl; [trivial |].
  intros H. apply NoDup_cons in H. destruct H as [Hx Hrest].
  destruct (p x); simpl; [| now apply IH].
  apply NoDup_cons. split; [| now apply IH].
  intros Hin. apply Hx. apply list_elem_of_In in Hin. apply list_elem_of_In.
  apply in_map_iff in Hin. destruct Hin as (y & Hy & Hyin).
  apply filter_In in Hyin. apply in_map_iff. exists y. tauto.
Qed.

End TypicalLocations.

(** X16: at most ten locations are typical at a time, and none is listed
    twice: each typical location accounts for at least a tenth of the
    transactions of the baseline. *)
Theorem typicalLocations_at_most_ten :
  forall (now : Z) (db : Db) (userId : string),
    (length (FraudDetection.typicalLocations
               (FraudDetection.calculateUserBaseline now db userId)) <= 10)%nat /\
    NoDup (FraudDetection.typicalLocations
             (FraudDetection.calculateUserBaseline now db userId)).
Proof.
  intros now db userId. unfold FraudDetection.calculateUserBaseline.
  destruct (List.filter (FraudDetection.inBaseline now userId) (transactions db))
    as [| t rest]; [simpl; split; [lia | constructor] |].
  set (l := t :: rest).
  assert (Hpos : (1 <= length l)%nat) by (simpl; lia).
  cbv zeta. cbn [FraudDetection.typicalLocations].
  set (m := fold_left FraudDetection.countLocation l ∅).
  split.
  - rewrite length_map.
    pose proof (filter_sum_bound (map_to_list m) (length l)) as H1.
    pose proof (locationMap_total l ∅) as H2. fold m in H2.
    unfold Counting.countTotal in H2. rewrite map_to_list_empty in H2.
    cbn [map sum_list sum_list_with] in H2. unfold id in *.
    apply (Nat.mul_le_mono_pos_l _ _ (length l)); lia.
  - apply NoDup_fst_filter. apply NoDup_fst_map_to_list.
Qed.

(** *** The import from Plaid *)

Example generateTransactionHash_sample :
  ImportSamples.coffeeHash = "acc1-4.5-2024-01-15-Corner Cafe".
Proof. reflexivity. Qed.

Example split_hash_sample :
  TransactionService.split "-"%char ImportSamples.coffeeHash
  = ["acc1"; "4.5"; "2024"; "01"; "15"; "Corner Cafe"].
Proof. reflexivity. Qed.

Example importTransactions_sample :
  let st := TransactionService.importTransactions Samples.env ImportSamples.runtime
              Samples.quietDb [] ImportSamples.batch "acc1" "u1" in
  TransactionService.im_imported st = 1%nat /\
  TransactionService.im_duplicates st = 1%nat /\
  TransactionService.plaidIds (TransactionService.im_rows st) = ["p1"].
Proof. vm_compute. auto. Qed.

Section PlaidImport.

Import TransactionService.

Variable env : Env.
Variable rt : Runtime.
Variables accountId userId : string.

Local Open Scope nat_scope.
Local Open Scope list_scope.

Lemma split_no_sep sep s :
  forall p, In p (split sep s) -> ~ In sep (list_ascii_of_string p).
Proof.
  induction s as [| c r IH]; intros p Hp.
  - destruct Hp as [<- | []]. intros [].
  - cbn [split] in Hp. destruct (Ascii.eqb c sep) eqn:E.
    + destruct Hp as [<- | Hp]; [intros [] | now apply IH].
    + apply Ascii.eqb_neq in E.
      destruct (split sep r) as [| p0 ps].
      * destruct Hp as [<- | []]. intros [H | []]. now apply E.
      * destruct Hp as [<- | Hp].
        -- intros [H | H]; [now apply E |]. apply (IH p0); [now left | exact H].
        -- apply IH. now right.
Qed.

Lemma isDateString_hyphen s :
  isDateString s = true -> In "-"%char (list_ascii_of_string s).
Proof.
  unfold isDateString.
  destruct (list_ascii_of_string s)
    as [| y1 [| y2 [| y3 [| y4 [| h1 [| m1 [| m2 [| h2 [| d1 [| d2 [| x l]]]]]]]]]]];
    try discriminate.
  intros H. repeat (apply andb_true_iff in H; destruct H as [H ?]).
  match goal with E : Ascii.eqb h1 _ = true |- _ => apply Ascii.eqb_eq in E; subst h1 end.
  simpl. tauto.
Qed.

Lemma findByHash_false rows user hash : findByHash rt rows user hash = false.
Proof.
  unfold findByHash.
  destruct (length (split "-" hash) <? 4) eqn:El; [reflexivity |].
  apply Nat.ltb_ge in El.
  destruct (isDateString (nth 2 (split "-" hash) "")) eqn:Ed; [| reflexivity].
  exfalso. apply isDateString_hyphen in Ed.
  apply (split_no_sep "-" hash (nth 2 (split "-" hash) "")); [| exact Ed].
  apply nth_In. lia.
Qed.

Lemma find_existsb {A} (f : A -> bool) l :
  existsb f l = match find f l with Some _ => true | None => false end.
Proof.
  induction l as [| x rest IH]; simpl; [reflexivity |].
  destruct (f x); [reflexivity | exact IH].
Qed.

Lemma importOne_stored st p :
  stored (im_rows st) p = true ->
  importOne env rt accountId userId st p = countDuplicate st.
Proof.
  unfold stored, importOne. rewrite find_existsb.
  destruct (find _ (im_rows st)); [reflexivity | discriminate].
Qed.

Lemma importOne_unimportable st p :
  stored (im_rows st) p = false -> unimportable rt accountId userId p = true ->
  importOne env rt accountId userId st p = st.
Proof.
  unfold stored, unimportable, importOne. rewrite find_existsb.
  destruct (find _ (im_rows st)); [discriminate |]. intros _.
  destruct (newDate rt (ptx_date p)) as [date |]; [| reflexivity].
  cbv zeta. rewrite findByHash_false.
  destruct (validateCreateInput _); [discriminate | reflexivity].
Qed.

Lemma importOne_new st p :
  stored (im_rows st) p = false -> unimportable rt accountId userId p = false ->
  exists date,
    newDate rt (ptx_date p) = Some date /\
    validateCreateInput (transactionData accountId userId date p) = [] /\
    let data := transactionData accountId userId date p in
    let c := Categorization.categorizeTransaction env (im_db st) userId
               (Categorization.mkTxCat (in_merchantName data) (in_description data)
                  (plaidCategoryOf p)) in
    let created := createdRow (genId env (length (im_rows st))) data (fst c) in
    importOne env rt accountId userId st p
    = mkImport (snd c) (im_rows st ++ [created]) (S (im_imported st))
               (im_duplicates st) (im_analyses st ++ [created]).
Proof.
  unfold stored, unimportable, importOne. rewrite find_existsb.
  destruct (find _ (im_rows st)); [discriminate |]. intros _.
  destruct (newDate rt (ptx_date p)) as [date |]; [| discriminate].
  cbv zeta. rewrite findByHash_false.
  destruct (validateCreateInput _) eqn:Ev; [| discriminate]. intros _.
  exists date. split; [reflexivity |]. split; [exact Ev |].
  cbv zeta.
  destruct (Categorization.categorizeTransaction _ _ _ _) as [c db']. reflexivity.
Qed.

Lemma categorizeTransaction_keeps db u t :
  let db' := snd (Categorization.categorizeTransaction env db u t) in
  categorizationRules db' = categorizationRules db /\
  transactions db' = transactions db /\
  budgets db' = budgets db /\
  fraudAlerts db' = fraudAlerts db.
Proof.
  unfold Categorization.categorizeTransaction.
  destruct (Categorization.matchUserRules env db u t); [simpl; tauto |].
  destruct (Categorization.matchMerchantPattern db t); [simpl; tauto |].
  destruct (Categorization.matchPlaidCategory db t); [simpl; tauto |].
  destruct (match openai env with
            | Some _ => Categorization.categorizeWithAI env db u t
            | None => None
            end); [simpl; tauto |].
  unfold Categorization.getDefaultCategory.
  destruct (Categorization.findSystemCategory (categories db) "Uncategorized");
    simpl; tauto.
Qed.

(** The three ways a turn of the loop can end. *)
Lemma importOne_cases st p :
  (stored (im_rows st) p = true /\
   importOne env rt accountId userId st p = countDuplicate st)
  \/ (stored (im_rows st) p = false /\ unimportable rt accountId userId p = true /\
      importOne env rt accountId userId st p = st)
  \/ (stored (im_rows st) p = false /\ unimportable rt accountId userId p = false /\
      exists date created db',
        newDate rt (ptx_date p) = Some date /\
        validateCreateInput (transactionData accountId userId date p) = [] /\
        row_plaidTransactionId created = ptx_transaction_id p /\
        row_accountId created = accountId /\
        row_isFraudulent created = false /\
        tx_userId (row_tx created) = userId /\
        tx_amount (row_tx created) = ptx_amount p /\
        tx_date (row_tx created) = date /\
        tx_description (row_tx created) = ptx_name p /\
        tx_isPending (row_tx created) = ptx_pending p /\
        categorizationRules db' = categorizationRules (im_db st) /\
        transactions db' = transactions (im_db st) /\
        budgets db' = budgets (im_db st) /\
        fraudAlerts db' = fraudAlerts (im_db st) /\
        importOne env rt accountId userId st p
        = mkImport db' (im_rows st ++ [created]) (S (im_imported st))
                   (im_duplicates st) (im_analyses st ++ [created])).
Proof.
  destruct (stored (im_rows st) p) eqn:Es.
  - left. split; [reflexivity | now apply importOne_stored].
  - right. destruct (unimportable rt accountId userId p) eqn:Eu.
    + left. repeat split. now apply importOne_unimportable.
    + right. destruct (importOne_new st p Es Eu) as (date & Hd & Hv & Heq).
      cbv zeta in Heq. split; [reflexivity |]. split; [reflexivity |].
      pose proof (categorizeTransaction_keeps (im_db st) userId
                    (Categorization.mkTxCat
                       (in_merchantName (transactionData accountId userId date p))
                       (in_description (transactionData accountId userId date p))
                       (plaidCategoryOf p))) as Hk.
      cbv zeta in Hk. destruct Hk as (K1 & K2 & K3 & K4).
      match type of Heq with
      | _ = mkImport ?d (_ ++ [?c]) _ _ _ => exists date, c, d
      end.
      repeat (split; [first [eassumption | reflexivity] |]). exact Heq.
Qed.

Lemma stored_app rows more p :
  stored (rows ++ more) p = stored rows p || stored more p.
Proof. unfold stored. apply existsb_app. Qed.

Lemma stored_In rows p :
  stored rows p = true <-> In (ptx_transaction_id p) (plaidIds rows).
Proof.
  unfold stored, plaidIds. rewrite existsb_exists, in_map_iff. split.
  - intros (r & Hr & He). apply String.eqb_eq in He. now exists r.
  - intros (r & He & Hr). exists r. split; [exact Hr | now apply String.eqb_eq].
Qed.

Local Notation "'importAll'" := (fold_left (importOne env rt accountId userId)).

Lemma importAll_accounting l :
  forall st,
    exists created,
      im_rows (importAll l st) = im_rows st ++ created /\
      im_analyses (importAll l st) = im_analyses st ++ created /\
      im_imported (importAll l st) = im_imported st + length created /\
      im_imported (importAll l st) + im_duplicates (importAll l st)
      <= im_imported st + im_duplicates st + length l /\
      (forall r, In r created ->
         tx_userId (row_tx r) = userId /\ row_accountId r = accountId /\
         row_isFraudulent r = false /\
         exists p, In p l /\
           unimportable rt accountId userId p = false /\
           row_plaidTransactionId r = ptx_transaction_id p /\
           tx_amount (row_tx r) = ptx_amount p /\
           tx_description (row_tx r) = ptx_name p /\
           tx_isPending (row_tx r) = ptx_pending p /\
           newDate rt (ptx_date p) = Some (tx_date (row_tx r))) /\
      categorizationRules (im_db (importAll l st)) = categorizationRules (im_db st) /\
      transactions (im_db (importAll l st)) = transactions (im_db st) /\
      budgets (im_db (importAll l st)) = budgets (im_db st) /\
      fraudAlerts (im_db (importAll l st)) = fraudAlerts (im_db st).
Proof.
  induction l as [| p rest IH]; intros st.
  - exists []. simpl. rewrite !app_nil_r, Nat.add_0_r.
    repeat split; auto; try lia.
  - cbn [fold_left].
    destruct (IH (importOne env rt accountId userId st p))
      as (created & Hr & Ha & Hi & Hle & Hc & D1 & D2 & D3 & D4).
    destruct (importOne_cases st p)
      as [[Hs Heq] | [(Hs & Hu & Heq) | (Hs & Hu & date & c & db' & Hd & Hv & Hid & Hacc
                                         & Hf & Hus & Ham & Hda & Hde & Hp
                                         & K1 & K2 & K3 & K4 & Heq)]];
      rewrite Heq in *; cbn [countDuplicate im_rows im_analyses im_imported
                               im_duplicates im_db] in *.
    + exists created.
      split; [exact Hr |]. split; [exact Ha |]. split; [exact Hi |].
      split; [cbn [length]; lia |]. split; [| repeat split; assumption].
      intros r Hin. destruct (Hc r Hin) as (H1 & H2 & H3 & q & Hq & H4).
      split; [exact H1 |]. split; [exact H2 |]. split; [exact H3 |].
      exists q. split; [now right | exact H4].
    + exists created.
      split; [exact Hr |]. split; [exact Ha |]. split; [exact Hi |].
      split; [cbn [length]; lia |]. split; [| repeat split; assumption].
      intros r Hin. destruct (Hc r Hin) as (H1 & H2 & H3 & q & Hq & H4).
      split; [exact H1 |]. split; [exact H2 |]. split; [exact H3 |].
      exists q. split; [now right | exact H4].
    + exists (c :: created). rewrite <- !app_assoc in *. cbn [app length] in *.
      split; [exact Hr |]. split; [exact Ha |]. split; [lia |]. split; [lia |].
      split; [| repeat split; congruence].
      intros r [<- | Hin].
      * split; [exact Hus |]. split; [exact Hacc |]. split; [exact Hf |].
        exists p. split; [now left |]. split; [exact Hu |]. split; [exact Hid |].
        split; [exact Ham |]. split; [exact Hde |]. split; [exact Hp |].
        now rewrite Hda.
      * destruct (Hc r Hin) as (H1 & H2 & H3 & q & Hq & H4).
        split; [exact H1 |]. split; [exact H2 |]. split; [exact H3 |].
        exists q. split; [now right | exact H4].
Qed.

Lemma importAll_unique l :
  forall st, NoDup (plaidIds (im_rows st)) ->
             NoDup (plaidIds (im_rows (importAll l st))).
Proof.
  induction l as [| p rest IH]; intros st Hst; [exact Hst |].
  cbn [fold_left]. apply IH.
  destruct (importOne_cases st p)
    as [[Hs Heq] | [(Hs & Hu & Heq) | (Hs & Hu & date & c & db' & Hd & Hv & Hid & _
                                       & _ & _ & _ & _ & _ & _ & _ & _ & _ & _ & Heq)]];
    rewrite Heq; cbn [countDuplicate im_rows]; try exact Hst.
  unfold plaidIds. rewrite map_app. apply NoDup_app.
  split; [exact Hst |]. split; [| apply NoDup_singleton].
  intros x Hx Hx'. apply list_elem_of_In in Hx, Hx'.
  destruct Hx' as [<- | []]. rewrite Hid in Hx.
  apply stored_In in Hx. congruence.
Qed.

Lemma importAll_duplicates l :
  forall st, NoDup (map ptx_transaction_id l) ->
    im_duplicates (importAll l st)
    = im_duplicates st + length (List.filter (stored (im_rows st)) l).
Proof.
  induction l as [| p rest IH]; intros st Hl; [simpl; lia |].
  apply NoDup_cons in Hl. destruct Hl as [Hp Hrest].
  cbn [fold_left List.filter]. rewrite (IH _ Hrest).
  destruct (importOne_cases st p)
    as [[Hs Heq] | [(Hs & Hu & Heq) | (Hs & Hu & date & c & db' & Hd & Hv & Hid & _
                                       & _ & _ & _ & _ & _ & _ & _ & _ & _ & _ & Heq)]];
    rewrite Heq, Hs; cbn [countDuplicate im_rows im_duplicates length]; try lia.
  f_equal. f_equal. apply filter_ext_in. intros q Hq.
  rewrite stored_app. unfold stored at 2. cbn [existsb]. rewrite Hid, orb_false_r.
  destruct (String.eqb (ptx_transaction_id p) (ptx_transaction_id q)) eqn:E;
    [| now rewrite orb_false_r].
  exfalso. apply String.eqb_eq in E. apply Hp. apply list_elem_of_In.
  rewrite E. now apply in_map.
Qed.

(** After the import every transaction of the batch is either stored or
    one the import always passes over. *)
Lemma importAll_settles l :
  forall st p, In p l ->
    stored (im_rows (importAll l st)) p = true
    \/ unimportable rt accountId userId p = true.
Proof.
  induction l as [| q rest IH]; intros st p Hp; [destruct Hp |].
  cbn [fold_left]. destruct Hp as [<- | Hp]; [| now apply IH].
  destruct (importAll_accounting rest (importOne env rt accountId userId st q))
    as (created & Hr & _). rewrite Hr, stored_app.
  destruct (importOne_cases st q)
    as [[Hs Heq] | [(Hs & Hu & Heq) | (Hs & Hu & date & c & db' & Hd & Hv & Hid & _
                                       & _ & _ & _ & _ & _ & _ & _ & _ & _ & _ & Heq)]];
    rewrite Heq; cbn [countDuplicate im_rows].
  - left. now rewrite Hs.
  - now right.
  - left. rewrite stored_app. unfold stored at 2. cbn [existsb].
    rewrite Hid, String.eqb_refl. now rewrite orb_true_r.
Qed.

(** A batch of transactions that are all stored or passed over changes
    nothing but the count of duplicates. *)
Lemma importAll_settled l :
  forall st,
    (forall p, In p l -> stored (im_rows st) p = true
                         \/ unimportable rt accountId userId p = true) ->
    importAll l st
    = mkImport (im_db st) (im_rows st) (im_imported st)
        (im_duplicates st + length (List.filter (stored (im_rows st)) l))
        (im_analyses st).
Proof.
  induction l as [| p rest IH]; intros st Hall.
  - simpl. rewrite Nat.add_0_r. now destruct st.
  - cbn [fold_left List.filter].
    destruct (stored (im_rows st) p) eqn:Es.
    + rewrite (importOne_stored st p Es). rewrite IH.
      * cbn [countDuplicate im_db im_rows im_imported im_duplicates im_analyses length].
        f_equal. lia.
      * intros q Hq. cbn [countDuplicate im_rows]. apply Hall. now right.
    + destruct (Hall p (or_introl eq_refl)) as [Hs | Hu]; [congruence |].
      rewrite (importOne_unimportable st p Es Hu). apply IH.
      intros q Hq. apply Hall. now right.
Qed.

Lemma importAll_counted l :
  forall st,
    im_imported (importAll l st) + im_duplicates (importAll l st)
    <= im_imported st + im_duplicates st
       + length (List.filter (stored (im_rows (importAll l st))) l).
Proof.
  induction l as [| p rest IH]; intros st; [simpl; lia |].
  cbn [fold_left List.filter].
  pose proof (IH (importOne env rt accountId userId st p)) as Hle.
  destruct (importAll_accounting rest (importOne env rt accountId userId st p))
    as (created & Hr & _).
  set (st' := importAll rest (importOne env rt accountId userId st p)) in *.
  destruct (importOne_cases st p)
    as [[Hs Heq] | [(Hs & Hu & Heq) | (Hs & Hu & date & c & db' & Hd & Hv & Hid & _
                                       & _ & _ & _ & _ & _ & _ & _ & _ & _ & _ & Heq)]];
    rewrite Heq in Hle, Hr;
    cbn [countDuplicate im_rows im_imported im_duplicates] in Hle, Hr.
  - assert (Hp : stored (im_rows st') p = true)
      by (rewrite Hr, stored_app, Hs; reflexivity).
    rewrite Hp. cbn [length]. lia.
  - destruct (stored (im_rows st') p); cbn [length]; lia.
  - assert (Hp : stored (im_rows st') p = true).
    { rewrite Hr, !stored_app. unfold stored at 2. cbn [existsb].
      rewrite Hid, String.eqb_refl. now rewrite !orb_true_r. }
    rewrite Hp. cbn [length]. lia.
Qed.

Lemma importAll_counted_exactly l :
  forall st, NoDup (map ptx_transaction_id l) ->
    im_imported (importAll l st) + im_duplicates (importAll l st)
    = im_imported st + im_duplicates st
      + length (List.filter (stored (im_rows (importAll l st))) l).
Proof.
  induction l as [| p rest IH]; intros st Hl; [simpl; lia |].
  apply NoDup_cons in Hl. destruct Hl as [Hp Hrest].
  cbn [fold_left List.filter].
  pose proof (IH (importOne env rt accountId userId st p) Hrest) as Hle.
  destruct (importAll_accounting rest (importOne env rt accountId userId st p))
    as (created & Hr & _ & _ & _ & Hc & _).
  set (st' := importAll rest (importOne env rt accountId userId st p)) in *.
  assert (Hnew : stored created p = false).
  { destruct (stored created p) eqn:E; [| reflexivity]. exfalso.
    apply stored_In in E. unfold plaidIds in E. apply in_map_iff in E.
    destruct E as (r & Hrid & Hin).
    destruct (Hc r Hin) as (_ & _ & _ & q & Hq & _ & Hqid & _).
    apply Hp. apply list_elem_of_In. rewrite <- Hrid, Hqid. now apply in_map. }
  destruct (importOne_cases st p)
    as [[Hs Heq] | [(Hs & Hu & Heq) | (Hs & Hu & date & c & db' & Hd & Hv & Hid & _
                                       & _ & _ & _ & _ & _ & _ & _ & _ & _ & _ & Heq)]];
    rewrite Heq in Hle, Hr;
    cbn [countDuplicate im_rows im_imported im_duplicates] in Hle, Hr.
  - assert (Hp' : stored (im_rows st') p = true)
      by (rewrite Hr, stored_app, Hs; reflexivity).
    rewrite Hp'. cbn [length]. lia.
  - assert (Hp' : stored (im_rows st') p = false)
      by (rewrite Hr, stored_app, Hs, Hnew; reflexivity).
    rewrite Hp'. lia.
  - assert (Hp' : stored (im_rows st') p = true).
    { rewrite Hr, !stored_app. unfold stored at 2. cbn [existsb].
      rewrite Hid, String.eqb_refl. now rewrite !orb_true_r. }
    rewrite Hp'. cbn [length]. lia.
Qed.

End PlaidImport.



(** X19: [importTransactions] never stores a Plaid identifier twice: when
    the identifiers of the table are distinct before an import they are
    distinct after it, even if the batch repeats an identifier. *)
Theorem importTransactions_unique_ids :
  forall (env : Env) (rt : TransactionService.Runtime) (db : Db)
         (rows : list TransactionService.TransactionRow)
         (plaidTransactions : list TransactionService.PlaidTransaction)
         (accountId userId : string),
    NoDup (TransactionService.plaidIds rows) ->
    NoDup (TransactionService.plaidIds
             (TransactionService.im_rows
                (TransactionService.importTransactions env rt db rows
                   plaidTransactions accountId userId))).
Proof.
  intros env rt db rows l accountId userId Hrows.
  unfold TransactionService.importTransactions.
  now apply importAll_unique.
Qed.

Lemma importTransactions_unique_ids_witness :
  NoDup (TransactionService.plaidIds
           (TransactionService.im_rows
              (TransactionService.importTransactions Samples.env
                 ImportSamples.runtime Samples.quietDb [] ImportSamples.batch
                 "acc1" "u1"))).
Proof.
  apply (importTransactions_unique_ids Samples.env ImportSamples.runtime
           Samples.quietDb [] ImportSamples.batch "acc1" "u1").
  simpl. constructor.
Defined.

(** X20: importing a batch a second time imports nothing.  Run on the
    database and the table the first import left, the second import of the
    same batch creates no row, queues no analysis and leaves the database
    as it is; it counts as duplicates at least the transactions the first
    import counted, as imported or as duplicates, and exactly those when no
    identifier occurs twice in the batch. *)
Theorem importTransactions_again :
  forall (env : Env) (rt : TransactionService.Runtime) (db : Db)
         (rows : list TransactionService.TransactionRow)
         (plaidTransactions : list TransactionService.PlaidTransaction)
         (accountId userId : string),
    let first := TransactionService.importTransactions env rt db rows
                   plaidTransactions accountId userId in
    let second := TransactionService.importTransactions env rt
                    (TransactionService.im_db first) (TransactionService.im_rows first)
                    plaidTransactions accountId userId in
    TransactionService.im_imported second = 0%nat /\
    TransactionService.im_rows second = TransactionService.im_rows first /\
    TransactionService.im_db second = TransactionService.im_db first /\
    TransactionService.im_analyses second = [] /\
    (TransactionService.im_imported first + TransactionService.im_duplicates first
     <= TransactionService.im_duplicates second)%nat /\
    (NoDup (map TransactionService.ptx_transaction_id plaidTransactions) ->
     TransactionService.im_duplicates second
     = (TransactionService.im_imported first
        + TransactionService.im_duplicates first)%nat).
Proof.
  intros env rt db rows l accountId userId first second.
  assert (Hsecond :
            second
            = TransactionService.mkImport (TransactionService.im_db first)
                (TransactionService.im_rows first) 0
                (length (List.filter
                           (TransactionService.stored (TransactionService.im_rows first))
                           l)) []).
  { subst second. unfold TransactionService.importTransactions at 1.
    rewrite (importAll_settled env rt accountId userId); [reflexivity |].
    intros p Hp. cbn [TransactionService.im_rows]. subst first.
    unfold TransactionService.importTransactions. now apply importAll_settles. }
  rewrite Hsecond.
  cbn [TransactionService.im_rows TransactionService.im_analyses
       TransactionService.im_imported TransactionService.im_duplicates
       TransactionService.im_db].
  repeat (split; [reflexivity |]).
  subst first. unfold TransactionService.importTransactions. split.
  - pose proof (importAll_counted env rt accountId userId l
                  (TransactionService.mkImport db rows 0 0 [])) as H.
    cbn [TransactionService.im_imported TransactionService.im_duplicates] in H.
    exact H.
  - intros Hl.
    pose proof (importAll_counted_exactly env rt accountId userId l
                  (TransactionService.mkImport db rows 0 0 []) Hl) as H.
    cbn [TransactionService.im_imported TransactionService.im_duplicates] in H.
    symmetry. exact H.
Qed.

(** *** The paginated listing *)

Section Listing.

Import TransactionService TransactionListing.

Local Open Scope nat_scope.
Local Open Scope list_scope.

Lemma insertByDate_perm r l : Permutation (insertByDate r l) (r :: l).
Proof.
  induction l as [| x xs IH]; simpl; [reflexivity |].
  destruct (tx_date (row_tx r) <? tx_date (row_tx x))%Z; [| reflexivity].
  rewrite IH. apply perm_swap.
Qed.

Lemma orderByDateDesc_perm l : Permutation (orderByDateDesc l) l.
Proof.
  induction l as [| x xs IH]; simpl; [reflexivity |].
  rewrite insertByDate_perm. now constructor.
Qed.

Lemma insertByDate_sorted r l :
  StronglySorted byDateDesc l -> StronglySorted byDateDesc (insertByDate r l).
Proof.
  induction l as [| x xs IH]; intros Hs; simpl.
  - constructor; constructor.
  - inversion Hs as [| ? ? Hxs Hall]; subst.
    destruct (tx_date (row_tx r) <? tx_date (row_tx x))%Z eqn:E.
    + constructor; [now apply IH |].
      apply Z.ltb_lt in E.
      apply (Permutation_Forall (x := r :: xs));
        [symmetry; apply insertByDate_perm |].
      constructor; [unfold byDateDesc; lia | exact Hall].
    + apply Z.ltb_ge in E. constructor; [exact Hs |].
      constructor; [exact E |].
      eapply List.Forall_impl; [| exact Hall].
      intros y Hy. unfold byDateDesc in *. lia.
Qed.

Lemma orderByDateDesc_sorted l : StronglySorted byDateDesc (orderByDateDesc l).
Proof.
  induction l as [| x xs IH]; simpl; [constructor |].
  now apply insertByDate_sorted.
Qed.

Lemma StronglySorted_skipn {A} (R : A -> A -> Prop) n l :
  StronglySorted R l -> StronglySorted R (skipn n l).
Proof.
  revert l. induction n as [| n IH]; intros l Hs; [exact Hs |].
  destruct l as [| x xs]; [constructor |]. simpl. apply IH.
  now inversion Hs.
Qed.

Lemma StronglySorted_firstn {A} (R : A -> A -> Prop) n l :
  StronglySorted R l -> StronglySorted R (firstn n l).
Proof.
  revert l. induction n as [| n IH]; intros l Hs; [constructor |].
  destruct l as [| x xs]; [constructor |]. simpl.
  inversion Hs as [| ? ? Hxs Hall]; subst. constructor; [now apply IH |].
  rewrite List.Forall_forall in *. intros y Hy. apply Hall.
  rewrite <- (firstn_skipn n xs). apply in_or_app. now left.
Qed.

Lemma firstn_plus {A} a b (l : list A) :
  firstn (a + b) l = firstn a l ++ firstn b (skipn a l).
Proof.
  revert l. induction a as [| a IH]; intros l; [reflexivity |].
  destruct l as [| x xs]; simpl; [now rewrite firstn_nil | now rewrite IH].
Qed.

(** The first [n] pages of [limit] rows, put end to end. *)
Lemma pages_concat {A} limit n (l : list A) :
  concat (map (fun k => firstn limit (skipn ((k - 1) * limit) l)) (seq 1 n))
  = firstn (n * limit) l.
Proof.
  induction n as [| n IH]; [reflexivity |].
  rewrite seq_S, map_app, concat_app, IH. cbn [map concat Nat.add].
  rewrite app_nil_r. replace (S n - 1) with n by lia.
  replace (S n * limit) with (n * limit + limit) by lia.
  now rewrite firstn_plus.
Qed.

Lemma ceilQuotient_covers total limit :
  (0 < limit)%Z -> (total <= ceilQuotient total limit * limit)%Z.
Proof.
  intros Hl. unfold ceilQuotient.
  pose proof (Z.div_mod (- total) limit) as Hd.
  pose proof (Z.mod_pos_bound (- total) limit Hl) as Hm. nia.
Qed.

Lemma ceilQuotient_least total limit :
  (0 < limit)%Z -> ((ceilQuotient total limit - 1) * limit < total)%Z.
Proof.
  intros Hl. unfold ceilQuotient.
  pose proof (Z.div_mod (- total) limit) as Hd.
  pose proof (Z.mod_pos_bound (- total) limit Hl) as Hm. nia.
Qed.

Lemma numberOr_pos n d :
  (0 < d)%Z -> (forall v, n = Some v -> (0 <= v)%Z) -> (0 < numberOr n d)%Z.
Proof.
  intros Hd Hn. unfold numberOr. destruct n as [v |]; [| exact Hd].
  specialize (Hn v eq_refl). destruct (v =? 0)%Z eqn:E; [exact Hd |].
  apply Z.eqb_neq in E. lia.
Qed.

Lemma matchesFilters_withPage userId page filters r :
  matchesFilters userId (withPage page filters) r = matchesFilters userId filters r.
Proof. reflexivity. Qed.

Lemma length_window skip take (l : list TransactionRow) :
  (0 <= skip)%Z -> (0 <= take)%Z ->
  Z.of_nat (length (window skip take l))
  = Z.min take (Z.max 0 (Z.of_nat (length l) - skip)).
Proof.
  intros Hs Ht. unfold window. rewrite length_firstn, length_skipn. lia.
Qed.

Lemma in_window skip take (l : list TransactionRow) r :
  In r (window skip take l) -> In r l.
Proof.
  unfold window. intros Hr.
  rewrite <- (firstn_skipn (Z.to_nat skip) l). apply in_or_app. right.
  rewrite <- (firstn_skipn (Z.to_nat take) (skipn _ l)). apply in_or_app. now left.
Qed.

(** With no two rows of the same date there is one order with no row
    before a later one. *)
Lemma sorted_unique (l1 l2 : list TransactionRow) :
  Permutation l1 l2 ->
  StronglySorted byDateDesc l1 -> StronglySorted byDateDesc l2 ->
  NoDup (map (fun r => tx_date (row_tx r)) l1) ->
  l1 = l2.
Proof.
  revert l2. induction l1 as [| x xs IH]; intros l2 Hp H1 H2 Hd.
  - now apply Permutation_nil in Hp.
  - destruct l2 as [| y ys];
      [apply Permutation_sym, Permutation_nil in Hp; discriminate |].
    inversion H1 as [| ? ? Hxs Hx]; subst.
    inversion H2 as [| ? ? Hys Hy]; subst.
    cbn [map] in Hd. apply NoDup_cons in Hd. destruct Hd as [Hnew Hd].
    assert (Hxy : x = y).
    { assert (Hin2 : In x (y :: ys))
        by (apply (Permutation_in _ Hp); now left).
      assert (Hin1 : In y (x :: xs))
        by (apply (Permutation_in _ (Permutation_sym Hp)); now left).
      destruct Hin2 as [-> | Hin2]; [reflexivity |].
      destruct Hin1 as [-> | Hin1]; [reflexivity |].
      rewrite List.Forall_forall in Hx, Hy.
      pose proof (Hx y Hin1) as Hle1. pose proof (Hy x Hin2) as Hle2.
      unfold byDateDesc in Hle1, Hle2.
      exfalso. apply Hnew. apply list_elem_of_In.
      replace (tx_date (row_tx x)) with (tx_date (row_tx y)) by lia.
      apply (in_map (fun r => tx_date (row_tx r))). exact Hin1. }
    subst y. f_equal. apply IH; auto.
    now apply Permutation_cons_inv in Hp.
Qed.

Lemma inStorageOrder_windowed : windowed inStorageOrder.
Proof.
  intros matching skip take transactions Hs Ht. unfold inStorageOrder.
  destruct ((skip <? 0)%Z || (take <? 0)%Z); [discriminate |].
  intros [= <-]. exists (orderByDateDesc matching).
  split; [apply orderByDateDesc_perm |].
  split; [apply orderByDateDesc_sorted | reflexivity].
Qed.

End Listing.

(** X21: a page of [getTransactions].  Asked for a page and a page size
    that are not negative (and small enough for the offset and the count
    to be numbers without rounding), of a database whose answer to such a
    query is the window of the matching rows in an order with no row
    before a later one, [getTransactions] returns exactly when the query
    is answered.  The page number and the page size it returns are at
    least 1 (1 and 50 unless given); the page holds the rows of that order
    from position [(page - 1) * limit] on, [limit] of them or as many as
    are left, and none beyond the last page; every listed row is a stored
    transaction of the user that passes the filters, listed with the name
    of its category; [totalPages] is the least number of pages of [limit]
    rows that hold [total] rows. *)
Theorem getTransactions_page :
  forall (findMany : TransactionListing.FindMany) (db : Db)
         (rows : list TransactionService.TransactionRow)
         (userId : string) (filters : TransactionListing.TransactionFilters),
    TransactionListing.windowed findMany ->
    (forall p, TransactionListing.f_page filters = Some p -> 0 <= p) ->
    (forall l, TransactionListing.f_limit filters = Some l -> 0 <= l) ->
    (TransactionListing.numberOr (TransactionListing.f_page filters) 1 - 1)
    * TransactionListing.numberOr (TransactionListing.f_limit filters) 50
    <= TransactionListing.MAX_SAFE_INTEGER ->
    Z.of_nat (length rows) <= TransactionListing.MAX_SAFE_INTEGER ->
    let matching :=
      List.filter (TransactionListing.matchesFilters userId filters) rows in
    ((exists r, TransactionListing.getTransactions findMany db rows userId filters
                = Ok r)
     <-> (exists transactions,
            findMany matching
              ((TransactionListing.numberOr (TransactionListing.f_page filters) 1 - 1)
               * TransactionListing.numberOr (TransactionListing.f_limit filters) 50)
              (TransactionListing.numberOr (TransactionListing.f_limit filters) 50)
            = Ok transactions)) /\
    (forall r,
       TransactionListing.getTransactions findMany db rows userId filters = Ok r ->
       1 <= TransactionListing.pg_page r /\
       1 <= TransactionListing.pg_limit r /\
       TransactionListing.pg_total r = Z.of_nat (length matching) /\
       (exists ordered,
          Permutation ordered matching /\
          StronglySorted TransactionListing.byDateDesc ordered /\
          map TransactionListing.listed_row (TransactionListing.pg_transactions r)
          = TransactionListing.window
              ((TransactionListing.pg_page r - 1) * TransactionListing.pg_limit r)
              (TransactionListing.pg_limit r) ordered) /\
       Z.of_nat (length (TransactionListing.pg_transactions r))
       = Z.min (TransactionListing.pg_limit r)
           (Z.max 0 (TransactionListing.pg_total r
                     - (TransactionListing.pg_page r - 1)
                       * TransactionListing.pg_limit r)) /\
       TransactionListing.pg_total r
       <= TransactionListing.pg_totalPages r * TransactionListing.pg_limit r /\
       (TransactionListing.pg_totalPages r - 1) * TransactionListing.pg_limit r
       < TransactionListing.pg_total r /\
       (TransactionListing.pg_totalPages r < TransactionListing.pg_page r ->
        TransactionListing.pg_transactions r = []) /\
       (forall x, In x (TransactionListing.pg_transactions r) ->
          In (TransactionListing.listed_row x) rows /\
          tx_userId (TransactionService.row_tx (TransactionListing.listed_row x))
          = userId /\
          TransactionListing.matchesFilters userId filters
            (TransactionListing.listed_row x) = true /\
          TransactionListing.listed_categoryName x
          = TransactionListing.categoryNameOf db (TransactionListing.listed_row x)) /\
       StronglySorted TransactionListing.byDateDesc
         (map TransactionListing.listed_row (TransactionListing.pg_transactions r))).
Proof.
  intros findMany db rows userId filters Hdb Hp Hl _ _ matching.
  unfold TransactionListing.getTransactions. cbv zeta. fold matching.
  set (page := TransactionListing.numberOr (TransactionListing.f_page filters) 1).
  set (limit := TransactionListing.numberOr (TransactionListing.f_limit filters) 50).
  assert (Hpage : 0 < page) by (apply numberOr_pos; [lia | exact Hp]).
  assert (Hlimit : 0 < limit) by (apply numberOr_pos; [lia | exact Hl]).
  assert (Hskip : 0 <= (page - 1) * limit) by nia.
  split.
  { destruct (findMany matching ((page - 1) * limit) limit) as [ts | m].
    - split; intros _; eexists; reflexivity.
    - split; intros [x Hx]; discriminate. }
  intros r.
  destruct (findMany matching ((page - 1) * limit) limit) as [ts | m] eqn:Eq;
    [| discriminate].
  intros [= <-].
  cbn [TransactionListing.pg_page TransactionListing.pg_limit
       TransactionListing.pg_total TransactionListing.pg_totalPages
       TransactionListing.pg_transactions].
  destruct (Hdb matching ((page - 1) * limit) limit ts Hskip (Z.lt_le_incl _ _ Hlimit) Eq)
    as (ordered & Hperm & Hsorted & ->).
  assert (Hrows : map TransactionListing.listed_row
                    (map (fun r0 => TransactionListing.mkListed r0
                                      (TransactionListing.categoryNameOf db r0))
                         (TransactionListing.window ((page - 1) * limit) limit ordered))
                  = TransactionListing.window ((page - 1) * limit) limit ordered).
  { rewrite map_map. cbn [TransactionListing.listed_row]. apply map_id. }
  pose proof (Permutation_length Hperm) as Hlen.
  split; [lia |]. split; [lia |]. split; [reflexivity |].
  split.
  { exists ordered. split; [exact Hperm |]. split; [exact Hsorted | exact Hrows]. }
  split.
  { rewrite length_map, length_window by lia. rewrite Hlen. reflexivity. }
  split; [now apply ceilQuotient_covers |].
  split; [now apply ceilQuotient_least |].
  split.
  { intros Hlast.
    pose proof (ceilQuotient_covers (Z.of_nat (length matching)) limit Hlimit) as Hc.
    unfold TransactionListing.window.
    rewrite skipn_all2; [now rewrite firstn_nil |]. nia. }
  split.
  { intros x Hx. apply in_map_iff in Hx. destruct Hx as (row & <- & Hrow).
    cbn [TransactionListing.listed_row TransactionListing.listed_categoryName].
    apply in_window in Hrow. apply (Permutation_in _ Hperm) in Hrow.
    apply filter_In in Hrow. destruct Hrow as [Hin Hm].
    split; [exact Hin |]. split; [| split; [exact Hm | reflexivity]].
    unfold TransactionListing.matchesFilters in Hm.
    repeat (apply andb_true_iff in Hm; destruct Hm as [Hm _]).
    now apply String.eqb_eq in Hm. }
  rewrite Hrows. unfold TransactionListing.window.
  apply StronglySorted_firstn, StronglySorted_skipn. exact Hsorted.
Qed.

Lemma getTransactions_page_witness :
  exists r,
    TransactionListing.getTransactions TransactionListing.inStorageOrder
      Samples.quietDb TransactionListing.threeRows "u1"
      TransactionListing.twoToAPage = Ok r /\
    TransactionListing.pg_totalPages r = 2.
Proof.
  destruct (getTransactions_page TransactionListing.inStorageOrder
              Samples.quietDb TransactionListing.threeRows "u1"
              TransactionListing.twoToAPage)
    as [[_ Hreturns] _].
  - apply inStorageOrder_windowed.
  - discriminate.
  - intros l [= <-]. lia.
  - vm_compute. discriminate.
  - vm_compute. discriminate.
  - destruct Hreturns as [r Hr]; [eexists; reflexivity |].
    exists r. split; [exact Hr |].
    vm_compute in Hr. injection Hr as <-. reflexivity.
Defined.

(** X22: the pages of [getTransactions] cover the listing.  When no two
    of the transactions of the user that pass the filters have the same
    date, the page size asked for is not negative and the database
    answers the pages 1 to [totalPages] as in X21, those pages, put end
    to end, give these transactions, each once, latest first; and every
    page reports the same [totalPages]. *)
Theorem getTransactions_pages_cover :
  forall (findMany : TransactionListing.FindMany) (db : Db)
         (rows : list TransactionService.TransactionRow)
         (userId : string) (filters : TransactionListing.TransactionFilters)
         (answer : Z -> TransactionListing.PaginatedTransactions),
    TransactionListing.windowed findMany ->
    (forall l, TransactionListing.f_limit filters = Some l -> 0 <= l) ->
    Z.of_nat (length rows) <= TransactionListing.MAX_SAFE_INTEGER ->
    let matching :=
      List.filter (TransactionListing.matchesFilters userId filters) rows in
    let totalPages :=
      TransactionListing.ceilQuotient (Z.of_nat (length matching))
        (TransactionListing.numberOr (TransactionListing.f_limit filters) 50) in
    NoDup (map (fun r => tx_date (TransactionService.row_tx r)) matching) ->
    (forall page, 1 <= page <= totalPages ->
       TransactionListing.getTransactions findMany db rows userId
         (TransactionListing.withPage page filters) = Ok (answer page)) ->
    let all :=
      concat (map (fun k => map TransactionListing.listed_row
                              (TransactionListing.pg_transactions
                                 (answer (Z.of_nat k))))
                  (seq 1 (Z.to_nat totalPages))) in
    (forall page, 1 <= page <= totalPages ->
       TransactionListing.pg_totalPages (answer page) = totalPages) /\
    Permutation all matching /\
    StronglySorted TransactionListing.byDateDesc all.
Proof.
  intros findMany db rows userId filters answer Hdb Hl _ matching totalPages
    Hdates Hanswers all.
  set (limit := TransactionListing.numberOr (TransactionListing.f_limit filters) 50)
    in *.
  assert (Hlimit : 0 < limit) by (apply numberOr_pos; [lia | exact Hl]).
  set (L := TransactionListing.orderByDateDesc matching).
  assert (HLperm : Permutation L matching) by apply orderByDateDesc_perm.
  assert (HLsorted : StronglySorted TransactionListing.byDateDesc L)
    by apply orderByDateDesc_sorted.
  assert (HLdates : NoDup (map (fun r => tx_date (TransactionService.row_tx r)) L)).
  { rewrite (Permutation_map _ HLperm). exact Hdates. }
  assert (Hpage : forall page, 1 <= page <= totalPages ->
            TransactionListing.pg_totalPages (answer page) = totalPages /\
            map TransactionListing.listed_row
                (TransactionListing.pg_transactions (answer page))
            = TransactionListing.window ((page - 1) * limit) limit L).
  { intros page Hrange. pose proof (Hanswers page Hrange) as Ha.
    unfold TransactionListing.getTransactions in Ha. cbv zeta in Ha.
    change (TransactionListing.f_limit (TransactionListing.withPage page filters))
      with (TransactionListing.f_limit filters) in Ha.
    change (TransactionListing.f_page (TransactionListing.withPage page filters))
      with (Some page) in Ha.
    change (List.filter
              (TransactionListing.matchesFilters userId
                 (TransactionListing.withPage page filters)) rows)
      with matching in Ha.
    fold limit in Ha.
    assert (Hn : TransactionListing.numberOr (Some page) 1 = page).
    { unfold TransactionListing.numberOr.
      destruct (page =? 0) eqn:E; [apply Z.eqb_eq in E; lia | reflexivity]. }
    rewrite Hn in Ha.
    destruct (findMany matching ((page - 1) * limit) limit) as [ts | m] eqn:Eq;
      [| discriminate].
    injection Ha as <-.
    cbn [TransactionListing.pg_totalPages TransactionListing.pg_transactions].
    split; [reflexivity |].
    destruct (Hdb matching ((page - 1) * limit) limit ts) as (ordered & Hp & Hs & ->);
      [nia | lia | exact Eq |].
    rewrite map_map. cbn [TransactionListing.listed_row]. rewrite map_id.
    f_equal. symmetry. apply sorted_unique; auto.
    now rewrite Hp. }
  assert (Hall : all = L).
  { subst all.
    rewrite (map_ext_in _
               (fun k => firstn (Z.to_nat limit)
                           (skipn ((k - 1) * Z.to_nat limit) L))).
    - rewrite pages_concat. apply firstn_all2.
      pose proof (ceilQuotient_covers (Z.of_nat (length matching)) limit Hlimit) as Hc.
      fold totalPages in Hc. rewrite (Permutation_length HLperm).
      assert (0 <= totalPages) by nia.
      apply Nat2Z.inj_le. rewrite Nat2Z.inj_mul, !Z2Nat.id by lia. exact Hc.
    - intros k Hk. apply in_seq in Hk.
      destruct (Hpage (Z.of_nat k)) as [_ ->]; [lia |].
      unfold TransactionListing.window. f_equal. f_equal.
      rewrite Z2Nat.inj_mul by lia. f_equal. lia. }
  split; [intros page Hrange; now apply Hpage |].
  rewrite Hall. split; [exact HLperm | exact HLsorted].
Qed.

Lemma getTransactions_pages_cover_witness :
  Permutation
    (concat (map (fun k => map TransactionListing.listed_row
                             (TransactionListing.pg_transactions
                                (TransactionListing.threeRowsPage (Z.of_nat k))))
                 (seq 1 2)))
    TransactionListing.threeRows.
Proof.
  apply (getTransactions_pages_cover TransactionListing.inStorageOrder
           Samples.quietDb TransactionListing.threeRows "u1"
           TransactionListing.twoToAPage TransactionListing.threeRowsPage).
  - apply inStorageOrder_windowed.
  - intros l [= <-]. lia.
  - vm_compute. discriminate.
  - vm_compute.
    repeat (apply NoDup_cons;
            split; [rewrite list_elem_of_In; simpl; intuition discriminate |]).
    apply NoDup_nil_2.
  - intros page Hrange. change (1 <= page <= 2) in Hrange.
    assert (Hpage : page = 1 \/ page = 2) by lia.
    destruct Hpage as [-> | ->]; reflexivity.
Defined.

(** *** The cache of the reports *)

Example serve_sample :
  ReportRoutes.serve ∅ 0%nat CacheSamples.requests = [0; 0; 1]%nat.
Proof. vm_compute. reflexivity. Qed.

Section ReportCache.

Import ReportRoutes.

Variables St T : Type.

Local Open Scope list_scope.

Lemma serve_fresh (requests : list (Request St T)) :
  forall cache s seen,
    cacheFrom seen cache ->
    StronglySorted inOrder requests ->
    (forall a b, In a seen -> In b requests -> req_now a <= req_now b) ->
    Forall2 (fresh (seen ++ requests)) requests (serve cache s requests).
Proof.
  induction requests as [| r rest IH]; intros cache s seen Hc Hs Hle;
    [constructor |].
  inversion Hs as [| ? ? Hrest Hr]; subst.
  assert (Hnext : forall a b, In a (seen ++ [r]) -> In b rest ->
                              req_now a <= req_now b).
  { intros a b Ha Hb. apply in_app_or in Ha. destruct Ha as [Ha | [<- | []]].
    - apply Hle; [exact Ha | now right].
    - rewrite List.Forall_forall in Hr. now apply Hr. }
  assert (Hgrow : forall cache', cacheFrom seen cache' -> cacheFrom (seen ++ [r]) cache').
  { intros cache' H k e Hk. destruct (H k e Hk) as (r' & s0 & Hin & Hrest').
    exists r', s0. split; [apply in_or_app; now left | exact Hrest']. }
  assert (Hmiss : forall s0,
            cacheFrom (seen ++ [r])
              (<[req_key r := mkEntry (fst (req_execute r s0)) (req_now r)]> cache)).
  { intros s0 k e Hk. destruct (decide (req_key r = k)) as [<- | Hne].
    - rewrite lookup_insert_eq in Hk. injection Hk as <-.
      exists r, s0. split; [apply in_or_app; right; now left |]. now split.
    - rewrite lookup_insert_ne in Hk by exact Hne.
      now apply (Hgrow cache Hc). }
  assert (Hself : forall s0, fresh (seen ++ r :: rest) r (fst (req_execute r s0))).
  { intros s0. exists r, s0. split; [apply in_or_app; right; now left |].
    split; [reflexivity |]. split; [unfold CACHE_TTL; lia | reflexivity]. }
  cbn [serve]. unfold getCachedOrExecute.
  destruct (cache !! req_key r) as [cached |] eqn:Ek.
  - destruct (req_now r - entry_timestamp cached <? CACHE_TTL) eqn:Et.
    + constructor.
      * destruct (Hc _ _ Ek) as (r' & s0 & Hin & Hkey & Hts & Hd).
        apply Z.ltb_lt in Et. exists r', s0.
        split; [apply in_or_app; now left |]. split; [exact Hkey |].
        split; [| exact Hd]. split; [lia |]. apply Hle; [exact Hin | now left].
      * replace (seen ++ r :: rest) with ((seen ++ [r]) ++ rest)
          by now rewrite <- app_assoc.
        apply IH; auto.
    + destruct (req_execute r s) as [data s'] eqn:Ee. constructor.
      * replace data with (fst (req_execute r s)) by now rewrite Ee. apply Hself.
      * replace (seen ++ r :: rest) with ((seen ++ [r]) ++ rest)
          by now rewrite <- app_assoc.
        apply IH; auto.
        replace data with (fst (req_execute r s)) by now rewrite Ee. apply Hmiss.
  - destruct (req_execute r s) as [data s'] eqn:Ee. constructor.
    + replace data with (fst (req_execute r s)) by now rewrite Ee. apply Hself.
    + replace (seen ++ r :: rest) with ((seen ++ [r]) ++ rest)
        by now rewrite <- app_assoc.
      apply IH; auto.
      replace data with (fst (req_execute r s)) by now rewrite Ee. apply Hmiss.
Qed.

End ReportCache.



(** *** The spending report *)

Example spendingReport_sample :
  map (fun c => (ReportingService.sp_categoryId c,
                 ReportingService.sp_transactionCount c))
      (ReportingService.getSpendingByCategory None Samples.quietDb
         ReportSamples.rows "u1" ReportSamples.options)
  = [("c2", 1%nat); ("c1", 2%nat); ("uncategorized", 1%nat)].
Proof. vm_compute. reflexivity. Qed.

Section Spending.

Import TransactionService ReportingService.

Local Open Scope list_scope.
Local Open Scope Q_scope.

Variable db : Db.

Lemma Qlt_bool_true a b : BudgetService.Qlt_bool a b = true <-> a < b.
Proof.
  unfold BudgetService.Qlt_bool. rewrite negb_true_iff.
  split.
  - intros H. apply Qnot_le_lt. intros Hle. apply Qle_bool_iff in Hle. congruence.
  - intros H. destruct (Qle_bool b a) eqn:E; [| reflexivity].
    apply Qle_bool_iff in E. exfalso. now apply (Qlt_not_le a b).
Qed.

Lemma Qlt_bool_false a b : BudgetService.Qlt_bool a b = false <-> b <= a.
Proof.
  unfold BudgetService.Qlt_bool. rewrite negb_false_iff. apply Qle_bool_iff.
Qed.

Lemma sumQ_app l k : sumQ (l ++ k) == sumQ l + sumQ k.
Proof.
  induction l as [| x l IH]; simpl; [ring |]. rewrite IH. ring.
Qed.

Lemma sumQ_perm l k : Permutation l k -> sumQ l == sumQ k.
Proof.
  induction 1; simpl.
  - reflexivity.
  - now rewrite IHPermutation.
  - ring.
  - now rewrite IHPermutation1.
Qed.

Lemma sumQ_nonneg l : List.Forall (fun x => 0 <= x) l -> 0 <= sumQ l.
Proof.
  induction 1 as [| x l Hx _ IH]; simpl; [apply Qle_refl |].
  replace 0 with (0 + 0) by reflexivity. now apply Qplus_le_compat.
Qed.

Lemma sumQ_member l x :
  List.Forall (fun y => 0 <= y) l -> In x l -> x <= sumQ l.
Proof.
  induction 1 as [| y l Hy Hall IH]; intros Hin; [destruct Hin |].
  simpl. destruct Hin as [-> | Hin].
  - rewrite <- (Qplus_0_r x) at 1. apply Qplus_le_compat; [apply Qle_refl |].
    now apply sumQ_nonneg.
  - rewrite <- (Qplus_0_l x). apply Qplus_le_compat; [exact Hy | now apply IH].
Qed.

Lemma totalOf_from txs a :
  fold_left (fun sum tx => sum + spent tx) txs a == a + sumQ (map spent txs).
Proof.
  revert a. induction txs as [| x rest IH]; intros a; simpl; [ring |].
  rewrite IH. ring.
Qed.

Lemma totalOf_sum txs : totalOf txs == sumQ (map spent txs).
Proof. unfold totalOf. rewrite totalOf_from. ring. Qed.

Lemma spent_nonneg r : 0 <= spent r.
Proof. apply Qabs_nonneg. Qed.

Lemma addToCategory_total id name a m :
  sumQ (map ct_totalAmount (addToCategory id name a m))
  == sumQ (map ct_totalAmount m) + a.
Proof.
  induction m as [| c rest IH]; simpl; [ring |].
  destruct (String.eqb (ct_categoryId c) id); simpl; [ring |].
  rewrite IH. ring.
Qed.

Lemma addToCategory_count id name a m :
  list_sum (map ct_transactionCount (addToCategory id name a m))
  = (list_sum (map ct_transactionCount m) + 1)%nat.
Proof.
  induction m as [| c rest IH]; simpl; [reflexivity |].
  destruct (String.eqb (ct_categoryId c) id); simpl; [lia |].
  rewrite IH. lia.
Qed.

Lemma addToCategory_keys id name a m k :
  In k (map ct_categoryId (addToCategory id name a m))
  <-> k = id \/ In k (map ct_categoryId m).
Proof.
  induction m as [| c rest IH]; simpl; [intuition congruence |].
  destruct (String.eqb (ct_categoryId c) id) eqn:E; simpl.
  - apply String.eqb_eq in E. intuition congruence.
  - rewrite IH. tauto.
Qed.

Lemma addToCategory_NoDup id name a m :
  NoDup (map ct_categoryId m) ->
  NoDup (map ct_categoryId (addToCategory id name a m)).
Proof.
  induction m as [| c rest IH]; simpl; intros Hm.
  - apply NoDup_singleton.
  - apply NoDup_cons in Hm. destruct Hm as [Hc Hrest].
    destruct (String.eqb (ct_categoryId c) id) eqn:E; simpl.
    + apply NoDup_cons. now split.
    + apply NoDup_cons. split; [| now apply IH].
      intros Hin. apply list_elem_of_In, addToCategory_keys in Hin.
      destruct Hin as [Heq | Hin].
      * rewrite Heq, String.eqb_refl in E. discriminate.
      * apply Hc. now apply list_elem_of_In.
Qed.

Lemma addToCategory_sound id name a m :
  0 <= a ->
  List.Forall (fun c => (1 <= ct_transactionCount c)%nat /\ 0 <= ct_totalAmount c) m ->
  List.Forall (fun c => (1 <= ct_transactionCount c)%nat /\ 0 <= ct_totalAmount c)
              (addToCategory id name a m).
Proof.
  intros Ha. induction 1 as [| c rest [Hc Ht] Hall IH]; simpl.
  - constructor; [| constructor]. simpl. split; [lia |].
    rewrite Qplus_0_l. exact Ha.
  - destruct (String.eqb (ct_categoryId c) id).
    + constructor; [| exact Hall]. simpl. split; [lia |].
      replace 0 with (0 + 0) by reflexivity. now apply Qplus_le_compat.
    + constructor; [now split | exact IH].
Qed.

Local Notation "'fill'" := (fold_left (fun m tx => addToCategory (categoryKey tx)
                                          (categoryLabel db tx) (spent tx) m)).

Lemma categoryMap_from txs :
  forall m,
    sumQ (map ct_totalAmount (fill txs m))
    == sumQ (map ct_totalAmount m) + sumQ (map spent txs)
    /\ list_sum (map ct_transactionCount (fill txs m))
       = (list_sum (map ct_transactionCount m) + length txs)%nat
    /\ (NoDup (map ct_categoryId m) -> NoDup (map ct_categoryId (fill txs m)))
    /\ (forall k, In k (map ct_categoryId (fill txs m))
                  <-> In k (map ct_categoryId m)
                      \/ exists r, In r txs /\ categoryKey r = k)
    /\ (List.Forall (fun c => (1 <= ct_transactionCount c)%nat /\ 0 <= ct_totalAmount c) m ->
        List.Forall (fun c => (1 <= ct_transactionCount c)%nat /\ 0 <= ct_totalAmount c)
                    (fill txs m)).
Proof.
  induction txs as [| x rest IH]; intros m.
  - simpl. split; [ring |]. split; [lia |]. split; [trivial |].
    split; [| trivial]. intros k. split; [now left |].
    intros [H | (r & [] & _)]. exact H.
  - cbn [fold_left].
    destruct (IH (addToCategory (categoryKey x) (categoryLabel db x) (spent x) m))
      as (H1 & H2 & H3 & H4 & H5).
    split; [rewrite H1, addToCategory_total; simpl; ring |].
    split; [rewrite H2, addToCategory_count; simpl; lia |].
    split; [intros Hm; now apply H3, addToCategory_NoDup |].
    split.
    + intros k. rewrite H4, addToCategory_keys. split.
      * intros [[-> | H] | (r & Hr & Hk)].
        -- right. exists x. split; [now left | reflexivity].
        -- now left.
        -- right. exists r. split; [now right | exact Hk].
      * intros [H | (r & [<- | Hr] & Hk)].
        -- left. now right.
        -- left. left. now symmetry.
        -- right. now exists r.
    + intros Hm. apply H5, addToCategory_sound; [apply spent_nonneg | exact Hm].
Qed.

Lemma insertByTotal_perm x l : Permutation (insertByTotal x l) (x :: l).
Proof.
  induction l as [| y ys IH]; simpl; [reflexivity |].
  destruct (BudgetService.Qlt_bool (sp_totalAmount x) (sp_totalAmount y));
    [| reflexivity].
  rewrite IH. apply perm_swap.
Qed.

Lemma sortByTotalDesc_perm l : Permutation (sortByTotalDesc l) l.
Proof.
  induction l as [| x xs IH]; simpl; [reflexivity |].
  rewrite insertByTotal_perm. now constructor.
Qed.

Lemma insertByTotal_sorted x l :
  StronglySorted byTotalDesc l -> StronglySorted byTotalDesc (insertByTotal x l).
Proof.
  induction l as [| y ys IH]; intros Hs; simpl.
  - constructor; constructor.
  - inversion Hs as [| ? ? Hys Hall]; subst.
    destruct (BudgetService.Qlt_bool (sp_totalAmount x) (sp_totalAmount y)) eqn:E.
    + constructor; [now apply IH |].
      apply Qlt_bool_true in E.
      apply (Permutation_Forall (x := x :: ys));
        [symmetry; apply insertByTotal_perm |].
      constructor; [unfold byTotalDesc; now apply Qlt_le_weak | exact Hall].
    + apply Qlt_bool_false in E. constructor; [exact Hs |].
      constructor; [exact E |].
      eapply List.Forall_impl; [| exact Hall].
      intros z Hz. unfold byTotalDesc in *. now apply (Qle_trans _ (sp_totalAmount y)).
Qed.

Lemma sortByTotalDesc_sorted l : StronglySorted byTotalDesc (sortByTotalDesc l).
Proof.
  induction l as [| x xs IH]; simpl; [constructor |].
  now apply insertByTotal_sorted.
Qed.

Lemma list_sum_perm l k : Permutation l k -> list_sum l = list_sum k.
Proof. induction 1; simpl; lia. Qed.

Lemma NoDup_perm (l k : list string) : Permutation l k -> NoDup l -> NoDup k.
Proof.
  induction 1; intros Hl.
  - exact Hl.
  - apply NoDup_cons in Hl. destruct Hl as [Hx Hl]. apply NoDup_cons.
    split; [| now apply IHPermutation].
    intros Hin. apply Hx. apply list_elem_of_In in Hin. apply list_elem_of_In.
    apply (Permutation_in x (Permutation_sym H)). exact Hin.
  - apply NoDup_cons in Hl. destruct Hl as [Hy Hl].
    apply NoDup_cons in Hl. destruct Hl as [Hx Hl].
    apply NoDup_cons. split.
    + intros Hin. apply list_elem_of_In in Hin. destruct Hin as [-> | Hin].
      * apply Hy. apply list_elem_of_In. now left.
      * apply Hx. now apply list_elem_of_In.
    + apply NoDup_cons. split; [| exact Hl].
      intros Hin. apply Hy. apply list_elem_of_In. right.
      now apply list_elem_of_In.
  - auto.
Qed.

Lemma sumQ_scaled {A} (g : A -> Q) (t : Q) l :
  sumQ (map (fun x => g x / t * 100) l) == sumQ (map g l) / t * 100.
Proof.
  induction l as [| x l IH]; simpl.
  - unfold Qdiv. ring.
  - rewrite IH. unfold Qdiv. ring.
Qed.

(** The rows of the report before they are sorted. *)
Lemma spendingReport_perm rows userId options :
  let transactions :=
    List.filter (inPeriod userId (opt_startDate options) (opt_endDate options)
                          (opt_accountId options)) rows in
  Permutation
    (spendingReport db rows userId options)
    (map (fun cat =>
            mkSpending (ct_categoryId cat) (ct_categoryName cat) (ct_totalAmount cat)
              (ct_transactionCount cat)
              (if BudgetService.Qlt_bool 0 (totalOf transactions)
               then ct_totalAmount cat / totalOf transactions * 100
               else 0))
         (categoryMap db transactions)).
Proof. intros transactions. unfold spendingReport. apply sortByTotalDesc_perm. Qed.

End Spending.

(** X24: the spending report accounts for every transaction once.  With
    no cached report, [getSpendingByCategory] returns one row per category
    of the user's posted transactions of the period, no category twice,
    largest total first; every row counts at least one transaction and has
    a total that is not negative; the counts add up to the number of
    transactions. *)
Theorem getSpendingByCategory_totals :
  forall (db : Db) (rows : list TransactionService.TransactionRow)
         (userId : string) (options : ReportingService.SpendingAnalysisOptions),
    let transactions :=
      List.filter (ReportingService.inPeriod userId
                     (ReportingService.opt_startDate options)
                     (ReportingService.opt_endDate options)
                     (ReportingService.opt_accountId options)) rows in
    let report :=
      ReportingService.getSpendingByCategory None db rows userId options in
    list_sum (map ReportingService.sp_transactionCount report) = length transactions /\
    NoDup (map ReportingService.sp_categoryId report) /\
    StronglySorted ReportingService.byTotalDesc report /\
    (forall c, In c report ->
       (1 <= ReportingService.sp_transactionCount c)%nat /\
       (0 <= ReportingService.sp_totalAmount c)%Q /\
       exists r, In r transactions /\
                 ReportingService.categoryKey r = ReportingService.sp_categoryId c) /\
    (forall r, In r transactions ->
       exists c, In c report /\
                 ReportingService.sp_categoryId c = ReportingService.categoryKey r).
Proof.
  intros db rows userId options transactions report.
  pose proof (spendingReport_perm db rows userId options) as Hperm.
  cbv zeta in Hperm. fold transactions in Hperm.
  change (ReportingService.spendingReport db rows userId options) with report in Hperm.
  set (row := fun cat => ReportingService.mkSpending _ _ _ _ _) in Hperm.
  destruct (categoryMap_from db transactions []) as (H1 & H2 & H3 & H4 & H5).
  fold (ReportingService.categoryMap db transactions) in H1, H2, H3, H4, H5.
  set (cm := ReportingService.categoryMap db transactions) in *.
  assert (Hin : forall c, In c report <-> exists cat, In cat cm /\ c = row cat).
  { intros c. split.
    - intros Hc. apply (Permutation_in _ Hperm) in Hc. apply in_map_iff in Hc.
      destruct Hc as (cat & <- & Hcat). now exists cat.
    - intros (cat & Hcat & ->). apply (Permutation_in _ (Permutation_sym Hperm)).
      now apply in_map. }
  split.
  { rewrite (list_sum_perm _ _
               (Permutation_map ReportingService.sp_transactionCount Hperm)).
    rewrite map_map.
    transitivity (list_sum (map ReportingService.ct_transactionCount cm));
      [reflexivity | rewrite H2; reflexivity]. }
  split.
  { apply (NoDup_perm _ _
             (Permutation_sym (Permutation_map ReportingService.sp_categoryId Hperm))).
    rewrite map_map. cbn [row ReportingService.sp_categoryId].
    apply H3. apply NoDup_nil_2. }
  split; [apply sortByTotalDesc_sorted |].
  split.
  - intros c Hc. apply Hin in Hc. destruct Hc as (cat & Hcat & ->).
    cbn [row ReportingService.sp_transactionCount ReportingService.sp_totalAmount
         ReportingService.sp_categoryId].
    assert (Hs := H5 (List.Forall_nil _)). rewrite List.Forall_forall in Hs.
    destruct (Hs cat Hcat) as [Hn Ht]. split; [exact Hn |]. split; [exact Ht |].
    destruct (proj1 (H4 (ReportingService.ct_categoryId cat)))
      as [[] | Hr]; [now apply in_map | exact Hr].
  - intros r Hr.
    assert (Hk : In (ReportingService.categoryKey r)
                    (map ReportingService.ct_categoryId cm)).
    { apply H4. right. now exists r. }
    apply in_map_iff in Hk. destruct Hk as (cat & Hid & Hcat).
    exists (row cat). split; [apply Hin; now exists cat | exact Hid].
Qed.


(** *** Trends *)

Section Trends.

Import TransactionService ReportingService.

Local Open Scope Q_scope.

(** The direction of a change in percent. *)
Lemma trend_of_change (x : Q) :
  let t := if BudgetService.Qlt_bool (Qabs x) 5 then stable
           else if BudgetService.Qlt_bool 0 x then up else down in
  (t = up <-> 5 <= x) /\ (t = down <-> x <= -5) /\ (t = stable <-> -5 < x /\ x < 5).
Proof.
  cbv zeta.
  destruct (BudgetService.Qlt_bool (Qabs x) 5) eqn:Ea.
  - apply Qlt_bool_true, Qabs_Qlt_condition in Ea. destruct Ea as [Hl Hu].
    split; [split; [discriminate | intros H; lra] |].
    split; [split; [discriminate | intros H; lra] |].
    split; [intros _; now split | reflexivity].
  - apply Qlt_bool_false in Ea.
    destruct (BudgetService.Qlt_bool 0 x) eqn:Ep.
    + apply Qlt_bool_true in Ep.
      rewrite (Qabs_pos x) in Ea by lra.
      split; [split; [intros _; exact Ea | reflexivity] |].
      split; [split; [discriminate | intros H; lra] |].
      split; [discriminate | intros [H1 H2]; lra].
    + apply Qlt_bool_false in Ep.
      rewrite (Qabs_neg x) in Ea by exact Ep.
      split; [split; [discriminate | intros H; lra] |].
      split; [split; [intros _; lra | reflexivity] |].
      split; [discriminate | intros [H1 H2]; lra].
Qed.

Lemma div_le (p a b : Q) : 0 < p -> a <= b -> a / p <= b / p.
Proof.
  intros Hp Hab. unfold Qdiv. apply Qmult_le_compat_r; [exact Hab |].
  apply Qlt_le_weak, Qinv_lt_0_compat, Hp.
Qed.

Variable round : Q -> Q.

Hypothesis Hround : roundsToNearest round.

(** A rounded number has the sign of the number and differs from it by
    at most the fraction 2^-53. *)
Lemma round_range (x : Q) :
  (0 <= x ->
   (1 - unitRoundoff) * x <= round x /\ round x <= (1 + unitRoundoff) * x) /\
  (x <= 0 ->
   (1 + unitRoundoff) * x <= round x /\ round x <= (1 - unitRoundoff) * x).
Proof.
  pose proof (Hround x) as H. apply Qabs_Qle_condition in H. destruct H as [H1 H2].
  let u := eval vm_compute in unitRoundoff in change unitRoundoff with u in *.
  split; intros Hx.
  - rewrite (Qabs_pos x Hx) in H1, H2. split; lra.
  - rewrite (Qabs_neg x Hx) in H1, H2. split; lra.
Qed.

Lemma round_nonneg (x : Q) : 0 <= x -> 0 <= round x.
Proof.
  intros Hx. destruct (round_range x) as [H _]. destruct (H Hx) as [H1 _].
  let u := eval vm_compute in unitRoundoff in change unitRoundoff with u in *.
  lra.
Qed.

Lemma totalSpendingOf_from (txs : list TransactionRow) :
  forall sum, 0 <= sum ->
    0 <= fold_left
           (fun sum tx => round (sum + Qabs (round (tx_amount (row_tx tx)))))
           txs sum.
Proof.
  induction txs as [| x rest IH]; intros sum Hsum; [exact Hsum |].
  cbn [fold_left]. apply IH. apply round_nonneg.
  pose proof (Qabs_nonneg (round (tx_amount (row_tx x)))). lra.
Qed.

Lemma totalSpendingOf_nonneg (txs : list TransactionRow) :
  0 <= totalSpendingOf round txs.
Proof. apply totalSpendingOf_from. apply Qle_refl. Qed.

(** The percentage the service computes for a change that is not a
    decrease: the exact percentage, up to three roundings. *)
Lemma change_when_more (c p : Q) :
  0 < p -> 0 <= c - p ->
  0 <= (c - p) / p /\
  (1 - unitRoundoff) * ((1 - unitRoundoff) * ((1 - unitRoundoff)
     * (100 * ((c - p) / p))))
  <= round (round (round (c - p) / p) * 100) /\
  round (round (round (c - p) / p) * 100)
  <= (1 + unitRoundoff) * ((1 + unitRoundoff) * ((1 + unitRoundoff)
        * (100 * ((c - p) / p)))).
Proof.
  intros Hp Hd.
  destruct (round_range (c - p)) as [Hz _]. destruct (Hz Hd) as [Hz1 Hz2].
  assert (Hr : 0 <= (c - p) / p).
  { assert (E : 0 / p == 0) by (unfold Qdiv; ring).
    rewrite <- E. now apply div_le. }
  assert (Hw1 : (1 - unitRoundoff) * ((c - p) / p) <= round (c - p) / p).
  { assert (E : (1 - unitRoundoff) * ((c - p) / p)
                == ((1 - unitRoundoff) * (c - p)) / p) by (unfold Qdiv; ring).
    rewrite E. now apply div_le. }
  assert (Hw2 : round (c - p) / p <= (1 + unitRoundoff) * ((c - p) / p)).
  { assert (E : (1 + unitRoundoff) * ((c - p) / p)
                == ((1 + unitRoundoff) * (c - p)) / p) by (unfold Qdiv; ring).
    rewrite E. now apply div_le. }
  set (r := (c - p) / p) in *. set (w := round (c - p) / p) in *.
  clearbody r w. clear Hz Hz1 Hz2.
  let u := eval vm_compute in unitRoundoff in change unitRoundoff with u in *.
  assert (Hw : 0 <= w) by lra.
  destruct (round_range w) as [Hy _]. destruct (Hy Hw) as [Hy1 Hy2].
  let u := eval vm_compute in unitRoundoff in change unitRoundoff with u in *.
  assert (Hv : 0 <= round w * 100) by lra.
  destruct (round_range (round w * 100)) as [Hc _]. destruct (Hc Hv) as [Hc1 Hc2].
  let u := eval vm_compute in unitRoundoff in change unitRoundoff with u in *.
  set (y := round w) in *. set (x := round (y * 100)) in *. clearbody y x.
  split; [exact Hr |]. split; lra.
Qed.

(** The same for a change that is not an increase. *)
Lemma change_when_less (c p : Q) :
  0 < p -> c - p <= 0 ->
  (c - p) / p <= 0 /\
  (1 + unitRoundoff) * ((1 + unitRoundoff) * ((1 + unitRoundoff)
     * (100 * ((c - p) / p))))
  <= round (round (round (c - p) / p) * 100) /\
  round (round (round (c - p) / p) * 100)
  <= (1 - unitRoundoff) * ((1 - unitRoundoff) * ((1 - unitRoundoff)
        * (100 * ((c - p) / p)))).
Proof.
  intros Hp Hd.
  destruct (round_range (c - p)) as [_ Hz]. destruct (Hz Hd) as [Hz1 Hz2].
  assert (Hr : (c - p) / p <= 0).
  { assert (E : 0 / p == 0) by (unfold Qdiv; ring).
    rewrite <- E. now apply div_le. }
  assert (Hw1 : (1 + unitRoundoff) * ((c - p) / p) <= round (c - p) / p).
  { assert (E : (1 + unitRoundoff) * ((c - p) / p)
                == ((1 + unitRoundoff) * (c - p)) / p) by (unfold Qdiv; ring).
    rewrite E. now apply div_le. }
  assert (Hw2 : round (c - p) / p <= (1 - unitRoundoff) * ((c - p) / p)).
  { assert (E : (1 - unitRoundoff) * ((c - p) / p)
                == ((1 - unitRoundoff) * (c - p)) / p) by (unfold Qdiv; ring).
    rewrite E. now apply div_le. }
  set (r := (c - p) / p) in *. set (w := round (c - p) / p) in *.
  clearbody r w. clear Hz Hz1 Hz2.
  let u := eval vm_compute in unitRoundoff in change unitRoundoff with u in *.
  assert (Hw : w <= 0) by lra.
  destruct (round_range w) as [_ Hy]. destruct (Hy Hw) as [Hy1 Hy2].
  let u := eval vm_compute in unitRoundoff in change unitRoundoff with u in *.
  assert (Hv : round w * 100 <= 0) by lra.
  destruct (round_range (round w * 100)) as [_ Hc]. destruct (Hc Hv) as [Hc1 Hc2].
  let u := eval vm_compute in unitRoundoff in change unitRoundoff with u in *.
  set (y := round w) in *. set (x := round (y * 100)) in *. clearbody y x.
  split; [exact Hr |]. split; lra.
Qed.

(** What the rounded percentage says of the two totals. *)
Lemma change_direction (c p : Q) :
  0 < p ->
  let x := round (round (round (c - p) / p) * 100) in
  (5 <= x -> p < c) /\
  (x <= -5 -> c < p) /\
  (c == p -> -5 < x /\ x < 5) /\
  ((100 + 5 * (1 + tolerance)) * p <= 100 * c -> 5 <= x) /\
  (100 * c <= (100 - 5 * (1 + tolerance)) * p -> x <= -5) /\
  ((100 - 5 * (1 - tolerance)) * p <= 100 * c ->
   100 * c <= (100 + 5 * (1 - tolerance)) * p -> -5 < x /\ x < 5).
Proof.
  intros Hp x.
  pose proof (change_when_more c p Hp) as Hmore.
  pose proof (change_when_less c p Hp) as Hless.
  fold x in Hmore, Hless.
  assert (Hlow : forall k, k * p <= c - p -> k <= (c - p) / p)
    by (intros k Hk; now apply Qle_shift_div_l).
  assert (Hhigh : forall k, c - p <= k * p -> (c - p) / p <= k)
    by (intros k Hk; now apply Qle_shift_div_r).
  set (r := (c - p) / p) in *. clearbody x r.
  let u := eval vm_compute in unitRoundoff in change unitRoundoff with u in *.
  let e := eval vm_compute in tolerance in change tolerance with e in *.
  split; [| split; [| split; [| split; [| split]]]].
  - intros Hx. destruct (Qlt_le_dec p c) as [H | H]; [exact H |].
    destruct Hless as (Hr & _ & H2); lra.
  - intros Hx. destruct (Qlt_le_dec c p) as [H | H]; [exact H |].
    destruct Hmore as (Hr & H1 & _); lra.
  - intros Hcp.
    destruct Hmore as (Hr1 & H1 & H2); [lra |].
    destruct Hless as (Hr2 & H3 & H4); [lra |]. split; lra.
  - intros Hc. destruct Hmore as (Hr & H1 & _); [lra |].
    assert (Hk : (5 * (1 + (1 # 2251799813685248)) * (1 # 100)) <= r)
      by (apply Hlow; lra).
    lra.
  - intros Hc. destruct Hless as (Hr & _ & H2); [lra |].
    assert (Hk : r <= - (5 * (1 + (1 # 2251799813685248)) * (1 # 100)))
      by (apply Hhigh; lra).
    lra.
  - intros Hc1 Hc2.
    assert (Hk1 : - (5 * (1 - (1 # 2251799813685248)) * (1 # 100)) <= r)
      by (apply Hlow; lra).
    assert (Hk2 : r <= 5 * (1 - (1 # 2251799813685248)) * (1 # 100))
      by (apply Hhigh; lra).
    destruct (Qlt_le_dec c p) as [H | H].
    + destruct Hless as (Hr & H1 & H2); [lra |]. split; lra.
    + destruct Hmore as (Hr & H1 & H2); [lra |]. split; lra.
Qed.

End Trends.

(** In doubles, 3.15 is not 105% of 3.00: the service computes a change
    just below 5 percent and answers [stable]; and so for 2.85. *)
Example change_from_300_to_315 :
  let change (c p : Q) :=
    PrimFloat.mul
      (PrimFloat.div
         (PrimFloat.sub (BudgetNumbers.toNumber c) (BudgetNumbers.toNumber p))
         (BudgetNumbers.toNumber p))
      (BudgetNumbers.ofInteger 100) in
  PrimFloat.ltb (PrimFloat.abs (change (315 # 100) (3 # 1))) (BudgetNumbers.ofInteger 5)
  = true /\
  PrimFloat.ltb (PrimFloat.abs (change (285 # 100) (3 # 1))) (BudgetNumbers.ofInteger 5)
  = true.
Proof. vm_compute. split; reflexivity. Qed.

(** X26: the trend of [getTrends], whose numbers are doubles.  With
    every operation rounded to the nearest double: the period compared
    with ends one millisecond before the current one starts, so no
    transaction counts in both; spending is never negative; the trend is
    [up] only when more was spent than in the previous period and [down]
    only when less was spent than a positive previous spending; equal
    spending is [stable], and spending after a period without any is [up].
    For a positive previous spending, a spending of at least
    105.00000000000001% of it is [up], one of at most 94.99999999999999%
    is [down], and one from 95.00000000000001% to 104.99999999999999% is
    [stable]; at the very bounds of 95% and 105% the answer depends on
    the rounding. *)
Theorem getTrends_trend :
  forall (round : Q -> Q) (rt : TransactionService.Runtime)
         (rows : list TransactionService.TransactionRow) (userId : string)
         (currentStartDate currentEndDate : Z) (accountId : option string),
    ReportingService.roundsToNearest round ->
    let t := ReportingService.getTrends None round rt rows userId currentStartDate
               currentEndDate accountId in
    let current :=
      ReportingService.td_totalSpending (ReportingService.currentPeriod t) in
    let previous :=
      ReportingService.td_totalSpending (ReportingService.previousPeriod t) in
    (forall r,
       ReportingService.inPeriod userId currentStartDate currentEndDate accountId r
       = true ->
       ReportingService.inPeriod userId
         (ReportingService.previousStartDate currentStartDate currentEndDate)
         (ReportingService.previousEndDate currentStartDate) accountId r = false) /\
    (0 <= current)%Q /\ (0 <= previous)%Q /\
    (ReportingService.trend t = ReportingService.up -> (previous < current)%Q) /\
    (ReportingService.trend t = ReportingService.down ->
     (0 < previous)%Q /\ (current < previous)%Q) /\
    ((current == previous)%Q ->
     ReportingService.trend t = ReportingService.stable) /\
    ((previous == 0)%Q -> (0 < current)%Q ->
     ReportingService.trend t = ReportingService.up) /\
    ((0 < previous)%Q ->
     ((100 + 5 * (1 + ReportingService.tolerance)) * previous <= 100 * current)%Q ->
     ReportingService.trend t = ReportingService.up) /\
    ((0 < previous)%Q ->
     (100 * current <= (100 - 5 * (1 + ReportingService.tolerance)) * previous)%Q ->
     ReportingService.trend t = ReportingService.down) /\
    ((0 < previous)%Q ->
     ((100 - 5 * (1 - ReportingService.tolerance)) * previous <= 100 * current)%Q ->
     (100 * current <= (100 + 5 * (1 - ReportingService.tolerance)) * previous)%Q ->
     ReportingService.trend t = ReportingService.stable).
Proof.
  intros round rt rows userId s e accountId Hround t current previous.
  assert (Hc : (0 <= current)%Q) by now apply totalSpendingOf_nonneg.
  assert (Hp : (0 <= previous)%Q) by now apply totalSpendingOf_nonneg.
  split.
  { intros r Hr. unfold ReportingService.inPeriod in *.
    unfold ReportingService.previousEndDate.
    repeat (apply andb_true_iff in Hr; destruct Hr as [Hr ?]).
    match goal with H : (s <=? _) = true |- _ => apply Z.leb_le in H end.
    destruct (tx_date (TransactionService.row_tx r) <=? s - 1) eqn:E.
    - apply Z.leb_le in E. lia.
    - now rewrite !andb_false_r. }
  split; [exact Hc |]. split; [exact Hp |].
  assert (Hcur : current
                 = ReportingService.td_totalSpending
                     (ReportingService.getPeriodData round rt rows userId s e
                        accountId))
    by reflexivity.
  assert (Hprev : previous
                  = ReportingService.td_totalSpending
                      (ReportingService.getPeriodData round rt rows userId
                         (ReportingService.previousStartDate s e)
                         (ReportingService.previousEndDate s) accountId))
    by reflexivity.
  clearbody current previous.
  subst t. unfold ReportingService.getTrends, ReportingService.trendsReport.
  cbv zeta. cbn [ReportingService.trend].
  rewrite <- Hcur, <- Hprev.
  destruct (BudgetService.Qlt_bool 0 previous) eqn:Eprev.
  - apply Qlt_bool_true in Eprev.
    destruct (trend_of_change
                (round (round (round (current - previous) / previous) * 100))%Q)
      as (Hup & Hdown & Hstable).
    destruct (change_direction round Hround current previous Eprev)
      as (D1 & D2 & D3 & D4 & D5 & D6).
    cbv zeta in Hup, Hdown, Hstable. cbv beta iota.
    rewrite Hup, Hdown, Hstable.
    split; [exact D1 |].
    split; [intros H; split; [exact Eprev | now apply D2] |].
    split; [exact D3 |].
    split; [intros H; lra |].
    split; [intros _; exact D4 |].
    split; [intros _; exact D5 |].
    intros _; exact D6.
  - apply Qlt_bool_false in Eprev.
    assert (Hzero : (previous == 0)%Q) by lra.
    destruct (BudgetService.Qlt_bool 0 current) eqn:Ecur.
    + apply Qlt_bool_true in Ecur.
      destruct (trend_of_change 100) as (Hup & Hdown & Hstable).
      cbv zeta in Hup, Hdown, Hstable. cbv beta iota.
      rewrite Hup, Hdown, Hstable.
      split; [intros _; lra |].
      split; [intros H; lra |].
      split; [intros H; lra |].
      split; [intros _ _; lra |].
      split; [intros H; lra |].
      split; [intros H; lra |].
      intros H; lra.
    + apply Qlt_bool_false in Ecur.
      destruct (trend_of_change 0) as (Hup & Hdown & Hstable).
      cbv zeta in Hup, Hdown, Hstable. cbv beta iota.
      rewrite Hup, Hdown, Hstable.
      split; [intros H; lra |].
      split; [intros H; lra |].
      split; [intros _; split; lra |].
      split; [intros _ H; lra |].
      split; [intros H; lra |].
      split; [intros H; lra |].
      intros H; lra.
Qed.

Lemma getTrends_trend_witness :
  (0 <= ReportingService.td_totalSpending
          (ReportingService.currentPeriod
             (ReportingService.getTrends None ReportSamples.exact
                ImportSamples.runtime ReportSamples.rows "u1" 0 2000 None)))%Q.
Proof.
  assert (Hexact : ReportingService.roundsToNearest ReportSamples.exact).
  { intros x. unfold ReportSamples.exact.
    assert (E : (x - x == 0)%Q) by ring. rewrite E.
    apply Qmult_le_0_compat; [discriminate | apply Qabs_nonneg]. }
  destruct (getTrends_trend ReportSamples.exact ImportSamples.runtime
              ReportSamples.rows "u1" 0 2000 None Hexact) as (_ & H & _).
  exact H.
Defined.

(** *** The fields of the CSV export *)

Example escapeCsvField_sample :
  ReportingService.escapeCsvField "Joe's, Inc"
  = String ReportingService.quote
      ("Joe's, Inc" +:+ String ReportingService.quote EmptyString).
Proof. reflexivity. Qed.

Section Csv.

Import ReportingService.

Local Open Scope nat_scope.

Lemma append_length a b : String.length (a +:+ b) = String.length a + String.length b.
Proof. induction a as [| c a IH]; simpl; [reflexivity | now rewrite IH]. Qed.

Lemma append_inj_l a b s : a +:+ s = b +:+ s -> a = b.
Proof.
  revert b. induction a as [| c a IH]; intros [| d b] H; simpl in H.
  - reflexivity.
  - exfalso. apply (f_equal String.length) in H.
    rewrite !append_length in H. simpl in H. lia.
  - exfalso. apply (f_equal String.length) in H.
    rewrite !append_length in H. simpl in H. lia.
  - injection H as -> H. f_equal. now apply IH.
Qed.

Lemma doubleQuotes_inj a : forall b, doubleQuotes a = doubleQuotes b -> a = b.
Proof.
  induction a as [| c a IH]; intros [| d b] H; simpl in H.
  - reflexivity.
  - destruct (Ascii.eqb d quote); discriminate.
  - destruct (Ascii.eqb c quote); discriminate.
  - destruct (Ascii.eqb c quote) eqn:Ec, (Ascii.eqb d quote) eqn:Ed.
    + apply Ascii.eqb_eq in Ec, Ed. subst. injection H as H. f_equal. now apply IH.
    + injection H as Hq _. subst d. rewrite Ascii.eqb_refl in Ed. discriminate.
    + injection H as Hq _. subst c. rewrite Ascii.eqb_refl in Ec. discriminate.
    + injection H as -> H. f_equal. now apply IH.
Qed.

Lemma includes_head c r : Js.includes (String c EmptyString) (String c r) = true.
Proof.
  cbn [Js.includes String.prefix]. destruct (ascii_dec c c) as [_ | Hne];
    [| now elim Hne].
  now destruct r.
Qed.

Lemma includes_quote_count f :
  Js.includes (String quote EmptyString) f = false -> quoteCount f = 0.
Proof.
  induction f as [| c r IH]; [reflexivity |].
  cbn [Js.includes String.prefix quoteCount]. intros H.
  apply orb_false_iff in H. destruct H as [Hp Hr].
  destruct (Ascii.eqb c quote) eqn:E.
  - apply Ascii.eqb_eq in E. subst c.
    destruct (ascii_dec quote quote) as [_ | Hne]; [| now elim Hne].
    destruct r; discriminate.
  - now rewrite IH.
Qed.

Lemma quoteCount_append a b : quoteCount (a +:+ b) = quoteCount a + quoteCount b.
Proof. induction a as [| c a IH]; simpl; [reflexivity | rewrite IH; lia]. Qed.

Lemma quoteCount_doubleQuotes f : quoteCount (doubleQuotes f) = 2 * quoteCount f.
Proof.
  induction f as [| c r IH]; [reflexivity |]. cbn [doubleQuotes quoteCount].
  destruct (Ascii.eqb c quote) eqn:E; cbn [quoteCount].
  - rewrite Ascii.eqb_refl, IH. lia.
  - rewrite E, IH. lia.
Qed.

Lemma plain_head f rest :
  needsQuotes f = false -> f <> String quote rest.
Proof.
  intros H ->. unfold needsQuotes in H. rewrite includes_head in H.
  now rewrite orb_true_r in H.
Qed.

End Csv.

(** X27: [escapeCsvField] loses nothing and leaves its quotes balanced:
    two different fields are never written the same way, and the text
    written for a field holds an even number of double quotes. *)
Theorem escapeCsvField_injective :
  (forall a b : string,
     ReportingService.escapeCsvField a = ReportingService.escapeCsvField b -> a = b) /\
  (forall field : string,
     Nat.Even (ReportingService.quoteCount (ReportingService.escapeCsvField field))).
Proof.
  split.
  - intros a b. unfold ReportingService.escapeCsvField.
    destruct (String.eqb a "") eqn:Ea; [apply String.eqb_eq in Ea; subst a |];
      (destruct (String.eqb b "") eqn:Eb; [apply String.eqb_eq in Eb; subst b |]);
      try reflexivity.
    + destruct (ReportingService.needsQuotes b); [discriminate | congruence].
    + destruct (ReportingService.needsQuotes a); [discriminate | congruence].
    + destruct (ReportingService.needsQuotes a) eqn:Na,
               (ReportingService.needsQuotes b) eqn:Nb; intros H.
      * injection H as H. apply append_inj_l in H. now apply doubleQuotes_inj.
      * exfalso. symmetry in H. now apply plain_head in H.
      * exfalso. now apply plain_head in H.
      * exact H.
  - intros field. unfold ReportingService.escapeCsvField.
    destruct (String.eqb field ""); [exists 0%nat; reflexivity |].
    destruct (ReportingService.needsQuotes field) eqn:N.
    + cbn [ReportingService.quoteCount]. rewrite Ascii.eqb_refl.
      rewrite quoteCount_append, quoteCount_doubleQuotes.
      cbn [ReportingService.quoteCount]. rewrite Ascii.eqb_refl.
      exists (S (ReportingService.quoteCount field)). lia.
    + unfold ReportingService.needsQuotes in N.
      apply orb_false_iff in N. destruct N as [N _].
      apply orb_false_iff in N. destruct N as [_ N].
      rewrite (includes_quote_count field N). exists 0%nat. reflexivity.
Qed.

(** *** Running the fraud detection again *)

Section Rerun.

Import TransactionService FraudRerun.

Variable env : Env.

Local Open Scope nat_scope.
Local Open Scope list_scope.

Lemma analyzeTransaction_effect now db transaction :
  exists returned new,
    FraudDetection.analyzeTransaction env now db transaction
    = (returned, fraudAlerts db ++ new) /\
    length new <= length returned <= 3 /\
    (forall a, In a new ->
       In a returned /\
       alert_transactionId a = tx_id transaction /\
       alert_userId a = tx_userId transaction /\
       alert_isReviewed a = false /\ alert_isFalsePositive a = false) /\
    (forall a, In a returned ->
       In a (fraudAlerts db ++ new) /\ alert_transactionId a = tx_id transaction).
Proof.
  rewrite analyzeTransaction_raiseAll. cbv zeta.
  destruct (raiseAll_effect env (FraudDetection.findings now db transaction)
              (FraudDetection.mkRun [] (fraudAlerts db)))
    as (ret & new & Ha & Ht & Hl & Hn & Hr).
  cbn [FraudDetection.alerts FraudDetection.table app] in Ha, Ht, Hr.
  exists ret, new. rewrite Ha, Ht.
  split; [reflexivity |]. split; [exact Hl |]. split.
  - intros a Hin. destruct (Hn a Hin) as [Hret (x & tbl & Hx & ->)].
    destruct (findings_inputs now db transaction x Hx) as [Hu Hi].
    simpl. auto.
  - intros a Hin. destruct (Hr a Hin) as [Htbl (x & Hx & Hk)].
    split; [exact Htbl |].
    destruct (findings_inputs now db transaction x Hx) as [_ Hi].
    unfold FraudDetection.alertKey, FraudDetection.inputKey in Hk. congruence.
Qed.

Lemma markFraudulent_reset id rows :
  map (setFraudulent false) (markFraudulent id rows) = map (setFraudulent false) rows.
Proof.
  unfold markFraudulent. rewrite map_map. apply map_ext. intros r.
  now destruct (String.eqb (tx_id (row_tx r)) id).
Qed.

Lemma insertByDateAsc_perm r l : Permutation (insertByDateAsc r l) (r :: l).
Proof.
  induction l as [| x xs IH]; simpl; [reflexivity |].
  destruct (tx_date (row_tx x) <? tx_date (row_tx r))%Z; [| reflexivity].
  rewrite IH. apply perm_swap.
Qed.

Lemma orderByDateAsc_perm l : Permutation (orderByDateAsc l) l.
Proof.
  induction l as [| x xs IH]; simpl; [reflexivity |].
  rewrite insertByDateAsc_perm. now constructor.
Qed.

Lemma in_markFraudulent id rows r' :
  In r' (markFraudulent id rows) ->
  exists r, In r rows /\
    r' = if String.eqb (tx_id (row_tx r)) id then setFraudulent true r else r.
Proof.
  unfold markFraudulent. intros H. apply in_map_iff in H.
  destruct H as (r & <- & Hr). now exists r.
Qed.

(** A turn of the loop keeps the invariant. *)
Lemma analyzeAndFlag_keeps rows n bound now st tx :
  (exists r, In r rows /\ tx_id (row_tx tx) = tx_id (row_tx r) /\
             tx_userId (row_tx tx) = tx_userId (row_tx r)) ->
  rerunInvariant rows (S n) bound st ->
  rerunInvariant rows n bound (analyzeAndFlag env now st tx).
Proof.
  intros (r0 & Hr0 & Hid0 & Hu0) (I1 & I2 & I3 & I4 & I5 & I6 & I7).
  unfold analyzeAndFlag.
  pose proof (analyzeTransaction_unique env now (view st) (toResponse (row_tx tx)) I2)
    as Hunique.
  destruct (analyzeTransaction_effect now (view st) (toResponse (row_tx tx)))
    as (returned & new & Heq & Hlen & Hnew & Hret).
  rewrite Heq in *. cbn [snd view fraudAlerts toResponse tx_id tx_userId] in *.
  destruct returned as [| a0 more].
  - assert (new = []) by (destruct new; [reflexivity | simpl in Hlen; lia]).
    subst new. rewrite app_nil_r in *.
    unfold rerunInvariant.
    cbn [rr_rows rr_alerts rr_alertsCreated rr_transactionsFlagged].
    repeat (split; [assumption || lia |]). lia.
  - unfold rerunInvariant.
    cbn [rr_rows rr_alerts rr_alertsCreated rr_transactionsFlagged].
    split; [now rewrite markFraudulent_reset |].
    split; [exact Hunique |].
    split.
    { intros r' Hr'. apply in_markFraudulent in Hr'. destruct Hr' as (r & Hr & ->).
      destruct (String.eqb (tx_id (row_tx r)) (tx_id (row_tx tx))) eqn:E.
      - apply String.eqb_eq in E. cbn [setFraudulent row_isFraudulent row_tx].
        split; [intros _ | reflexivity].
        exists a0. destruct (Hret a0 (or_introl eq_refl)) as [Hin Ht].
        split; [exact Hin | congruence].
      - apply String.eqb_neq in E. rewrite (I3 r Hr). split.
        + intros (a & Ha & Ht). exists a. split; [apply in_or_app; now left | exact Ht].
        + intros (a & Ha & Ht). apply in_app_or in Ha. destruct Ha as [Ha | Ha].
          * now exists a.
          * exfalso. destruct (Hnew a Ha) as (_ & Ht' & _). congruence. }
    split.
    { intros a Ha. apply in_app_or in Ha. destruct Ha as [Ha | Ha]; [now apply I4 |].
      destruct (Hnew a Ha) as (_ & Ht & Hu & Hrev & Hfp).
      split; [exact Hrev |]. split; [exact Hfp |].
      exists r0. split; [exact Hr0 |]. split; congruence. }
    rewrite length_app. cbn [length] in *. lia.
Qed.

Lemma analyzeAll_keeps rows bound clock txs :
  forall i st,
    (forall tx, In tx txs ->
       exists r, In r rows /\ tx_id (row_tx tx) = tx_id (row_tx r) /\
                 tx_userId (row_tx tx) = tx_userId (row_tx r)) ->
    rerunInvariant rows (length txs) bound st ->
    rerunInvariant rows 0 bound (analyzeAll env clock i st txs).
Proof.
  induction txs as [| tx rest IH]; intros i st Htxs Hinv; [exact Hinv |].
  cbn [analyzeAll]. apply IH.
  - intros t Ht. apply Htxs. now right.
  - apply analyzeAndFlag_keeps; [apply Htxs; now left | exact Hinv].
Qed.

End Rerun.

(** X28: after the fraud detection has been run again, flags and alerts
    agree.  The script changes nothing of a transaction but its flag; a
    transaction is flagged as fraudulent exactly when the alert table
    holds an alert for it; every alert is unreviewed, is not marked as a
    false positive and names a stored transaction and its user; no two
    alerts share a transaction and a type; at most every transaction is
    flagged, and at most three alerts per transaction are counted. *)
Theorem rerunFraudDetection_consistent :
  forall (env : Env) (clock : nat -> Z)
         (rows : list TransactionService.TransactionRow),
    let st := FraudRerun.rerunFraudDetection env clock rows in
    map (FraudRerun.setFraudulent false) (FraudRerun.rr_rows st)
    = map (FraudRerun.setFraudulent false) rows /\
    FraudDetection.uniqueAlerts (FraudRerun.rr_alerts st) /\
    (forall r, In r (FraudRerun.rr_rows st) ->
       (TransactionService.row_isFraudulent r = true <->
        exists a, In a (FraudRerun.rr_alerts st) /\
                  alert_transactionId a = tx_id (TransactionService.row_tx r))) /\
    (forall a, In a (FraudRerun.rr_alerts st) ->
       alert_isReviewed a = false /\ alert_isFalsePositive a = false /\
       exists r, In r rows /\
                 alert_transactionId a = tx_id (TransactionService.row_tx r) /\
                 alert_userId a = tx_userId (TransactionService.row_tx r)) /\
    (FraudRerun.rr_transactionsFlagged st <= length rows)%nat /\
    (length (FraudRerun.rr_alerts st) <= FraudRerun.rr_alertsCreated st)%nat /\
    (FraudRerun.rr_alertsCreated st <= 3 * length rows)%nat.
Proof.
  intros env clock rows st.
  assert (Hinv : FraudRerun.rerunInvariant rows 0 (length rows) st).
  { subst st. unfold FraudRerun.rerunFraudDetection. cbv zeta.
    apply analyzeAll_keeps.
    - intros tx Htx.
      apply (Permutation_in _ (orderByDateAsc_perm _)) in Htx.
      apply in_map_iff in Htx. destruct Htx as (r & <- & Hr).
      exists r. split; [exact Hr |]. split; reflexivity.
    - unfold FraudRerun.rerunInvariant.
      cbn [FraudRerun.rr_rows FraudRerun.rr_alerts FraudRerun.rr_alertsCreated
           FraudRerun.rr_transactionsFlagged].
      rewrite (Permutation_length (orderByDateAsc_perm _)), length_map.
      split.
      { rewrite map_map. apply map_ext. reflexivity. }
      split; [apply NoDup_nil_2 |].
      split.
      { intros r Hr. apply in_map_iff in Hr. destruct Hr as (r0 & <- & _).
        cbn [FraudRerun.setFraudulent TransactionService.row_isFraudulent].
        split; [discriminate | intros (a & [] & _)]. }
      split; [intros a [] |].
      cbn [length]. lia. }
  destruct Hinv as (I1 & I2 & I3 & I4 & I5 & I6 & I7).
  split; [exact I1 |]. split; [exact I2 |]. split; [exact I3 |].
  split; [exact I4 |]. split; [lia |]. split; [exact I6 | lia].
Qed.

(** *** The answers of the routes *)

(** X29: the budget routes answer no error that the budget service
    raises itself with a status 500.  The [catch] of the route answers 400
    to every error [createBudget] throws; to those of [updateBudget] it
    answers 404 when the budget is not the user's and 400 otherwise; to
    those of [deleteBudget] and [getBudgetProgress], which are thrown only
    for a budget that is not the user's, it answers 404.  (An error of the
    database itself is none of these and is answered with 500.) *)
Theorem budget_routes_statuses :
  forall (env : Env) (db : Db) (now : Z),
    (forall input message db',
       BudgetService.createBudget env db input = (Throw message, db') ->
       BudgetRoutes.createErrorStatus message = 400%nat) /\
    (forall budgetId userId updates message db',
       BudgetMaintenance.updateBudget db budgetId userId updates
       = (Throw message, db') ->
       (BudgetService.getBudgetById db budgetId userId = None /\
        BudgetRoutes.updateErrorStatus message = 404%nat)
       \/ (BudgetService.getBudgetById db budgetId userId <> None /\
           BudgetRoutes.updateErrorStatus message = 400%nat)) /\
    (forall budgetId userId message db',
       BudgetMaintenance.deleteBudget db budgetId userId = (Throw message, db') ->
       BudgetService.getBudgetById db budgetId userId = None /\
       BudgetRoutes.notFoundStatus message = 404%nat) /\
    (forall budgetId userId message,
       BudgetService.getBudgetProgress db now budgetId userId = Throw message ->
       BudgetService.getBudgetById db budgetId userId = None /\
       BudgetRoutes.notFoundStatus message = 404%nat).
Proof.
  intros env db now. split; [| split; [| split]].
  - intros input message db'. unfold BudgetService.createBudget.
    destruct (BudgetService.validateCreateInput input) as [| e errors].
    + destruct (find _ (categories db)).
      * destruct (find _ (budgets db)); [| discriminate].
        intros [= <- _]. reflexivity.
      * intros [= <- _]. reflexivity.
    + intros [= <- _]. reflexivity.
  - intros budgetId userId updates message db'.
    unfold BudgetMaintenance.updateBudget.
    destruct (BudgetService.getBudgetById db budgetId userId) as [existing |];
      [intros Hthrow; right; split; [discriminate |]; revert Hthrow
      | intros [= <- _]; left; split; reflexivity].
    destruct (match BudgetMaintenance.up_amount updates with
              | Some a => Qle_bool a 0
              | None => false
              end); [intros [= <- _]; reflexivity |].
    destruct (match BudgetMaintenance.up_period updates with
              | Some p => negb (String.eqb p "")
                          && negb (BudgetService.validatePeriod p)
              | None => false
              end); [intros [= <- _]; reflexivity |].
    destruct (match BudgetMaintenance.up_alertThreshold updates with
              | Some t => negb (BudgetService.validateAlertThreshold t)
              | None => false
              end); [intros [= <- _]; reflexivity |].
    cbv zeta.
    destruct (negb (BudgetService.validateDateRange _ _));
      [intros [= <- _]; reflexivity | discriminate].
  - intros budgetId userId message db'.
    unfold BudgetMaintenance.deleteBudget.
    destruct (BudgetService.getBudgetById db budgetId userId); [discriminate |].
    intros [= <- _]. split; reflexivity.
  - intros budgetId userId message.
    unfold BudgetService.getBudgetProgress, BudgetService.calculateSpending.
    destruct (BudgetService.getBudgetById db budgetId userId); [discriminate |].
    intros [= <-]. split; reflexivity.
Qed.

(** X30: what GET /api/fraud/alerts lists.  An alert is listed exactly
    when it is an alert of the user that has the severity and the type
    asked for, if any, and is unreviewed unless the request says
    [includeReviewed=true]: without that parameter, or with any other
    value, no reviewed alert is listed. *)
Theorem fraud_route_lists :
  forall (db : Db) (rows : list FraudReview.AlertRow) (userId : string)
         (includeReviewed : option string) (severity : option FraudAlertSeverity)
         (alertType : option FraudAlertType) (r : FraudReview.AlertRow),
    (exists x, In x (FraudRoutes.getAlerts db rows userId includeReviewed
                       severity alertType) /\ fst x = r)
    <->
    (In r rows /\
     alert_userId (FraudReview.ar_alert r) = userId /\
     (includeReviewed = Some "true"
      \/ alert_isReviewed (FraudReview.ar_alert r) = false) /\
     (forall s, severity = Some s -> alert_severity (FraudReview.ar_alert r) = s) /\
     (forall t, alertType = Some t -> alert_alertType (FraudReview.ar_alert r) = t)).
Proof.
  intros db rows userId includeReviewed severity alertType.
  unfold FraudRoutes.getAlerts, FraudReview.getFraudAlerts. cbv zeta.
  assert (Hmatch : forall r,
    FraudReview.alertMatches userId
      (Some (FraudReview.mkAlertOptions
               (Some match includeReviewed with
                     | Some s => String.eqb s "true"
                     | None => false
                     end) severity alertType)) r = true
    <-> alert_userId (FraudReview.ar_alert r) = userId /\
        (includeReviewed = Some "true"
         \/ alert_isReviewed (FraudReview.ar_alert r) = false) /\
        (forall s, severity = Some s -> alert_severity (FraudReview.ar_alert r) = s) /\
        (forall t, alertType = Some t -> alert_alertType (FraudReview.ar_alert r) = t)).
  { intros r. unfold FraudReview.alertMatches.
    cbn [FraudReview.opt_includeReviewed FraudReview.opt_severity
         FraudReview.opt_alertType].
    rewrite !andb_true_iff, String.eqb_eq.
    assert (Hrev :
      match (match includeReviewed with
             | Some s => String.eqb s "true"
             | None => false
             end) with
      | false => negb (alert_isReviewed (FraudReview.ar_alert r))
      | true => true
      end = true
      <-> includeReviewed = Some "true"
          \/ alert_isReviewed (FraudReview.ar_alert r) = false).
    { destruct includeReviewed as [s |].
      - destruct (String.eqb s "true") eqn:E.
        + apply String.eqb_eq in E. subst s. tauto.
        + apply String.eqb_neq in E. rewrite negb_true_iff. split; [tauto |].
          intros [[= H] | H]; [congruence | exact H].
      - rewrite negb_true_iff. split; [tauto |].
        intros [H | H]; [discriminate | exact H]. }
    assert (Hsev :
      match severity with
      | Some s => FraudReview.severityEqb (alert_severity (FraudReview.ar_alert r)) s
      | None => true
      end = true
      <-> forall s, severity = Some s -> alert_severity (FraudReview.ar_alert r) = s).
    { destruct severity as [s |].
      - split.
        + intros H s' [= <-].
          destruct (alert_severity (FraudReview.ar_alert r)), s;
            simpl in H; congruence.
        + intros H. rewrite (H s eq_refl). now destruct s.
      - split; [discriminate | reflexivity]. }
    assert (Htype :
      match alertType with
      | Some t => FraudDetection.alertTypeEqb (alert_alertType (FraudReview.ar_alert r)) t
      | None => true
      end = true
      <-> forall t, alertType = Some t -> alert_alertType (FraudReview.ar_alert r) = t).
    { destruct alertType as [t |].
      - split.
        + intros H t' [= <-].
          destruct (alert_alertType (FraudReview.ar_alert r)), t;
            simpl in H; congruence.
        + intros H. rewrite (H t eq_refl). now destruct t.
      - split; [discriminate | reflexivity]. }
    rewrite Hrev, Hsev, Htype. tauto. }
  intros r. split.
  - intros (x & Hx & <-). apply in_map_iff in Hx. destruct Hx as (r0 & <- & Hr0).
    cbn [fst]. apply in_rev, filter_In in Hr0. destruct Hr0 as [Hin Hm].
    split; [exact Hin | now apply Hmatch].
  - intros (Hin & Hrest).
    match goal with |- exists x, In x (map ?f _) /\ _ => exists (f r) end.
    split; [| reflexivity].
    apply in_map_iff. exists r. split; [reflexivity |].
    apply in_rev. rewrite rev_involutive. apply filter_In.
    split; [exact Hin | now apply Hmatch].
Qed.
